(** * Pivot tables of excelize: a shallow embedding of [pivotTable.go]

    The development follows the source file function by function.  Go
    values are modelled as follows:
    - [string] is Rocq's [string], [[]string] a [list string], [int] is [Z];
    - a function returning [(v, err)] returns a pair whose second component
      is [option error] ([None] is Go's [nil]);
    - a call that may panic has an [outcome]: it returns its results or it
      panics.  No function of [pivotTable.go] recovers, so the panic of a
      callee is the panic of its caller.  A panic carries no document: the
      one source of panics is the range parser, which every function calls
      before its first write, and a build panics in its validation or not
      at all (lemma [AddPivotTable_panic]);
    - methods of [*File] that write to the document take the document and
      return the updated one;
    - [map[string][]byte] (the part table [f.XLSX]) is a [gmap string (list byte)].

    Coordinates are column and row numbers of a worksheet, positions are
    indices of slices held in memory and counts are numbers of parts held in
    memory, so none of the [int] arithmetic on them can leave the range of
    [int]; the single place where a number read from the workbook is
    incremented ([addWorkbookPivotCache]) writes the wrap-around out. *)

From Stdlib Require Import ZArith String Ascii List Lia DecimalString.
From Stdlib.Strings Require Import Byte.
From stdpp Require Import gmap strings list fin_maps.
From Equations Require Import Equations.

Local Open Scope string_scope.
Local Open Scope list_scope.
Local Open Scope Z_scope.

(** ** Go's standard library, as far as [pivotTable.go] uses it *)

Module strings.

(** [strings.Split(s, sep)] for a one-byte separator: the pieces of [s]
    between the occurrences of [sep]; always at least one piece. *)
Fixpoint Split (s : string) (sep : ascii) : list string :=
  match s with
  | EmptyString => [EmptyString]
  | String c s' =>
      if Ascii.eqb c sep then EmptyString :: Split s' sep
      else match Split s' sep with
           | piece :: pieces => String c piece :: pieces
           | [] => [String c EmptyString]
           end
  end.

(** The scan behind [strings.Replace(s, old, new, -1)] for a non-empty
    [old]: left to right, occurrences do not overlap.  [skip] counts the
    bytes of the occurrence just replaced that are still to be dropped. *)
Fixpoint replaceFrom (skip : nat) (s old new : string) : string :=
  match s with
  | EmptyString => EmptyString
  | String c s' =>
      match skip with
      | S k => replaceFrom k s' old new
      | O =>
          if String.prefix old s
          then new +:+ replaceFrom (Nat.pred (String.length old)) s' old new
          else String c (replaceFrom O s' old new)
      end
  end.

(** [strings.Replace(s, old, new, -1)], [old] non-empty (both call sites
    pass a literal). *)
Definition Replace (s old new : string) : string := replaceFrom O s old new.

(** [strings.Contains(s, substr)]. *)
Fixpoint Contains (s substr : string) : bool :=
  String.prefix substr s ||
  match s with
  | EmptyString => false
  | String _ s' => Contains s' substr
  end.

(** [strings.TrimPrefix(s, prefix)]. *)
Definition TrimPrefix (s prefix : string) : string :=
  if String.prefix prefix s
  then String.substring (String.length prefix)
         (String.length s - String.length prefix) s
  else s.

End strings.

Module strconv.
(** [strconv.Itoa]: decimal digits, a leading minus sign when negative. *)
Definition Itoa (i : Z) : string := NilZero.string_of_int (Z.to_int i).
End strconv.

(** Go's [error]; [errors.New] and [fmt.Errorf] build it from a message. *)
Definition error := string.

(** What a call does: it returns its results, or it panics and returns
    nothing. *)
Inductive outcome (A : Type) : Type :=
| Returns (a : A)
| Panics.
Arguments Returns {A} a.
Arguments Panics {A}.

(** [call p := e in k]: the results of [e] are named [p] in what follows;
    when [e] panics, what follows is not run. *)
Notation "'call' p := e 'in' k" :=
  (match e with Returns p => k | Panics => Panics end)
  (at level 10, p pattern, e at level 200, k at level 200).

(** The outcome of a call whose results are passed through [g]. *)
Definition returning {A B : Type} (g : A -> B) (o : outcome A) : outcome B :=
  call a := o in Returns (g a).

(** The range of Go's [int] (64 bits) and its wrap-around. *)
Definition MaxInt : Z := 2 ^ 63 - 1.
Definition int_wrap (z : Z) : Z := (z + 2 ^ 63) mod 2 ^ 64 - 2 ^ 63.

(** ** Data model *)

(** [PivotTableOption] directly maps the format settings of the pivot table. *)
Record PivotTableOption := mkPivotTableOption {
  DataRange : string;
  PivotTableRange : string;
  Rows : list string;
  Columns : list string;
  Data : list string;
  Page : list string
}.

(** The cache definition ([xlsxPivotCacheDefinition] and its children).  A
    pointer to a struct is the struct; a pointer that the code may leave
    [nil] is an [option]. *)
Record xlsxSharedItems := { si_Count : Z }.
Record xlsxCacheField := { cf_Name : string; cf_SharedItems : option xlsxSharedItems }.
Record xlsxCacheFields := { cfs_Count : Z; cfs_CacheField : list xlsxCacheField }.
Record xlsxWorksheetSource := { wss_Ref : string; wss_Sheet : string }.
Record xlsxCacheSource := { cs_Type : string; cs_WorksheetSource : option xlsxWorksheetSource }.
Record xlsxPivotCacheDefinition := {
  pc_SaveData : bool;
  pc_RefreshOnLoad : bool;
  pc_CacheSource : option xlsxCacheSource;
  pc_CacheFields : xlsxCacheFields
}.

(** The table definition ([xlsxPivotTableDefinition] and its children). *)
Record xlsxLocation := {
  loc_Ref : string; loc_FirstHeaderRow : Z; loc_FirstDataRow : Z; loc_FirstDataCol : Z
}.
Record xlsxItem := { item_T : string }.
Record xlsxItems := { items_Count : Z; items_Item : list xlsxItem }.
Record xlsxPivotField := {
  pf_Axis : string; pf_DataField : bool; pf_Items : option xlsxItems
}.
Record xlsxPivotFields := { pfs_Count : Z; pfs_PivotField : list xlsxPivotField }.
Record xlsxField := { field_X : Z }.
Record xlsxRowFields := { rf_Count : Z; rf_Field : list xlsxField }.
Record xlsxColFields := { colf_Count : Z; colf_Field : list xlsxField }.
Record xlsxX := { }.
Record xlsxI := { i_X : list xlsxX }.
Record xlsxRowItems := { ri_Count : Z; ri_I : list xlsxI }.
Record xlsxColItems := { ci_Count : Z; ci_I : list xlsxI }.
Record xlsxDataField := { df_Fld : Z }.
Record xlsxDataFields := { dfs_Count : Z; dfs_DataField : list xlsxDataField }.
Record xlsxPivotTableStyleInfo := {
  style_Name : string;
  style_ShowRowHeaders : bool;
  style_ShowColHeaders : bool;
  style_ShowLastColumn : bool
}.
Record xlsxPivotTableDefinition := {
  pt_Name : string;
  pt_CacheID : Z;
  pt_DataCaption : string;
  pt_Location : xlsxLocation;
  pt_PivotFields : xlsxPivotFields;
  pt_RowFields : xlsxRowFields;
  pt_RowItems : xlsxRowItems;
  pt_ColFields : option xlsxColFields;
  pt_ColItems : xlsxColItems;
  pt_DataFields : xlsxDataFields;
  pt_PivotTableStyleInfo : xlsxPivotTableStyleInfo
}.

(** Field assignments through the [pt] pointer. *)
Definition set_PivotFields (pt : xlsxPivotTableDefinition) (v : xlsxPivotFields) :=
  {| pt_Name := pt_Name pt; pt_CacheID := pt_CacheID pt;
     pt_DataCaption := pt_DataCaption pt; pt_Location := pt_Location pt;
     pt_PivotFields := v; pt_RowFields := pt_RowFields pt;
     pt_RowItems := pt_RowItems pt; pt_ColFields := pt_ColFields pt;
     pt_ColItems := pt_ColItems pt; pt_DataFields := pt_DataFields pt;
     pt_PivotTableStyleInfo := pt_PivotTableStyleInfo pt |}.
Definition set_RowFields (pt : xlsxPivotTableDefinition) (v : xlsxRowFields) :=
  {| pt_Name := pt_Name pt; pt_CacheID := pt_CacheID pt;
     pt_DataCaption := pt_DataCaption pt; pt_Location := pt_Location pt;
     pt_PivotFields := pt_PivotFields pt; pt_RowFields := v;
     pt_RowItems := pt_RowItems pt; pt_ColFields := pt_ColFields pt;
     pt_ColItems := pt_ColItems pt; pt_DataFields := pt_DataFields pt;
     pt_PivotTableStyleInfo := pt_PivotTableStyleInfo pt |}.
Definition set_ColFields (pt : xlsxPivotTableDefinition) (v : option xlsxColFields) :=
  {| pt_Name := pt_Name pt; pt_CacheID := pt_CacheID pt;
     pt_DataCaption := pt_DataCaption pt; pt_Location := pt_Location pt;
     pt_PivotFields := pt_PivotFields pt; pt_RowFields := pt_RowFields pt;
     pt_RowItems := pt_RowItems pt; pt_ColFields := v;
     pt_ColItems := pt_ColItems pt; pt_DataFields := pt_DataFields pt;
     pt_PivotTableStyleInfo := pt_PivotTableStyleInfo pt |}.
Definition set_DataFields (pt : xlsxPivotTableDefinition) (v : xlsxDataFields) :=
  {| pt_Name := pt_Name pt; pt_CacheID := pt_CacheID pt;
     pt_DataCaption := pt_DataCaption pt; pt_Location := pt_Location pt;
     pt_PivotFields := pt_PivotFields pt; pt_RowFields := pt_RowFields pt;
     pt_RowItems := pt_RowItems pt; pt_ColFields := pt_ColFields pt;
     pt_ColItems := pt_ColItems pt; pt_DataFields := v;
     pt_PivotTableStyleInfo := pt_PivotTableStyleInfo pt |}.

Definition set_CacheFields (pc : xlsxPivotCacheDefinition) (v : xlsxCacheFields) :=
  {| pc_SaveData := pc_SaveData pc; pc_RefreshOnLoad := pc_RefreshOnLoad pc;
     pc_CacheSource := pc_CacheSource pc; pc_CacheFields := v |}.

(** [x.List = append(x.List, e)] on the list-carrying children: the count
    attribute is left as it is. *)
Definition appendCacheField (pc : xlsxPivotCacheDefinition) (x : xlsxCacheField) :=
  set_CacheFields pc
    {| cfs_Count := cfs_Count (pc_CacheFields pc);
       cfs_CacheField := cfs_CacheField (pc_CacheFields pc) ++ [x] |}.
Definition appendPivotField (pt : xlsxPivotTableDefinition) (x : xlsxPivotField) :=
  set_PivotFields pt
    {| pfs_Count := pfs_Count (pt_PivotFields pt);
       pfs_PivotField := pfs_PivotField (pt_PivotFields pt) ++ [x] |}.
Definition appendRowField (pt : xlsxPivotTableDefinition) (x : xlsxField) :=
  set_RowFields pt
    {| rf_Count := rf_Count (pt_RowFields pt); rf_Field := rf_Field (pt_RowFields pt) ++ [x] |}.
Definition appendDataField (pt : xlsxPivotTableDefinition) (x : xlsxDataField) :=
  set_DataFields pt
    {| dfs_Count := dfs_Count (pt_DataFields pt);
       dfs_DataField := dfs_DataField (pt_DataFields pt) ++ [x] |}.
(** [pt.ColFields] is a pointer; it is set before anything is appended. *)
Definition appendColField (pt : xlsxPivotTableDefinition) (x : xlsxField) :=
  set_ColFields pt
    ((fun c => {| colf_Count := colf_Count c; colf_Field := colf_Field c ++ [x] |})
       <$> pt_ColFields pt).

(** An entry of the workbook's cache registry ([wb.PivotCaches.PivotCache]). *)
Record xlsxPivotCache := { CacheID : Z; RID : string }.

(** A relationship of a [.rels] part and an override of the content-type
    manifest. *)
Record xlsxRelationship := {
  rel_ID : string; rel_Type : string; rel_Target : string; rel_TargetMode : string
}.
Record xlsxOverride := { ov_Index : Z; ov_Kind : string }.

#[global] Instance xlsxOverride_eq_dec : EqDecision xlsxOverride.
Proof. solve_decision. Defined.

(** The open document, as far as the pivot-table code reads and writes it:
    the part table, the sheet-name index, the workbook's cache registry
    ([nil] until first used), the relationship tables by path and the
    content-type manifest. *)
Record File := mkFile {
  XLSX : gmap string (list byte);
  sheetMap : gmap string string;
  PivotCaches : option (list xlsxPivotCache);
  Relationships : gmap string (list xlsxRelationship);
  ContentTypes : list xlsxOverride
}.

(** ** Collaborators outside [pivotTable.go]

    The cell model, the worksheet reader and the XML encoder are used by the
    pivot-table code but defined elsewhere; they are taken as an interface.
    [areaRefToCoordinates] yields the four numbers [x1, y1, x2, y2] that
    [adjustRange] reads at indices 0 to 3, with an error or not, when it
    returns; it indexes the pieces of its argument and may panic instead.
    [workSheetReader] reports whether the sheet can be read; the worksheet
    it returns is passed on by [AddPivotTable] and used nowhere.
    [Marshal_*] stand for [xml.Marshal] at the two struct types.  These
    others report their failures as errors. *)
Class Collaborators := {
  areaRefToCoordinates : string -> outcome ((Z * Z * Z * Z) * option error);
  CoordinatesToCellName : Z -> Z -> string * option error;
  GetCellValue : File -> string -> string -> string * option error;
  workSheetReader : File -> string -> option error;
  trimSheetName : string -> string;
  XMLHeader : list byte;
  SourceRelationshipPivotCache : string;
  SourceRelationshipPivotTable : string;
  Marshal_PivotCacheDefinition : xlsxPivotCacheDefinition -> list byte * option error;
  Marshal_PivotTableDefinition : xlsxPivotTableDefinition -> list byte * option error
}.

(** Modelled from the spec: [saveFileList] is not in [pivotTable.go]; it
    persists a part under its path in the part table, the XML header first. *)
Definition saveFileList {host : Collaborators} (f : File) (name : string) (content : list byte) : File :=
  mkFile (<[name := XMLHeader ++ content]> (XLSX f)) (sheetMap f) (PivotCaches f)
         (Relationships f) (ContentTypes f).

(** Modelled from the spec: [addRels] is not in [pivotTable.go]; the
    relationship store is used through an append contract.  It appends a
    relationship to the table at [relPath] and returns its sequence number. *)
Definition addRels (f : File) (relPath relType target targetMode : string) : File * Z :=
  let rels := default [] (Relationships f !! relPath) in
  let rID := Z.of_nat (length rels) + 1 in
  (mkFile (XLSX f) (sheetMap f) (PivotCaches f)
     (<[relPath := rels ++ [{| rel_ID := "rId" +:+ strconv.Itoa rID; rel_Type := relType;
                              rel_Target := target; rel_TargetMode := targetMode |}]]>
        (Relationships f))
     (ContentTypes f), rID).

(** Modelled from the spec: [addContentTypePart] is not in [pivotTable.go];
    it declares the part of the given kind and number in the content-type
    manifest, which holds one override per part: the override is appended
    unless the manifest has an override of that part already. *)
Definition addContentTypePart (f : File) (index : Z) (contentType : string) : File :=
  if existsb (fun v => (ov_Index v =? index) && String.eqb (ov_Kind v) contentType)
       (ContentTypes f)
  then f
  else mkFile (XLSX f) (sheetMap f) (PivotCaches f) (Relationships f)
         (ContentTypes f ++ [{| ov_Index := index; ov_Kind := contentType |}]).

(** [coordinates[i]].  Go panics past the end of the slice; every slice
    indexed below comes from a successful [adjustRange] and has four
    elements (lemma [adjustRange_ok_length]), so the default is never taken. *)
Definition at_index (coordinates : list Z) (i : nat) : Z := nth i coordinates 0.

(** ** The functions of [pivotTable.go] *)

Section PivotTable.
Context {host : Collaborators}.

(** [adjustRange] adjust range, for example: adjust Sheet1!$E$31:$A$1 to
    Sheet1!$A$1:$E$31.  The receiver is not used. *)
Definition adjustRange (rangeStr : string) : outcome (string * list Z * option error) :=
  if (String.length rangeStr <? 1)%nat then Returns ("", [], Some "parameter is required")
  else
    let rng := strings.Split rangeStr "!" in
    if negb (length rng =? 2)%nat then Returns ("", [], Some "parameter is invalid")
    else
      let trimRng := strings.Replace (nth 1 rng "") "$" "" in
      call (coordinates, err) := areaRefToCoordinates trimRng in
      match err with
      | Some e => Returns (nth 0 rng "", [], Some e)
      | None =>
          let '(x1, y1, x2, y2) := coordinates in
          if (x1 =? x2) && (y1 =? y2)
          then Returns (nth 0 rng "", [], Some "parameter is invalid")
          else
            (* Correct the coordinate area, such correct C1:B3 to B1:C3. *)
            let '(x1, x2) := if x2 <? x1 then (x2, x1) else (x1, x2) in
            let '(y1, y2) := if y2 <? y1 then (y2, y1) else (y1, y2) in
            Returns (nth 0 rng "", [x1; y1; x2; y2], None)
      end.

(** The loop of [getPivotFieldsOrder]:
    [for col := coordinates[0]; col <= coordinates[2]; col++]. *)
Equations orderLoop (f : File) (dataSheet : string) (row last col : Z)
    (order : list string) : list string * option error
    by wf (Z.to_nat (last + 1 - col)) lt :=
  orderLoop f dataSheet row last col order with Z_le_dec col last := {
    | right _ => (order, None)
    | left _ with GetCellValue f dataSheet (fst (CoordinatesToCellName col row)) := {
        | (name, Some e) => (order, Some e)
        | (name, None) => orderLoop f dataSheet row last (col + 1) (order ++ [name]) } }.
Next Obligation. lia. Qed.

Definition getPivotFieldsOrder (f : File) (dataRange : string)
    : outcome (list string * option error) :=
  let order := [] in
  (* data range has been checked *)
  call (dataSheet, coordinates, err) := adjustRange dataRange in
  match err with
  | Some e => Returns (order, Some ("parameter 'DataRange' parsing error: " +:+ e))
  | None =>
      Returns (orderLoop f dataSheet (at_index coordinates 1) (at_index coordinates 2)
                 (at_index coordinates 0) order)
  end.

(** [inStrSlice] provides a method to check if an element is present in an
    array, and return the index of its location, otherwise return -1.
    [inStrSliceFrom idx] is the loop with [idx] the index of the head. *)
Fixpoint inStrSliceFrom (idx : Z) (a : list string) (x : string) : Z :=
  match a with
  | [] => -1
  | n :: a' => if String.eqb x n then idx else inStrSliceFrom (idx + 1) a' x
  end.

Definition inStrSlice (a : list string) (x : string) : Z := inStrSliceFrom 0 a x.

(** [getPivotFieldsIndex] convert the column of the first row in the data
    region to a sequential index by given fields and pivot option. *)
Definition getPivotFieldsIndex (f : File) (fields : list string) (opt : PivotTableOption)
    : outcome (list Z * option error) :=
  let pivotFieldsIndex := [] in
  call (orders, err) := getPivotFieldsOrder f (DataRange opt) in
  match err with
  | Some e => Returns (pivotFieldsIndex, Some e)
  | None =>
      Returns
        (fold_left (fun pivotFieldsIndex field =>
                      let pos := inStrSlice orders field in
                      if negb (pos =? -1) then pivotFieldsIndex ++ [pos] else pivotFieldsIndex)
           fields pivotFieldsIndex, None)
  end.

(** Lines 196 to 218 of [addPivotCache]: the cache definition built from
    the resolved data range and the field order. *)
Definition newPivotCacheDefinition (dataSheet : string) (coordinates : list Z)
    (order : list string) : xlsxPivotCacheDefinition :=
  let hcell := fst (CoordinatesToCellName (at_index coordinates 0) (at_index coordinates 1)) in
  let vcell := fst (CoordinatesToCellName (at_index coordinates 2) (at_index coordinates 3)) in
  let pc :=
    {| pc_SaveData := false;
       pc_RefreshOnLoad := true;
       pc_CacheSource :=
         Some {| cs_Type := "worksheet";
                 cs_WorksheetSource :=
                   Some {| wss_Ref := hcell +:+ ":" +:+ vcell; wss_Sheet := dataSheet |} |};
       pc_CacheFields := {| cfs_Count := 0; cfs_CacheField := [] |} |} in
  let pc :=
    fold_left (fun pc name =>
                 appendCacheField pc
                   {| cf_Name := name; cf_SharedItems := Some {| si_Count := 0 |} |})
      order pc in
  set_CacheFields pc
    {| cfs_Count := Z.of_nat (length (cfs_CacheField (pc_CacheFields pc)));
       cfs_CacheField := cfs_CacheField (pc_CacheFields pc) |}.

(** [addPivotCache] provides a function to create a pivot cache by given
    properties.  The worksheet argument is not used. *)
Definition addPivotCache (f : File) (pivotCacheID : Z) (pivotCacheXML : string)
    (opt : PivotTableOption) : outcome (File * option error) :=
  (* validate data range *)
  call (dataSheet, coordinates, err) := adjustRange (DataRange opt) in
  match err with
  | Some e => Returns (f, Some ("parameter 'DataRange' parsing error: " +:+ e))
  | None =>
      call (order, err) := getPivotFieldsOrder f (DataRange opt) in
      match err with
      | Some e => Returns (f, Some e)
      | None =>
          let pc := newPivotCacheDefinition dataSheet coordinates order in
          let '(pivotCache, err) := Marshal_PivotCacheDefinition pc in
          Returns (saveFileList f pivotCacheXML pivotCache, err)
      end
  end.

(** The four pivot fields that [addPivotFields] appends, and the items of
    the first two. *)
Definition defaultItems : xlsxItems :=
  {| items_Count := 1; items_Item := [{| item_T := "default" |}] |}.
Definition axisRowField : xlsxPivotField :=
  {| pf_Axis := "axisRow"; pf_DataField := false; pf_Items := Some defaultItems |}.
Definition axisColField : xlsxPivotField :=
  {| pf_Axis := "axisCol"; pf_DataField := false; pf_Items := Some defaultItems |}.
Definition dataField : xlsxPivotField :=
  {| pf_Axis := ""; pf_DataField := true; pf_Items := None |}.
Definition emptyField : xlsxPivotField :=
  {| pf_Axis := ""; pf_DataField := false; pf_Items := None |}.

(** [addPivotFields] create pivot fields based on the column order of the
    first row in the data region by given pivot table definition and
    option. *)
Definition addPivotFields (f : File) (pt : xlsxPivotTableDefinition) (opt : PivotTableOption)
    : outcome (xlsxPivotTableDefinition * option error) :=
  call (order, err) := getPivotFieldsOrder f (DataRange opt) in
  match err with
  | Some e => Returns (pt, Some e)
  | None =>
      Returns
        (fold_left (fun pt name =>
                      if negb (inStrSlice (Rows opt) name =? -1)
                      then appendPivotField pt axisRowField
                      else if negb (inStrSlice (Columns opt) name =? -1)
                      then appendPivotField pt axisColField
                      else if negb (inStrSlice (Data opt) name =? -1)
                      then appendPivotField pt dataField
                      else appendPivotField pt emptyField)
           order pt, None)
  end.

(** [addPivotColFields] create pivot column fields by given pivot table
    definition and option. *)
Definition addPivotColFields (f : File) (pt : xlsxPivotTableDefinition)
    (opt : PivotTableOption) : outcome (xlsxPivotTableDefinition * option error) :=
  if (length (Columns opt) =? 0)%nat then Returns (pt, None)
  else
    let pt := set_ColFields pt (Some {| colf_Count := 0; colf_Field := [] |}) in
    (* col fields *)
    call (colFieldsIndex, err) := getPivotFieldsIndex f (Columns opt) opt in
    match err with
    | Some e => Returns (pt, Some e)
    | None =>
        let pt :=
          fold_left (fun pt filedIdx => appendColField pt {| field_X := filedIdx |})
            colFieldsIndex pt in
        (* count col fields *)
        Returns
          (set_ColFields pt
             ((fun c => {| colf_Count := Z.of_nat (length (colf_Field c));
                           colf_Field := colf_Field c |}) <$> pt_ColFields pt), None)
    end.

(** Lines 233 to 267 of [addPivotTable]: the table definition before any
    field is added. *)
Definition emptyPivotTableDefinition (cacheID pivotTableID : Z) (coordinates : list Z)
    : xlsxPivotTableDefinition :=
  let hcell := fst (CoordinatesToCellName (at_index coordinates 0) (at_index coordinates 1)) in
  let vcell := fst (CoordinatesToCellName (at_index coordinates 2) (at_index coordinates 3)) in
  {| pt_Name := "Pivot Table" +:+ strconv.Itoa pivotTableID;
     pt_CacheID := cacheID;
     pt_DataCaption := "Values";
     pt_Location :=
       {| loc_Ref := hcell +:+ ":" +:+ vcell;
          loc_FirstDataCol := 1; loc_FirstDataRow := 1; loc_FirstHeaderRow := 1 |};
     pt_PivotFields := {| pfs_Count := 0; pfs_PivotField := [] |};
     pt_RowFields := {| rf_Count := 0; rf_Field := [] |};
     pt_RowItems :=
       {| ri_Count := 1; ri_I := [{| i_X := [Build_xlsxX; Build_xlsxX] |}] |};
     pt_ColFields := None;
     pt_ColItems := {| ci_Count := 1; ci_I := [{| i_X := [] |}] |};
     pt_DataFields := {| dfs_Count := 0; dfs_DataField := [] |};
     pt_PivotTableStyleInfo :=
       {| style_Name := "PivotStyleLight16";
          style_ShowRowHeaders := true;
          style_ShowColHeaders := true;
          style_ShowLastColumn := true |} |}.

(** Lines 269 to 309 of [addPivotTable]: the fields and their counts are
    added to the table definition; the result comes with the error that
    stops the construction, if any. *)
Definition newPivotTableDefinition (f : File) (cacheID pivotTableID : Z)
    (coordinates : list Z) (opt : PivotTableOption)
    : outcome (xlsxPivotTableDefinition * option error) :=
  let pt := emptyPivotTableDefinition cacheID pivotTableID coordinates in
  (* pivot fields *)
  call (pt, err) := addPivotFields f pt opt in
  match err with
  | Some e => Returns (pt, Some e)
  | None =>
  (* count pivot fields *)
  let pt := set_PivotFields pt
              {| pfs_Count := Z.of_nat (length (pfs_PivotField (pt_PivotFields pt)));
                 pfs_PivotField := pfs_PivotField (pt_PivotFields pt) |} in
  (* row fields *)
  call (rowFieldsIndex, err) := getPivotFieldsIndex f (Rows opt) opt in
  match err with
  | Some e => Returns (pt, Some e)
  | None =>
  let pt := fold_left (fun pt filedIdx => appendRowField pt {| field_X := filedIdx |})
              rowFieldsIndex pt in
  (* count row fields *)
  let pt := set_RowFields pt
              {| rf_Count := Z.of_nat (length (rf_Field (pt_RowFields pt)));
                 rf_Field := rf_Field (pt_RowFields pt) |} in
  call (pt, err) := addPivotColFields f pt opt in
  match err with
  | Some e => Returns (pt, Some e)
  | None =>
  (* data fields *)
  call (dataFieldsIndex, err) := getPivotFieldsIndex f (Data opt) opt in
  match err with
  | Some e => Returns (pt, Some e)
  | None =>
  let pt := fold_left (fun pt dataField => appendDataField pt {| df_Fld := dataField |})
              dataFieldsIndex pt in
  (* count data fields *)
  let pt := set_DataFields pt
              {| dfs_Count := Z.of_nat (length (dfs_DataField (pt_DataFields pt)));
                 dfs_DataField := dfs_DataField (pt_DataFields pt) |} in
  Returns (pt, None)
  end end end end.

(** [addPivotTable] provides a function to create a pivot table by given
    pivot table ID and properties. *)
Definition addPivotTable (f : File) (cacheID pivotTableID : Z) (pivotTableXML : string)
    (opt : PivotTableOption) : outcome (File * option error) :=
  (* validate pivot table range *)
  call (_, coordinates, err) := adjustRange (PivotTableRange opt) in
  match err with
  | Some e => Returns (f, Some ("parameter 'PivotTableRange' parsing error: " +:+ e))
  | None =>
      call (pt, err) := newPivotTableDefinition f cacheID pivotTableID coordinates opt in
      match err with
      | Some e => Returns (f, Some e)
      | None =>
          let '(pivotTable, err) := Marshal_PivotTableDefinition pt in
          Returns (saveFileList f pivotTableXML pivotTable, err)
      end
  end.

(** [countPivotTables] provides a function to get drawing files count
    storage in the folder xl/pivotTables.  The loop ranges over the keys
    of the part table; a count does not depend on the order. *)
Definition countPivotTables (f : File) : Z :=
  map_fold (fun k (_ : list byte) count =>
              if strings.Contains k "xl/pivotTables/pivotTable" then count + 1 else count)
    0 (XLSX f).

(** [countPivotCache] provides a function to get drawing files count
    storage in the folder xl/pivotCache. *)
Definition countPivotCache (f : File) : Z :=
  map_fold (fun k (_ : list byte) count =>
              if strings.Contains k "xl/pivotCache/pivotCacheDefinition" then count + 1
              else count)
    0 (XLSX f).

(** The loop of [addWorkbookPivotCache], from [cacheID := 1]. *)
Definition maxCacheID (caches : list xlsxPivotCache) : Z :=
  fold_left (fun cacheID pivotCache =>
               if CacheID pivotCache >? cacheID then CacheID pivotCache else cacheID)
    caches 1.

(** [addWorkbookPivotCache] add the association ID of the pivot cache in
    xl/workbook.xml.  [workbookReader] hands out the workbook held by the
    document; a [nil] registry is replaced by an empty one. *)
Definition addWorkbookPivotCache (f : File) (RID : Z) : File * Z :=
  let caches := default [] (PivotCaches f) in
  let cacheID := maxCacheID caches in
  let cacheID := int_wrap (cacheID + 1) in
  (mkFile (XLSX f) (sheetMap f)
     (Some (caches ++ [{| CacheID := cacheID; RID := "rId" +:+ strconv.Itoa RID |}]))
     (Relationships f) (ContentTypes f),
   cacheID).

(** [parseFormatPivotTableSet] provides a function to validate pivot table
    properties.  Of its results the worksheet is dropped (see
    [Collaborators]). *)
Definition parseFormatPivotTableSet (f : File) (opt : option PivotTableOption)
    : outcome (string * option error) :=
  match opt with
  | None => Returns ("", Some "parameter is required")
  | Some opt =>
      call (dataSheetName, _, err) := adjustRange (DataRange opt) in
      match err with
      | Some e => Returns ("", Some ("parameter 'DataRange' parsing error: " +:+ e))
      | None =>
      call (pivotTableSheetName, _, err) := adjustRange (PivotTableRange opt) in
      match err with
      | Some e => Returns ("", Some ("parameter 'PivotTableRange' parsing error: " +:+ e))
      | None =>
      match workSheetReader f dataSheetName with
      | Some e => Returns ("", Some e)
      | None =>
      match sheetMap f !! trimSheetName pivotTableSheetName with
      | None => Returns ("", Some ("sheet " +:+ pivotTableSheetName +:+ " is not exist"))
      | Some pivotTableSheetPath => Returns (pivotTableSheetPath, None)
      end end end end
  end.

(** [AddPivotTable] provides the method to add pivot table by given pivot
    table options. *)
Definition AddPivotTable (f : File) (opt : option PivotTableOption)
    : outcome (File * option error) :=
  (* parameter validation *)
  call (pivotTableSheetPath, err) := parseFormatPivotTableSet f opt in
  match err, opt with
  | Some e, _ => Returns (f, Some e)
  | None, None =>
      (* not reached: validation fails on a nil option (lemma [parse_nil]);
         reading a field of a nil option is a panic *)
      Panics
  | None, Some opt =>
  let pivotTableID := countPivotTables f + 1 in
  let pivotCacheID := countPivotCache f + 1 in
  let sheetRelationshipsPivotTableXML :=
    "../pivotTables/pivotTable" +:+ strconv.Itoa pivotTableID +:+ ".xml" in
  let pivotTableXML := strings.Replace sheetRelationshipsPivotTableXML ".." "xl" in
  let pivotCacheXML :=
    "xl/pivotCache/pivotCacheDefinition" +:+ strconv.Itoa pivotCacheID +:+ ".xml" in
  call (f, err) := addPivotCache f pivotCacheID pivotCacheXML opt in
  match err with
  | Some e => Returns (f, Some e)
  | None =>
  (* workbook pivot cache *)
  let '(f, workBookPivotCacheRID) :=
    addRels f "xl/_rels/workbook.xml.rels" SourceRelationshipPivotCache
      ("pivotCache/pivotCacheDefinition" +:+ strconv.Itoa pivotCacheID +:+ ".xml") "" in
  let '(f, cacheID) := addWorkbookPivotCache f workBookPivotCacheRID in
  let pivotCacheRels :=
    "xl/pivotTables/_rels/pivotTable" +:+ strconv.Itoa pivotTableID +:+ ".xml.rels" in
  (* rId not used *)
  let '(f, _) :=
    addRels f pivotCacheRels SourceRelationshipPivotCache
      ("../pivotCache/pivotCacheDefinition" +:+ strconv.Itoa pivotCacheID +:+ ".xml") "" in
  call (f, err) := addPivotTable f cacheID pivotTableID pivotTableXML opt in
  match err with
  | Some e => Returns (f, Some e)
  | None =>
  let pivotTableSheetRels :=
    "xl/worksheets/_rels/" +:+ strings.TrimPrefix pivotTableSheetPath "xl/worksheets/"
      +:+ ".rels" in
  let '(f, _) :=
    addRels f pivotTableSheetRels SourceRelationshipPivotTable
      sheetRelationshipsPivotTableXML "" in
  let f := addContentTypePart f pivotTableID "pivotTable" in
  let f := addContentTypePart f pivotCacheID "pivotCache" in
  Returns (f, None)
  end end
  end.
End PivotTable.

(** ** A sample workbook

    A concrete instance of the collaborators, used to run the functions
    above on the inputs of the documentation: a workbook with one sheet,
    [Sheet1], whose first row holds the five column titles of the example
    in the comment of [AddPivotTable]. *)
Module Sample.

Definition isLetter (c : ascii) : bool :=
  let n := nat_of_ascii c in
  ((65 <=? n) && (n <=? 90) || (97 <=? n) && (n <=? 122))%nat.
Definition isDigit (c : ascii) : bool :=
  let n := nat_of_ascii c in ((48 <=? n) && (n <=? 57))%nat.
Definition letterValue (c : ascii) : Z :=
  let n := nat_of_ascii c in
  Z.of_nat (if (97 <=? n)%nat then n - 96 else n - 64).

(** Leading letters of a cell name as a column number, and the rest. *)
Fixpoint columnNumber (acc : Z) (s : string) : Z * string :=
  match s with
  | String c s' => if isLetter c then columnNumber (acc * 26 + letterValue c) s' else (acc, s)
  | EmptyString => (acc, EmptyString)
  end.

(** A string of decimal digits as a row number. *)
Fixpoint rowNumber (acc : option Z) (s : string) : option Z :=
  match s with
  | EmptyString => acc
  | String c s' =>
      if isDigit c
      then rowNumber (Some (10 * default 0 acc + Z.of_nat (nat_of_ascii c - 48))) s'
      else None
  end.

(** Modelled from the spec: [CellNameToCoordinates] is not in
    [pivotTable.go]; a cell name is a column in letters followed by a row
    in digits, both counted from 1. *)
Definition CellNameToCoordinates (cell : string) : (Z * Z) * option error :=
  let '(col, rest) := columnNumber 0 cell in
  match rowNumber None rest with
  | Some row =>
      if (1 <=? col) && (1 <=? row) then ((col, row), None)
      else ((-1, -1), Some "cannot convert cell to coordinates")
  | None => ((-1, -1), Some "cannot convert cell to coordinates")
  end.

(** Modelled from the spec: [areaRefToCoordinates] is not in
    [pivotTable.go]; the range portion is split at the colon and the first
    two pieces are parsed as the cell names of the two corners.  The pieces
    are indexed without a check of their number: on a range portion
    without a colon the second index is out of range, a run-time panic. *)
Definition areaRefToCoordinates (ref : string) : outcome ((Z * Z * Z * Z) * option error) :=
  match strings.Split ref ":" with
  | firstCell :: lastCell :: _ =>
      let '((x1, y1), err) := CellNameToCoordinates firstCell in
      match err with
      | Some e => Returns ((x1, y1, 0, 0), Some e)
      | None =>
          let '((x2, y2), err) := CellNameToCoordinates lastCell in
          Returns ((x1, y1, x2, y2), err)
      end
  | _ => Panics
  end.

(** Column letters of a column number; eight letters are more than any
    sheet has. *)
Fixpoint columnName (fuel : nat) (col : Z) : string :=
  match fuel with
  | O => EmptyString
  | S k =>
      if col <=? 0 then EmptyString
      else columnName k ((col - 1) / 26)
             +:+ String (ascii_of_nat (65 + Z.to_nat ((col - 1) mod 26))) EmptyString
  end.

(** Modelled from the spec: [CoordinatesToCellName] is not in
    [pivotTable.go]; the inverse of [CellNameToCoordinates]. *)
Definition CoordinatesToCellName (col row : Z) : string * option error :=
  if (col <? 1) || (row <? 1) then ("", Some "invalid cell coordinates")
  else (columnName 8 col +:+ strconv.Itoa row, None).

(** The cells of [Sheet1]: the header row of the documented example. *)
Definition cells : list (string * string) :=
  [("A1", "Month"); ("B1", "Year"); ("C1", "Type"); ("D1", "Sales"); ("E1", "Region")].

Fixpoint cellLookup (l : list (string * string)) (cell : string) : string :=
  match l with
  | [] => ""
  | (k, v) :: l' => if String.eqb k cell then v else cellLookup l' cell
  end.

(** Modelled from the spec: [GetCellValue] is not in [pivotTable.go]; it
    reads a cell of an existing sheet (empty when unset) and fails on a
    sheet the document does not have. *)
Definition GetCellValue (f : File) (sheet cell : string) : string * option error :=
  match sheetMap f !! sheet with
  | Some _ => (cellLookup cells cell, None)
  | None => ("", Some ("sheet " +:+ sheet +:+ " is not exist"))
  end.

(** Modelled from the spec: [workSheetReader] is not in [pivotTable.go];
    it fails on a sheet the document does not have. *)
Definition workSheetReader (f : File) (sheet : string) : option error :=
  match sheetMap f !! sheet with
  | Some _ => None
  | None => Some ("sheet " +:+ sheet +:+ " is not exist")
  end.

(** A stand-in for the XML encoder: the element name and the count of
    fields. *)
Definition Marshal_PivotCacheDefinition (pc : xlsxPivotCacheDefinition)
    : list byte * option error :=
  (list_byte_of_string
     ("<pivotCacheDefinition count='"
        +:+ strconv.Itoa (cfs_Count (pc_CacheFields pc)) +:+ "'/>"), None).
Definition Marshal_PivotTableDefinition (pt : xlsxPivotTableDefinition)
    : list byte * option error :=
  (list_byte_of_string
     ("<pivotTableDefinition name='" +:+ pt_Name pt +:+ "' cacheId='"
        +:+ strconv.Itoa (pt_CacheID pt) +:+ "'/>"), None).

Definition collaborators : Collaborators :=
  Build_Collaborators
    areaRefToCoordinates
    CoordinatesToCellName
    GetCellValue
    workSheetReader
    (fun name => name)
    (list_byte_of_string "<?xml version='1.0' encoding='UTF-8' standalone='yes'?>")
    "http://schemas.openxmlformats.org/officeDocument/2006/relationships/pivotCacheDefinition"
    "http://schemas.openxmlformats.org/officeDocument/2006/relationships/pivotTable"
    Marshal_PivotCacheDefinition
    Marshal_PivotTableDefinition.

(** A new document: one worksheet, no pivot parts, no cache registry. *)
Definition newFile : File :=
  {| XLSX := {[ "xl/workbook.xml" := []; "xl/worksheets/sheet1.xml" := [] ]};
     sheetMap := {[ "Sheet1" := "xl/worksheets/sheet1.xml" ]};
     PivotCaches := None;
     Relationships := ∅;
     ContentTypes := [] |}.

(** The options of the documented example. *)
Definition options : PivotTableOption :=
  {| DataRange := "Sheet1!$A$1:$E$31";
     PivotTableRange := "Sheet1!$G$2:$M$34";
     Rows := ["Month"; "Year"];
     Columns := ["Type"];
     Data := ["Sales"];
     Page := [] |}.

End Sample.

(** ** Vocabulary of the statements *)

(** The byte [c] occurs in [s]. *)
Definition occurs (c : ascii) (s : string) : Prop := In c (list_ascii_of_string s).

(** What [adjustRange] returns on an input with exactly one separator,
    given what the parser returns. *)
Definition resolved (sheet : string) (parsed : (Z * Z * Z * Z) * option error)
    : string * list Z * option error :=
  let '(coordinates, err) := parsed in
  match err with
  | Some e => (sheet, [], Some e)
  | None =>
      let '(x1, y1, x2, y2) := coordinates in
      if (x1 =? x2) && (y1 =? y2) then (sheet, [], Some "parameter is invalid")
      else (sheet, [Z.min x1 x2; Z.min y1 y2; Z.max x1 x2; Z.max y1 y2], None)
  end.

(** [pos] is the first position at which [name] occurs in [header]. *)
Definition firstPosition (header : list string) (name : string) (pos : Z) : Prop :=
  exists p : nat,
    pos = Z.of_nat p /\ header !! p = Some name /\
    forall q : nat, (q < p)%nat -> header !! q <> Some name.

(** The resolution of a list of requested names as the specification words
    it: each name in request order yields its first position in the header,
    and a name absent from the header yields nothing. *)
Inductive resolves (header : list string) : list string -> list Z -> Prop :=
| resolves_nil : resolves header [] []
| resolves_found name names pos poss :
    firstPosition header name pos -> resolves header names poss ->
    resolves header (name :: names) (pos :: poss)
| resolves_absent name names poss :
    name ∉ header -> resolves header names poss ->
    resolves header (name :: names) poss.

(** The loop of [getPivotFieldsIndex] over the requested names. *)
Definition indexLoop (orders fields : list string) (pivotFieldsIndex : list Z) : list Z :=
  fold_left (fun pivotFieldsIndex field =>
               let pos := inStrSlice orders field in
               if negb (pos =? -1) then pivotFieldsIndex ++ [pos] else pivotFieldsIndex)
    fields pivotFieldsIndex.

(** The pivot field that the priority Rows, then Columns, then Data assigns
    to a header name, as the specification words it. *)
Definition classified (opt : PivotTableOption) (name : string) (field : xlsxPivotField) : Prop :=
  (name ∈ Rows opt -> field = axisRowField) /\
  (name ∉ Rows opt -> name ∈ Columns opt -> field = axisColField) /\
  (name ∉ Rows opt -> name ∉ Columns opt -> name ∈ Data opt -> field = dataField) /\
  (name ∉ Rows opt -> name ∉ Columns opt -> name ∉ Data opt -> field = emptyField).

(** The field appended by one turn of the loop of [addPivotFields]. *)
Definition classify (opt : PivotTableOption) (name : string) : xlsxPivotField :=
  if negb (inStrSlice (Rows opt) name =? -1) then axisRowField
  else if negb (inStrSlice (Columns opt) name =? -1) then axisColField
  else if negb (inStrSlice (Data opt) name =? -1) then dataField
  else emptyField.

(** The largest cache ID registered, as the specification words it; none in
    an empty registry. *)
Definition maxRegistered (caches : list xlsxPivotCache) : option Z :=
  match caches with
  | [] => None
  | c :: cs => Some (fold_left Z.max (map CacheID cs) (CacheID c))
  end.

(** A document whose cache registry is [caches] and which is otherwise the
    sample document. *)
Definition withRegistry (caches : option (list xlsxPivotCache)) : File :=
  mkFile (XLSX Sample.newFile) (sheetMap Sample.newFile) caches
         (Relationships Sample.newFile) (ContentTypes Sample.newFile).

(** The paths of the table part and of the cache part with suffix [i]. *)
Definition pivotTablePart (i : Z) : string :=
  "xl/pivotTables/pivotTable" +:+ strconv.Itoa i +:+ ".xml".
Definition pivotCachePart (i : Z) : string :=
  "xl/pivotCache/pivotCacheDefinition" +:+ strconv.Itoa i +:+ ".xml".

(** The loop shared by the two counters. *)
Definition countMatching (pattern : string) (parts : gmap string (list byte)) : Z :=
  map_fold (fun k (_ : list byte) count =>
              if strings.Contains k pattern then count + 1 else count) 0 parts.

(** [strconv.Itoa] writes digits and possibly a minus sign. *)
Definition decimalByte (c : ascii) : Prop :=
  In c ["0"; "1"; "2"; "3"; "4"; "5"; "6"; "7"; "8"; "9"; "-"]%char.

(** The column-fields section in closed form. *)
Definition colFieldsOf (opt : PivotTableOption) (order : list string) : option xlsxColFields :=
  if (length (Columns opt) =? 0)%nat then None
  else
    let colFieldsIndex := indexLoop order (Columns opt) [] in
    Some {| colf_Count := Z.of_nat (length colFieldsIndex);
            colf_Field := map Build_xlsxField colFieldsIndex |}.

(** Every count attribute of a table definition is the length of its list. *)
Definition countsAgree (pt : xlsxPivotTableDefinition) : Prop :=
  pfs_Count (pt_PivotFields pt) = Z.of_nat (length (pfs_PivotField (pt_PivotFields pt))) /\
  rf_Count (pt_RowFields pt) = Z.of_nat (length (rf_Field (pt_RowFields pt))) /\
  (forall c, pt_ColFields pt = Some c -> colf_Count c = Z.of_nat (length (colf_Field c))) /\
  dfs_Count (pt_DataFields pt) = Z.of_nat (length (dfs_DataField (pt_DataFields pt))).

Section Vocabulary.
Context {host : Collaborators}.

(** The read that the loop performs at column [col] of row [row]. *)
Definition headerCell (f : File) (dataSheet : string) (row col : Z) : string * option error :=
  GetCellValue f dataSheet (fst (CoordinatesToCellName col row)).

(** Lines 93 to 99 of [AddPivotTable], with [pivotTableID] and
    [pivotCacheID] the two suffixes: the workbook relationship, the registry
    entry and the relationship of the table part, added once the cache part
    is stored.  The result comes with the cache ID allocated. *)
Definition registerPivotCache (pivotTableID pivotCacheID : Z) (f : File) : File * Z :=
  let '(f, workBookPivotCacheRID) :=
    addRels f "xl/_rels/workbook.xml.rels" SourceRelationshipPivotCache
      ("pivotCache/pivotCacheDefinition" +:+ strconv.Itoa pivotCacheID +:+ ".xml") "" in
  let '(f, cacheID) := addWorkbookPivotCache f workBookPivotCacheRID in
  let '(f, _) :=
    addRels f ("xl/pivotTables/_rels/pivotTable" +:+ strconv.Itoa pivotTableID +:+ ".xml.rels")
      SourceRelationshipPivotCache
      ("../pivotCache/pivotCacheDefinition" +:+ strconv.Itoa pivotCacheID +:+ ".xml") "" in
  (f, cacheID).

(** Lines 104 to 107 of [AddPivotTable]: the relationship of the sheet and
    the two content-type overrides, added once the table part is stored. *)
Definition registerPivotTable (pivotTableID pivotCacheID : Z) (pivotTableSheetPath : string)
    (f : File) : File :=
  let '(f, _) :=
    addRels f
      ("xl/worksheets/_rels/" +:+ strings.TrimPrefix pivotTableSheetPath "xl/worksheets/"
         +:+ ".rels")
      SourceRelationshipPivotTable
      ("../pivotTables/pivotTable" +:+ strconv.Itoa pivotTableID +:+ ".xml") "" in
  let f := addContentTypePart f pivotTableID "pivotTable" in
  addContentTypePart f pivotCacheID "pivotCache".

End Vocabulary.

(** [f'] is [f] with parts possibly written at the two given paths and
    with entries possibly appended to the registry, to the relationship
    tables and to the content types; nothing is removed or altered. *)
Definition grows (tablePart cachePart : string) (f f' : File) : Prop :=
  sheetMap f' = sheetMap f /\
  (forall k, k <> tablePart -> k <> cachePart -> XLSX f' !! k = XLSX f !! k) /\
  (forall k, is_Some (XLSX f !! k) -> is_Some (XLSX f' !! k)) /\
  default [] (PivotCaches f) `prefix_of` default [] (PivotCaches f') /\
  ContentTypes f `prefix_of` ContentTypes f' /\
  (forall path, default [] (Relationships f !! path)
                  `prefix_of` default [] (Relationships f' !! path)).

(** The sample collaborators with an encoder of table definitions that
    fails, and with an encoder of cache definitions that fails. *)
Definition failingTableEncoder : Collaborators :=
  Build_Collaborators
    Sample.areaRefToCoordinates Sample.CoordinatesToCellName Sample.GetCellValue
    Sample.workSheetReader (fun name => name) []
    "pivotCacheDefinition" "pivotTable"
    Sample.Marshal_PivotCacheDefinition
    (fun _ => ([], Some "xml: unsupported type")).
Definition failingCacheEncoder : Collaborators :=
  Build_Collaborators
    Sample.areaRefToCoordinates Sample.CoordinatesToCellName Sample.GetCellValue
    Sample.workSheetReader (fun name => name) []
    "pivotCacheDefinition" "pivotTable"
    (fun _ => ([], Some "xml: unsupported type"))
    Sample.Marshal_PivotTableDefinition.

(** The sample document with a table part at the path the next build takes. *)
Definition withTakenPath : File :=
  mkFile (<["xl/pivotTables/pivotTable2.xml" := []]> (XLSX Sample.newFile))
         (sheetMap Sample.newFile) None ∅ [].

(** The same document with that table part declared in the manifest. *)
Definition withDeclaredPath : File :=
  mkFile (<["xl/pivotTables/pivotTable2.xml" := []]> (XLSX Sample.newFile))
         (sheetMap Sample.newFile) None ∅ [Build_xlsxOverride 2 "pivotTable"].

(** Options whose Rows and Columns share a name of the header. *)
Definition overlappingOptions : PivotTableOption :=
  mkPivotTableOption "Sheet1!$A$1:$E$31" "Sheet1!$G$2:$M$34"
    ["Month"] ["Month"; "Type"] ["Sales"] [].

(** A sparse registry. *)
Definition sparseRegistry : File :=
  withRegistry (Some [Build_xlsxPivotCache 3 "rId1"; Build_xlsxPivotCache 7 "rId2";
                      Build_xlsxPivotCache 5 "rId3"]).

(** ** Facts about the string primitives *)

(** Decides whether a byte occurs in a string literal. *)
Ltac literal_bytes := unfold occurs; simpl; intuition discriminate.

Lemma occurs_cons c d s : occurs c (String d s) <-> d = c \/ occurs c s.
Proof. unfold occurs. simpl. tauto. Qed.

Lemma occurs_app c s t : occurs c (s +:+ t) <-> occurs c s \/ occurs c t.
Proof.
  unfold occurs. induction s as [|d s IH]; simpl; [tauto|].
  rewrite IH. tauto.
Qed.

Lemma Split_not_nil s sep : strings.Split s sep <> [].
Proof.
  destruct s as [|c s]; simpl; [discriminate|].
  destruct (Ascii.eqb c sep); [discriminate|].
  destruct (strings.Split s sep); discriminate.
Qed.

Lemma Split_absent s sep : ~ occurs sep s -> strings.Split s sep = [s].
Proof.
  induction s as [|c s IH]; intros Hs; simpl; [reflexivity|].
  rewrite occurs_cons in Hs.
  destruct (Ascii.eqb_spec c sep) as [->|Hne]; [tauto|].
  rewrite IH by tauto. reflexivity.
Qed.

Lemma Split_first s t sep :
  ~ occurs sep s -> strings.Split (s +:+ String sep t) sep = s :: strings.Split t sep.
Proof.
  induction s as [|c s IH]; intros Hs; simpl.
  - rewrite Ascii.eqb_refl. reflexivity.
  - rewrite occurs_cons in Hs.
    destruct (Ascii.eqb_spec c sep) as [->|Hne]; [tauto|].
    rewrite IH by tauto. reflexivity.
Qed.

Lemma Split_one s sep a : strings.Split s sep = [a] -> s = a /\ ~ occurs sep a.
Proof.
  revert a. induction s as [|c s IH]; intros a; simpl.
  - intros [= <-]. split; [reflexivity|]. unfold occurs. simpl. tauto.
  - destruct (Ascii.eqb_spec c sep) as [->|Hne].
    + intros [= _ Hnil]. destruct (Split_not_nil _ _ Hnil).
    + destruct (strings.Split s sep) as [|p [|q l]] eqn:E; intros [= <-].
      * destruct (Split_not_nil _ _ E).
      * destruct (IH p eq_refl) as [-> Hp]. split; [reflexivity|].
        rewrite occurs_cons. intros [?|?]; congruence.
Qed.

Lemma Split_two s sep a b :
  strings.Split s sep = [a; b] ->
  s = a +:+ String sep b /\ ~ occurs sep a /\ ~ occurs sep b.
Proof.
  revert a. induction s as [|c s IH]; intros a; simpl; [discriminate|].
  destruct (Ascii.eqb_spec c sep) as [->|Hne].
  - intros [= <- Hb]. apply Split_one in Hb as [-> Hb].
    repeat split; [|exact Hb]. unfold occurs. simpl. tauto.
  - destruct (strings.Split s sep) as [|p [|q [|r l]]] eqn:E; intros [= <- <-].
    destruct (IH p eq_refl) as (-> & Hp & Hq).
    repeat split; [|exact Hq].
    rewrite occurs_cons. intros [?|?]; congruence.
Qed.

Lemma Split_pair sheet rng :
  ~ occurs "!" sheet -> ~ occurs "!" rng ->
  strings.Split (sheet +:+ String "!" rng) "!" = [sheet; rng].
Proof. intros Hs Hr. rewrite Split_first, Split_absent; auto. Qed.

(** ** The range resolver: [adjustRange] *)

Section AdjustRange.
Context {host : Collaborators}.

Lemma adjustRange_split rangeStr sheet rng :
  strings.Split rangeStr "!" = [sheet; rng] ->
  adjustRange rangeStr
  = returning (resolved sheet) (areaRefToCoordinates (strings.Replace rng "$" "")).
Proof.
  intros Hsplit. unfold adjustRange, returning, resolved.
  destruct rangeStr as [|c s]; [discriminate Hsplit|].
  cbn [String.length Nat.ltb Nat.leb]. rewrite Hsplit. cbn [length Nat.eqb negb nth].
  destruct (areaRefToCoordinates _) as [[[[[x1 y1] x2] y2] [e|]]|];
    [reflexivity| |reflexivity].
  destruct ((x1 =? x2) && (y1 =? y2)); [reflexivity|].
  destruct (Z.ltb_spec x2 x1), (Z.ltb_spec y2 y1); repeat f_equal; lia.
Qed.

Lemma adjustRange_pair sheet rng :
  ~ occurs "!" sheet -> ~ occurs "!" rng ->
  adjustRange (sheet +:+ "!" +:+ rng)
  = returning (resolved sheet) (areaRefToCoordinates (strings.Replace rng "$" "")).
Proof. intros Hs Hr. apply adjustRange_split, Split_pair; assumption. Qed.

(** Without exactly one separator the input is rejected before parsing. *)
Lemma adjustRange_not_pair rangeStr :
  length (strings.Split rangeStr "!") <> 2%nat ->
  adjustRange rangeStr
  = Returns ("", [], Some (if (String.length rangeStr <? 1)%nat
                           then "parameter is required" else "parameter is invalid")).
Proof.
  intros Hlen. unfold adjustRange.
  destruct (String.length rangeStr <? 1)%nat; [reflexivity|].
  destruct (Nat.eqb_spec (length (strings.Split rangeStr "!")) 2); [contradiction|].
  reflexivity.
Qed.

Lemma length_two {A} (l : list A) : length l = 2%nat -> exists a b, l = [a; b].
Proof. destruct l as [|a [|b [|c l]]]; try discriminate. eauto. Qed.

(** A successful result has come through the parser and the swap. *)
Lemma adjustRange_ok rangeStr sheet coordinates :
  adjustRange rangeStr = Returns (sheet, coordinates, None) ->
  exists rng x1 y1 x2 y2,
    rangeStr = sheet +:+ "!" +:+ rng /\ ~ occurs "!" sheet /\ ~ occurs "!" rng /\
    areaRefToCoordinates (strings.Replace rng "$" "") = Returns ((x1, y1, x2, y2), None) /\
    ~ (x1 = x2 /\ y1 = y2) /\
    coordinates = [Z.min x1 x2; Z.min y1 y2; Z.max x1 x2; Z.max y1 y2].
Proof.
  intros Hok.
  destruct (Nat.eq_dec (length (strings.Split rangeStr "!")) 2%nat) as [Hlen|Hlen].
  - apply length_two in Hlen as (a & rng & Hsplit).
    rewrite (adjustRange_split _ _ _ Hsplit) in Hok.
    apply Split_two in Hsplit as (-> & Ha & Hr).
    unfold returning, resolved in Hok.
    destruct (areaRefToCoordinates _) as [[[[[x1 y1] x2] y2] [e|]]|] eqn:Hparse;
      [discriminate Hok| |discriminate Hok].
    destruct ((x1 =? x2) && (y1 =? y2)) eqn:Hdeg; [discriminate Hok|].
    injection Hok as <- <-.
    exists rng, x1, y1, x2, y2. repeat split; try assumption.
    intros [-> ->]. rewrite !Z.eqb_refl in Hdeg. discriminate.
  - rewrite adjustRange_not_pair in Hok by assumption. discriminate.
Qed.

Lemma adjustRange_ok_length rangeStr sheet coordinates :
  adjustRange rangeStr = Returns (sheet, coordinates, None) -> length coordinates = 4%nat.
Proof.
  intros Hok. apply adjustRange_ok in Hok as (? & ? & ? & ? & ? & _ & _ & _ & _ & _ & ->).
  reflexivity.
Qed.

(** A panic of [adjustRange] is a panic of the parser on the range portion
    of an input with one separator. *)
Lemma adjustRange_panic rangeStr :
  adjustRange rangeStr = Panics ->
  exists sheet rng,
    rangeStr = sheet +:+ "!" +:+ rng /\ ~ occurs "!" sheet /\ ~ occurs "!" rng /\
    areaRefToCoordinates (strings.Replace rng "$" "") = Panics.
Proof.
  intros Hpanic.
  destruct (Nat.eq_dec (length (strings.Split rangeStr "!")) 2%nat) as [Hlen|Hlen].
  - apply length_two in Hlen as (sheet & rng & Hsplit).
    rewrite (adjustRange_split _ _ _ Hsplit) in Hpanic.
    apply Split_two in Hsplit as (-> & Ha & Hr).
    exists sheet, rng. repeat split; try assumption.
    destruct (areaRefToCoordinates _) as [parsed|]; [discriminate Hpanic|reflexivity].
  - rewrite adjustRange_not_pair in Hpanic by assumption. discriminate.
Qed.

Lemma distinct_corners a1 b1 a2 b2 :
  ~ (a1 = a2 /\ b1 = b2) -> (a1 =? a2) && (b1 =? b2) = false.
Proof. intros Hd. destruct (Z.eqb_spec a1 a2), (Z.eqb_spec b1 b2); simpl; tauto. Qed.

Lemma adjustRange_succeeds sheet rng a1 b1 a2 b2 :
  ~ occurs "!" sheet -> ~ occurs "!" rng ->
  areaRefToCoordinates (strings.Replace rng "$" "") = Returns ((a1, b1, a2, b2), None) ->
  ~ (a1 = a2 /\ b1 = b2) ->
  adjustRange (sheet +:+ "!" +:+ rng)
  = Returns (sheet, [Z.min a1 a2; Z.min b1 b2; Z.max a1 a2; Z.max b1 b2], None).
Proof.
  intros Hs Hr Hparse Hdistinct.
  rewrite adjustRange_pair by assumption. unfold returning, resolved.
  rewrite Hparse, distinct_corners by assumption. reflexivity.
Qed.

(** C2.  On every input [Sheet!Range] whose range portion parses into two
    corners that are not the same cell, [adjustRange] succeeds with the
    sheet name and bounds [x1, y1, x2, y2] such that [x1 <= x2] and
    [y1 <= y2]; each axis is put in order on its own (the columns are the
    smaller and the larger of the two parsed columns, the rows likewise),
    and a range with the two corners exchanged resolves to the same
    result. *)
Theorem adjustRange_normalizes sheet rng a1 b1 a2 b2 :
  ~ occurs "!" sheet -> ~ occurs "!" rng ->
  areaRefToCoordinates (strings.Replace rng "$" "") = Returns ((a1, b1, a2, b2), None) ->
  ~ (a1 = a2 /\ b1 = b2) ->
  exists x1 y1 x2 y2,
    adjustRange (sheet +:+ "!" +:+ rng) = Returns (sheet, [x1; y1; x2; y2], None) /\
    x1 <= x2 /\ y1 <= y2 /\
    x1 = Z.min a1 a2 /\ x2 = Z.max a1 a2 /\ y1 = Z.min b1 b2 /\ y2 = Z.max b1 b2 /\
    forall rng',
      ~ occurs "!" rng' ->
      areaRefToCoordinates (strings.Replace rng' "$" "") = Returns ((a2, b2, a1, b1), None) ->
      adjustRange (sheet +:+ "!" +:+ rng') = adjustRange (sheet +:+ "!" +:+ rng).
Proof.
  intros Hs Hr Hparse Hdistinct.
  exists (Z.min a1 a2), (Z.min b1 b2), (Z.max a1 a2), (Z.max b1 b2).
  pose proof (adjustRange_succeeds _ _ _ _ _ _ Hs Hr Hparse Hdistinct) as Hres.
  repeat split; try lia; [exact Hres|].
  intros rng' Hr' Hparse'.
  rewrite Hres, (adjustRange_succeeds sheet rng' a2 b2 a1 b1)
    by (try assumption; intros [-> ->]; tauto).
  rewrite (Z.min_comm a2), (Z.min_comm b2), (Z.max_comm a2), (Z.max_comm b2).
  reflexivity.
Qed.

(** C7.  [adjustRange] calls the parser on the range portion and recovers
    from no panic: on an input [Sheet!Range] with one separator whose range
    portion makes the parser panic, [adjustRange] panics as well and
    returns nothing, neither a format error nor any other result. *)
Theorem adjustRange_parser_panic sheet rng :
  ~ occurs "!" sheet -> ~ occurs "!" rng ->
  areaRefToCoordinates (strings.Replace rng "$" "") = Panics ->
  adjustRange (sheet +:+ "!" +:+ rng) = Panics /\
  forall name coordinates err,
    adjustRange (sheet +:+ "!" +:+ rng) <> Returns (name, coordinates, err).
Proof.
  intros Hs Hr Hparse.
  rewrite adjustRange_pair by assumption. rewrite Hparse.
  split; [reflexivity|]. intros name coordinates err. discriminate.
Qed.
End AdjustRange.

(** ** The field order extractor: [getPivotFieldsOrder] *)

Section FieldOrder.
Context {host : Collaborators}.

Lemma orderLoop_step f dataSheet row last col order :
  orderLoop f dataSheet row last col order
  = if col <=? last
    then match headerCell f dataSheet row col with
         | (name, Some e) => (order, Some e)
         | (name, None) => orderLoop f dataSheet row last (col + 1) (order ++ [name])
         end
    else (order, None).
Proof.
  unfold headerCell. simp orderLoop.
  destruct (Z_le_dec col last) as [Hle|Hgt]; simpl.
  - rewrite (proj2 (Z.leb_le _ _) Hle).
    destruct (GetCellValue _ _ _) as [name [e|]]; reflexivity.
  - destruct (Z.leb_spec col last); [lia|reflexivity].
Qed.


(** The first read that fails stops the loop with its error. *)
Lemma orderLoop_fails f dataSheet row last bad e n : forall col order,
  Z.to_nat (bad - col) = n ->
  col <= bad <= last ->
  (forall c, col <= c < bad -> snd (headerCell f dataSheet row c) = None) ->
  snd (headerCell f dataSheet row bad) = Some e ->
  orderLoop f dataSheet row last col order
  = (order ++ map (fun c => fst (headerCell f dataSheet row c)) (seqZ col (bad - col)),
     Some e).
Proof.
  induction n as [|n IH]; intros col order Hn Hrange Hread Hbad; rewrite orderLoop_step;
    (destruct (Z.leb_spec col last); [|lia]).
  - assert (col = bad) as -> by lia.
    destruct (headerCell f dataSheet row bad) as [name [e'|]]; [|discriminate].
    injection Hbad as ->. rewrite seqZ_nil by lia. simpl. rewrite app_nil_r. reflexivity.
  - pose proof (Hread col ltac:(lia)) as Hcol.
    destruct (headerCell f dataSheet row col) as [name [e'|]] eqn:Hcell; [discriminate|].
    rewrite IH by (try lia; try assumption; intros; apply Hread; lia).
    rewrite (seqZ_cons col) by lia. simpl. rewrite Hcell. simpl.
    rewrite <- app_assoc. simpl.
    replace (Z.pred (bad - col)) with (bad - (col + 1)) by lia.
    replace (Z.succ col) with (col + 1) by lia. reflexivity.
Qed.

(** [getPivotFieldsOrder] on a range that resolves is the loop over the
    columns of the top row. *)
Lemma getPivotFieldsOrder_resolved f dataRange dataSheet x1 y1 x2 y2 :
  adjustRange dataRange = Returns (dataSheet, [x1; y1; x2; y2], None) ->
  getPivotFieldsOrder f dataRange = Returns (orderLoop f dataSheet y1 x2 x1 []).
Proof. intros Hres. unfold getPivotFieldsOrder. rewrite Hres. reflexivity. Qed.


End FieldOrder.

(** ** The field index resolver: [inStrSlice] and [getPivotFieldsIndex] *)

Section FieldIndex.
Context {host : Collaborators}.

Lemma inStrSliceFrom_absent a x idx : x ∉ a -> inStrSliceFrom idx a x = -1.
Proof.
  revert idx. induction a as [|n a IH]; intros idx Hx; simpl; [reflexivity|].
  apply not_elem_of_cons in Hx as [Hne Hx].
  destruct (String.eqb_spec x n); [contradiction|]. apply IH, Hx.
Qed.

Lemma inStrSliceFrom_present a x idx :
  x ∈ a ->
  exists p : nat,
    inStrSliceFrom idx a x = idx + Z.of_nat p /\ a !! p = Some x /\
    forall q : nat, (q < p)%nat -> a !! q <> Some x.
Proof.
  revert idx. induction a as [|n a IH]; intros idx Hx; [inversion Hx|].
  simpl. destruct (String.eqb_spec x n) as [->|Hne].
  - exists 0%nat. split; [lia|]. split; [reflexivity|]. intros q Hq. lia.
  - apply elem_of_cons in Hx as [?|Hx]; [contradiction|].
    destruct (IH (idx + 1) Hx) as (p & Hp & Hat & Hfirst).
    exists (S p). split; [lia|]. split; [exact Hat|].
    intros [|q] Hq; simpl; [congruence|]. apply Hfirst. lia.
Qed.

Lemma inStrSlice_absent a x : x ∉ a -> inStrSlice a x = -1.
Proof. apply inStrSliceFrom_absent. Qed.

Lemma inStrSlice_present a x : x ∈ a -> firstPosition a x (inStrSlice a x).
Proof.
  intros Hx. destruct (inStrSliceFrom_present a x 0 Hx) as (p & Hp & Hat & Hfirst).
  exists p. unfold inStrSlice. rewrite Hp. split; [lia|]. split; [exact Hat|exact Hfirst].
Qed.

Lemma inStrSlice_found a x : negb (inStrSlice a x =? -1) = true <-> x ∈ a.
Proof.
  destruct (decide (x ∈ a)) as [Hx|Hx].
  - destruct (inStrSlice_present a x Hx) as (p & -> & _).
    destruct (Z.eqb_spec (Z.of_nat p) (-1)); [lia|]. simpl. tauto.
  - rewrite inStrSlice_absent by assumption. simpl. split; [discriminate|contradiction].
Qed.

Lemma firstPosition_unique header name p1 p2 :
  firstPosition header name p1 -> firstPosition header name p2 -> p1 = p2.
Proof.
  intros (q1 & -> & H1 & F1) (q2 & -> & H2 & F2).
  destruct (Nat.lt_trichotomy q1 q2) as [Hlt|[->|Hlt]]; [|reflexivity|].
  - destruct (F2 q1 Hlt H1).
  - destruct (F1 q2 Hlt H2).
Qed.

Lemma firstPosition_elem header name pos : firstPosition header name pos -> name ∈ header.
Proof. intros (p & _ & Hat & _). eapply list_elem_of_lookup_2, Hat. Qed.

Lemma resolves_unique header names poss1 poss2 :
  resolves header names poss1 -> resolves header names poss2 -> poss1 = poss2.
Proof.
  intros H1. revert poss2. induction H1 as [|name names pos poss Hpos _ IH|name names poss Habs _ IH];
    intros poss2 H2; inversion H2; subst.
  - reflexivity.
  - f_equal; [eapply firstPosition_unique; eassumption|auto].
  - exfalso. eauto using firstPosition_elem.
  - exfalso. eauto using firstPosition_elem.
  - auto.
Qed.

Lemma indexLoop_cons orders field fields acc :
  indexLoop orders (field :: fields) acc
  = indexLoop orders fields
      (if negb (inStrSlice orders field =? -1) then acc ++ [inStrSlice orders field]
       else acc).
Proof. reflexivity. Qed.

Lemma indexLoop_resolves orders fields : forall acc,
  exists poss, indexLoop orders fields acc = acc ++ poss /\ resolves orders fields poss.
Proof.
  induction fields as [|field fields IH]; intros acc.
  - exists []. split; [symmetry; apply app_nil_r|constructor].
  - rewrite indexLoop_cons.
    destruct (negb (inStrSlice orders field =? -1)) eqn:Hfound.
    + apply inStrSlice_found in Hfound.
      destruct (IH (acc ++ [inStrSlice orders field])) as (poss & -> & Hposs).
      exists (inStrSlice orders field :: poss). rewrite <- app_assoc.
      split; [reflexivity|]. constructor; [apply inStrSlice_present, Hfound|exact Hposs].
    + assert (field ∉ orders) as Habs.
      { intros Hin. apply inStrSlice_found in Hin. congruence. }
      destruct (IH acc) as (poss & -> & Hposs).
      exists poss. split; [reflexivity|]. apply resolves_absent; assumption.
Qed.

Lemma getPivotFieldsIndex_ok f fields opt orders :
  getPivotFieldsOrder f (DataRange opt) = Returns (orders, None) ->
  getPivotFieldsIndex f fields opt = Returns (indexLoop orders fields [], None).
Proof. intros Horder. unfold getPivotFieldsIndex. rewrite Horder. reflexivity. Qed.

(** C6.  Given the header order of the data range, [getPivotFieldsIndex]
    returns without error the resolution of the requested names: for each
    name in request order the position of its first occurrence in the
    header, names that are not in the header being left out; no other
    list is a resolution of the request. *)
Theorem getPivotFieldsIndex_resolves f fields opt orders :
  getPivotFieldsOrder f (DataRange opt) = Returns (orders, None) ->
  exists poss,
    getPivotFieldsIndex f fields opt = Returns (poss, None) /\
    resolves orders fields poss /\
    forall poss', resolves orders fields poss' -> poss' = poss.
Proof.
  intros Horder. rewrite (getPivotFieldsIndex_ok _ _ _ _ Horder).
  destruct (indexLoop_resolves orders fields []) as (poss & -> & Hposs).
  exists poss. repeat split; [exact Hposs|].
  intros poss' Hposs'. eapply resolves_unique; eassumption.
Qed.
End FieldIndex.

(** ** Axis classification: [addPivotFields] *)

Section Classification.
Context {host : Collaborators}.

Lemma classify_classified opt name : classified opt name (classify opt name).
Proof.
  unfold classified, classify.
  destruct (negb (inStrSlice (Rows opt) name =? -1)) eqn:HR;
    [apply inStrSlice_found in HR
    |assert (name ∉ Rows opt) by (rewrite <- inStrSlice_found; congruence)];
  (destruct (negb (inStrSlice (Columns opt) name =? -1)) eqn:HC;
    [apply inStrSlice_found in HC
    |assert (name ∉ Columns opt) by (rewrite <- inStrSlice_found; congruence)]);
  (destruct (negb (inStrSlice (Data opt) name =? -1)) eqn:HD;
    [apply inStrSlice_found in HD
    |assert (name ∉ Data opt) by (rewrite <- inStrSlice_found; congruence)]);
  repeat split; intros; try reflexivity; contradiction.
Qed.

Lemma fold_appendPivotField {A} (g : A -> xlsxPivotField) l : forall pt,
  fold_left (fun pt x => appendPivotField pt (g x)) l pt
  = set_PivotFields pt
      {| pfs_Count := pfs_Count (pt_PivotFields pt);
         pfs_PivotField := pfs_PivotField (pt_PivotFields pt) ++ map g l |}.
Proof.
  induction l as [|x l IH]; intros pt; simpl.
  - rewrite app_nil_r. destruct pt as [? ? ? ? [? ?] ? ? ? ? ? ?]. reflexivity.
  - rewrite IH. unfold appendPivotField, set_PivotFields. simpl.
    rewrite <- app_assoc. reflexivity.
Qed.

Lemma addPivotFields_loop opt order pt :
  fold_left (fun pt name =>
               if negb (inStrSlice (Rows opt) name =? -1)
               then appendPivotField pt axisRowField
               else if negb (inStrSlice (Columns opt) name =? -1)
               then appendPivotField pt axisColField
               else if negb (inStrSlice (Data opt) name =? -1)
               then appendPivotField pt dataField
               else appendPivotField pt emptyField)
    order pt
  = fold_left (fun pt name => appendPivotField pt (classify opt name)) order pt.
Proof.
  revert pt. induction order as [|name order IH]; intros pt; simpl; [reflexivity|].
  rewrite IH. f_equal. unfold classify.
  destruct (negb (inStrSlice (Rows opt) name =? -1)); [reflexivity|].
  destruct (negb (inStrSlice (Columns opt) name =? -1)); [reflexivity|].
  destruct (negb (inStrSlice (Data opt) name =? -1)); reflexivity.
Qed.

Lemma addPivotFields_ok f pt opt order :
  getPivotFieldsOrder f (DataRange opt) = Returns (order, None) ->
  addPivotFields f pt opt
  = Returns
      (set_PivotFields pt
         {| pfs_Count := pfs_Count (pt_PivotFields pt);
            pfs_PivotField := pfs_PivotField (pt_PivotFields pt) ++ map (classify opt) order |},
       None).
Proof.
  intros Horder. unfold addPivotFields. rewrite Horder.
  rewrite addPivotFields_loop, fold_appendPivotField. reflexivity.
Qed.

Lemma addPivotFields_error f pt opt order e :
  getPivotFieldsOrder f (DataRange opt) = Returns (order, Some e) ->
  addPivotFields f pt opt = Returns (pt, Some e).
Proof. intros Horder. unfold addPivotFields. rewrite Horder. reflexivity. Qed.

(** C1.  Given the header order of the data range, [addPivotFields]
    appends one pivot field per header name, in header order, and returns
    no error whatever the three lists are: the field is the row-axis field
    when the name is in Rows; otherwise the column-axis field when it is
    in Columns; otherwise the data field when it is in Data; otherwise the
    empty field.  The four fields are pairwise different, so the tag tells
    the class. *)
Theorem addPivotFields_priority f pt opt order :
  getPivotFieldsOrder f (DataRange opt) = Returns (order, None) ->
  exists pt' fields,
    addPivotFields f pt opt = Returns (pt', None) /\
    pfs_PivotField (pt_PivotFields pt') = pfs_PivotField (pt_PivotFields pt) ++ fields /\
    Forall2 (classified opt) order fields /\
    NoDup [axisRowField; axisColField; dataField; emptyField].
Proof.
  intros Horder. rewrite (addPivotFields_ok _ _ _ _ Horder).
  eexists _, (map (classify opt) order). split; [reflexivity|].
  split; [reflexivity|]. split.
  - clear Horder. induction order as [|name order IH]; constructor;
      [apply classify_classified|exact IH].
  - repeat (constructor; [rewrite ?elem_of_cons, elem_of_nil; intuition discriminate|]).
    constructor.
Qed.
End Classification.

(** ** The workbook cache registry: [addWorkbookPivotCache] *)

Section Registry.
Context {host : Collaborators}.

Lemma fold_max_spec l : forall a,
  a <= fold_left Z.max l a /\
  Forall (fun x => x <= fold_left Z.max l a) l /\
  (fold_left Z.max l a = a \/ fold_left Z.max l a ∈ l).
Proof.
  induction l as [|x l IH]; intros a; simpl.
  - repeat split; [lia|constructor|left; reflexivity].
  - destruct (IH (Z.max a x)) as (Hge & Hall & Hin).
    split; [lia|]. split; [constructor; [lia|exact Hall]|].
    destruct Hin as [Heq|Hin]; [|right; right; exact Hin].
    rewrite Heq. destruct (Z.max_spec a x) as [[_ ->]|[_ ->]]; [right; left|left]; reflexivity.
Qed.

Lemma fold_max_base l a b :
  fold_left Z.max l (Z.max a b) = Z.max a (fold_left Z.max l b).
Proof.
  revert b. induction l as [|x l IH]; intros b; simpl; [reflexivity|].
  rewrite <- Z.max_assoc. apply IH.
Qed.

Lemma maxCacheID_fold caches : maxCacheID caches = fold_left Z.max (map CacheID caches) 1.
Proof.
  unfold maxCacheID. generalize 1. induction caches as [|c caches IH]; intros a; simpl;
    [reflexivity|].
  rewrite IH. f_equal. destruct (Z.gtb_spec (CacheID c) a); lia.
Qed.

(** The loop computes the larger of 1 and the largest registered ID. *)
Lemma maxCacheID_spec caches :
  maxCacheID caches = Z.max 1 (default 0 (maxRegistered caches)).
Proof.
  rewrite maxCacheID_fold. destruct caches as [|c cs]; simpl; [reflexivity|].
  apply fold_max_base.
Qed.

(** [maxRegistered] is a registered ID and bounds all of them. *)
Lemma maxRegistered_spec caches m :
  maxRegistered caches = Some m ->
  (exists c, c ∈ caches /\ CacheID c = m) /\ forall c, c ∈ caches -> CacheID c <= m.
Proof.
  destruct caches as [|c cs]; [discriminate|]. intros [= <-].
  destruct (fold_max_spec (map CacheID cs) (CacheID c)) as (Hge & Hall & Hin).
  split.
  - destruct Hin as [->|Hin]; [exists c; split; [left|reflexivity]|].
    apply list_elem_of_fmap in Hin as (c' & -> & Hc').
    exists c'. split; [right; exact Hc'|reflexivity].
  - intros c' [->|Hc']%elem_of_cons; [exact Hge|].
    rewrite Forall_forall in Hall. apply Hall, list_elem_of_fmap. eauto.
Qed.

Lemma int_wrap_small z : - 2 ^ 63 <= z <= MaxInt -> int_wrap z = z.
Proof.
  unfold int_wrap, MaxInt. intros Hz. rewrite Z.mod_small; lia.
Qed.

(** C3, as amended.  The loop starts from 1, so the cache ID allocated is
    the larger of 1 and the largest registered cache ID, plus 1, as long
    as the registered IDs are below the largest [int]: 2 on an empty
    registry, the largest registered ID plus 1 as soon as that ID is at
    least 1.  It is larger than every registered ID, and the registry is
    extended by the new entry. *)
Theorem addWorkbookPivotCache_cacheID f RID :
  Forall (fun c => CacheID c < MaxInt) (default [] (PivotCaches f)) ->
  exists f' cacheID,
    addWorkbookPivotCache f RID = (f', cacheID) /\
    cacheID = Z.max 1 (default 0 (maxRegistered (default [] (PivotCaches f)))) + 1 /\
    2 <= cacheID /\
    (forall c, c ∈ default [] (PivotCaches f) -> CacheID c < cacheID) /\
    (forall m, maxRegistered (default [] (PivotCaches f)) = Some m -> 1 <= m ->
               cacheID = m + 1) /\
    PivotCaches f'
    = Some (default [] (PivotCaches f)
              ++ [{| CacheID := cacheID; RID := "rId" +:+ strconv.Itoa RID |}]).
Proof.
  intros Hbound. unfold addWorkbookPivotCache.
  set (caches := default [] (PivotCaches f)) in *.
  assert (Hupper : forall c, c ∈ caches -> CacheID c <= maxCacheID caches).
  { intros c Hc. rewrite maxCacheID_spec.
    destruct (maxRegistered caches) as [m|] eqn:Hm.
    - apply maxRegistered_spec in Hm as [_ Hm]. specialize (Hm c Hc). simpl. lia.
    - destruct caches; [inversion Hc|discriminate]. }
  assert (Hsmall : 1 <= maxCacheID caches < MaxInt).
  { rewrite maxCacheID_spec. split; [lia|].
    destruct (maxRegistered caches) as [m|] eqn:Hm; simpl; [|unfold MaxInt; lia].
    apply maxRegistered_spec in Hm as [(c & Hc & <-) _].
    rewrite Forall_forall in Hbound. specialize (Hbound c Hc). unfold MaxInt in *. lia. }
  rewrite int_wrap_small by (unfold MaxInt in *; lia).
  eexists _, _. split; [reflexivity|].
  split; [rewrite maxCacheID_spec; reflexivity|].
  split; [lia|]. split; [intros c Hc; specialize (Hupper c Hc); lia|].
  split; [|reflexivity].
  intros m Hm Hone. rewrite maxCacheID_spec, Hm. simpl. lia.
Qed.
End Registry.

(** ** File-suffix allocation: [countPivotTables], [countPivotCache] *)

Section Counting.
Context {host : Collaborators}.

Lemma prefix_app p s : String.prefix p (p +:+ s) = true.
Proof.
  induction p as [|c p IH]; simpl; [destruct s; reflexivity|].
  destruct (ascii_dec c c); [exact IH|contradiction].
Qed.

Lemma prefix_occurs p s c : String.prefix p s = true -> occurs c p -> occurs c s.
Proof.
  revert s. induction p as [|d p IH]; intros s Hp Hc; [destruct Hc|].
  destruct s as [|e s]; simpl in Hp; [discriminate|].
  destruct (ascii_dec d e) as [->|]; [|discriminate].
  apply occurs_cons in Hc as [->|Hc]; apply occurs_cons; [left; reflexivity|right; eauto].
Qed.

Lemma Contains_of_prefix s p : String.prefix p s = true -> strings.Contains s p = true.
Proof. destruct s; simpl; intros ->; reflexivity. Qed.

Lemma Contains_prefix p s : strings.Contains (p +:+ s) p = true.
Proof. apply Contains_of_prefix, prefix_app. Qed.

Lemma Contains_occurs s p c : strings.Contains s p = true -> occurs c p -> occurs c s.
Proof.
  induction s as [|d s IH]; intros Hs Hc.
  - change (String.prefix p "" || false = true) in Hs.
    rewrite orb_false_r in Hs. eapply prefix_occurs; eassumption.
  - change (String.prefix p (String d s) || strings.Contains s p = true) in Hs.
    apply orb_true_iff in Hs as [Hs|Hs]; [eapply prefix_occurs; eassumption|].
    apply occurs_cons. right. auto.
Qed.

Lemma string_of_uint_decimal d c :
  occurs c (NilEmpty.string_of_uint d) -> decimalByte c.
Proof.
  unfold decimalByte.
  induction d; simpl; intros Hc; [destruct Hc|..];
    (apply occurs_cons in Hc as [<-|Hc]; [simpl; tauto|exact (IHd Hc)]).
Qed.

Lemma Itoa_decimal i c : occurs c (strconv.Itoa i) -> decimalByte c.
Proof.
  unfold strconv.Itoa, NilZero.string_of_int, NilZero.string_of_uint.
  destruct (Z.to_int i) as [d|d]; intros Hc.
  - destruct d; try (eapply string_of_uint_decimal; exact Hc).
    apply occurs_cons in Hc as [<-|[]]. unfold decimalByte. simpl. tauto.
  - apply occurs_cons in Hc as [<-|Hc]; [unfold decimalByte; simpl; tauto|].
    destruct d; try (eapply string_of_uint_decimal; exact Hc).
    apply occurs_cons in Hc as [<-|[]]. unfold decimalByte. simpl. tauto.
Qed.

(** Replacing [".."] leaves a decimal number followed by [".xml"] as it is. *)
Lemma replace_decimal_xml d :
  (forall c, occurs c d -> decimalByte c) ->
  strings.replaceFrom 0 (d +:+ ".xml") ".." "xl" = d +:+ ".xml".
Proof.
  induction d as [|c d IH]; intros Hd; [reflexivity|].
  assert (Hc : decimalByte c) by (apply Hd, occurs_cons; left; reflexivity).
  assert (Hd' : forall c', occurs c' d -> decimalByte c')
    by (intros c' Hc'; apply Hd, occurs_cons; right; exact Hc').
  specialize (IH Hd').
  unfold decimalByte in Hc. simpl in Hc.
  repeat (destruct Hc as [<-|Hc]; [simpl; simpl in IH; rewrite IH; reflexivity|]).
  destruct Hc.
Qed.

(** The path of the table part is the relationship target with [".."]
    replaced by ["xl"]. *)
Lemma pivotTableXML_path i :
  strings.Replace ("../pivotTables/pivotTable" +:+ strconv.Itoa i +:+ ".xml") ".." "xl"
  = pivotTablePart i.
Proof.
  unfold strings.Replace.
  change (strings.replaceFrom 0
            ("../pivotTables/pivotTable" +:+ strconv.Itoa i +:+ ".xml") ".." "xl")
    with ("xl/pivotTables/pivotTable"
            +:+ strings.replaceFrom 0 (strconv.Itoa i +:+ ".xml") ".." "xl").
  rewrite (replace_decimal_xml (strconv.Itoa i) (Itoa_decimal i)). reflexivity.
Qed.

Lemma decimal_not c s i : ~ decimalByte c -> ~ occurs c s -> ~ occurs c (strconv.Itoa i +:+ s).
Proof.
  intros Hc Hs [Hi|Hi]%occurs_app; [|contradiction].
  apply Hc. eapply Itoa_decimal, Hi.
Qed.

Lemma table_path_matches i :
  strings.Contains (pivotTablePart i) "xl/pivotTables/pivotTable" = true.
Proof. apply Contains_prefix. Qed.

Lemma cache_path_matches i :
  strings.Contains (pivotCachePart i) "xl/pivotCache/pivotCacheDefinition" = true.
Proof. apply Contains_prefix. Qed.

(** The cache pattern holds a [C] and the table path none; the table
    pattern holds a [T] and the cache path none. *)
Lemma table_path_not_cache i :
  strings.Contains (pivotTablePart i) "xl/pivotCache/pivotCacheDefinition" = false.
Proof.
  unfold pivotTablePart.
  apply not_true_is_false. intros Hc.
  apply (Contains_occurs _ _ "C") in Hc; [|unfold occurs; simpl; tauto].
  apply occurs_app in Hc as [Hc|Hc]; [unfold occurs in Hc; simpl in Hc; intuition discriminate|].
  revert Hc. apply decimal_not; unfold decimalByte, occurs; simpl; intuition discriminate.
Qed.

Lemma cache_path_not_table i :
  strings.Contains (pivotCachePart i) "xl/pivotTables/pivotTable" = false.
Proof.
  unfold pivotCachePart.
  apply not_true_is_false. intros Hc.
  apply (Contains_occurs _ _ "T") in Hc; [|unfold occurs; simpl; tauto].
  apply occurs_app in Hc as [Hc|Hc]; [unfold occurs in Hc; simpl in Hc; intuition discriminate|].
  revert Hc. apply decimal_not; unfold decimalByte, occurs; simpl; intuition discriminate.
Qed.
End Counting.

Section Suffixes.
Context {host : Collaborators}.

Lemma countMatching_insert_fresh pattern k v (parts : gmap string (list byte)) :
  parts !! k = None ->
  countMatching pattern (<[k := v]> parts)
  = if strings.Contains k pattern then countMatching pattern parts + 1
    else countMatching pattern parts.
Proof.
  intros Hfresh. unfold countMatching.
  rewrite map_fold_insert_L; [reflexivity| |exact Hfresh].
  intros j1 j2 z1 z2 y _ _ _.
  destruct (strings.Contains j1 pattern), (strings.Contains j2 pattern); reflexivity.
Qed.

Lemma countMatching_delete pattern k v (parts : gmap string (list byte)) :
  parts !! k = Some v ->
  countMatching pattern parts
  = if strings.Contains k pattern then countMatching pattern (delete k parts) + 1
    else countMatching pattern (delete k parts).
Proof.
  intros Hk. rewrite <- (countMatching_insert_fresh pattern k v) by apply lookup_delete_eq.
  rewrite insert_delete_eq, insert_id by exact Hk. reflexivity.
Qed.

(** Writing a part adds one to the count when its path matches and was
    not in the table, and leaves the count as it is otherwise. *)
Lemma countMatching_insert pattern k v (parts : gmap string (list byte)) :
  countMatching pattern (<[k := v]> parts)
  = if strings.Contains k pattern && bool_decide (parts !! k = None)
    then countMatching pattern parts + 1 else countMatching pattern parts.
Proof.
  destruct (parts !! k) as [x|] eqn:Hk.
  - rewrite bool_decide_eq_false_2, andb_false_r by discriminate.
    rewrite <- insert_delete_eq, countMatching_insert_fresh by apply lookup_delete_eq.
    rewrite (countMatching_delete pattern k x parts Hk). reflexivity.
  - rewrite bool_decide_eq_true_2, andb_true_r by reflexivity.
    apply countMatching_insert_fresh, Hk.
Qed.

Lemma countMatching_nonneg pattern (parts : gmap string (list byte)) :
  0 <= countMatching pattern parts.
Proof.
  induction parts as [|k v parts Hk IH] using map_ind; [reflexivity|].
  rewrite countMatching_insert_fresh by exact Hk.
  destruct (strings.Contains k pattern); lia.
Qed.

(** A count of zero: no path of the table matches. *)
Lemma countMatching_zero pattern (parts : gmap string (list byte)) :
  countMatching pattern parts = 0 ->
  forall k, is_Some (parts !! k) -> strings.Contains k pattern = false.
Proof.
  induction parts as [|k v parts Hk IH] using map_ind; intros Hzero j [x Hj].
  - rewrite lookup_empty in Hj. discriminate.
  - rewrite countMatching_insert_fresh in Hzero by exact Hk.
    pose proof (countMatching_nonneg pattern parts).
    destruct (strings.Contains k pattern) eqn:Hmatch; [lia|].
    destruct (decide (k = j)) as [<-|Hne]; [exact Hmatch|].
    rewrite lookup_insert_ne in Hj by exact Hne. eauto.
Qed.

Lemma countMatching_zero_fresh pattern (parts : gmap string (list byte)) k :
  countMatching pattern parts = 0 -> strings.Contains k pattern = true -> parts !! k = None.
Proof.
  intros Hzero Hmatch. destruct (parts !! k) as [x|] eqn:Hk; [|reflexivity].
  rewrite (countMatching_zero pattern parts Hzero k) in Hmatch by eauto. discriminate.
Qed.

(** Declaring a content type touches the manifest only. *)
Lemma XLSX_addContentTypePart f index contentType :
  XLSX (addContentTypePart f index contentType) = XLSX f.
Proof. unfold addContentTypePart. destruct (existsb _ _); reflexivity. Qed.

Lemma addPivotCache_saves f pivotCacheID pivotCacheXML opt f' :
  addPivotCache f pivotCacheID pivotCacheXML opt = Returns (f', None) ->
  exists pivotCache, f' = saveFileList f pivotCacheXML pivotCache.
Proof.
  unfold addPivotCache.
  destruct (adjustRange (DataRange opt)) as [[[dataSheet coordinates] [e|]]|];
    [discriminate| |discriminate].
  destruct (getPivotFieldsOrder f (DataRange opt)) as [[order [e|]]|];
    [discriminate| |discriminate].
  destruct (Marshal_PivotCacheDefinition _) as [pivotCache err].
  intros [= <- _]. eauto.
Qed.

Lemma addPivotTable_saves f cacheID pivotTableID pivotTableXML opt f' :
  addPivotTable f cacheID pivotTableID pivotTableXML opt = Returns (f', None) ->
  exists pivotTable, f' = saveFileList f pivotTableXML pivotTable.
Proof.
  unfold addPivotTable.
  destruct (adjustRange (PivotTableRange opt)) as [[[sheet coordinates] [e|]]|];
    [discriminate| |discriminate].
  destruct (newPivotTableDefinition _ _ _ _ _) as [[pt [e|]]|];
    [discriminate| |discriminate].
  destruct (Marshal_PivotTableDefinition _) as [pivotTable err].
  intros [= <- _]. eauto.
Qed.

(** The parts of the document after a successful build: the cache part
    and the table part, numbered by the two counts, added to the parts
    that were there. *)
Lemma AddPivotTable_parts f opt f' :
  AddPivotTable f (Some opt) = Returns (f', None) ->
  exists pivotCache pivotTable,
    XLSX f'
    = <[pivotTablePart (countPivotTables f + 1) := XMLHeader ++ pivotTable]>
        (<[pivotCachePart (countPivotCache f + 1) := XMLHeader ++ pivotCache]> (XLSX f)).
Proof.
  unfold AddPivotTable. rewrite pivotTableXML_path.
  destruct (parseFormatPivotTableSet f (Some opt)) as [[pivotTableSheetPath [e|]]|];
    [discriminate| |discriminate].
  destruct (addPivotCache f _ _ opt) as [[f1 [e|]]|] eqn:Hcache;
    [discriminate| |discriminate].
  apply addPivotCache_saves in Hcache as [pivotCache ->].
  destruct (addRels _ _ _ _ _) as [f2 rid] eqn:Hrels1.
  destruct (addWorkbookPivotCache f2 rid) as [f3 cacheID] eqn:Hreg.
  destruct (addRels f3 _ _ _ _) as [f4 rid'] eqn:Hrels2.
  destruct (addPivotTable f4 _ _ _ opt) as [[f5 [e|]]|] eqn:Htable;
    [discriminate| |discriminate].
  apply addPivotTable_saves in Htable as [pivotTable ->].
  destruct (addRels _ _ _ _ _) as [f6 rid''] eqn:Hrels3.
  intros [= <-]. exists pivotCache, pivotTable.
  rewrite !XLSX_addContentTypePart.
  injection Hrels1 as <- _. injection Hreg as <- _. injection Hrels2 as <- _.
  injection Hrels3 as <- _. reflexivity.
Qed.
End Suffixes.

Section SuffixAllocation.
Context {host : Collaborators}.

Lemma parts_differ i j : pivotCachePart i <> pivotTablePart j.
Proof.
  intros Heq. pose proof (cache_path_matches i) as Hm.
  rewrite Heq, table_path_not_cache in Hm. discriminate.
Qed.

(** The counts after the two parts are written. *)
Lemma counts_after_build (parts : gmap string (list byte)) i j pivotTable pivotCache :
  countMatching "xl/pivotTables/pivotTable"
    (<[pivotTablePart i := pivotTable]> (<[pivotCachePart j := pivotCache]> parts))
  = countMatching "xl/pivotTables/pivotTable" parts
    + (if bool_decide (parts !! pivotTablePart i = None) then 1 else 0) /\
  countMatching "xl/pivotCache/pivotCacheDefinition"
    (<[pivotTablePart i := pivotTable]> (<[pivotCachePart j := pivotCache]> parts))
  = countMatching "xl/pivotCache/pivotCacheDefinition" parts
    + (if bool_decide (parts !! pivotCachePart j = None) then 1 else 0).
Proof.
  rewrite !countMatching_insert.
  rewrite table_path_matches, cache_path_matches, table_path_not_cache, cache_path_not_table.
  rewrite lookup_insert_ne by apply parts_differ. simpl.
  split; case_bool_decide; lia.
Qed.

(** C4.  A successful build writes the cache part and the table part
    under the paths whose suffixes are the number of parts with a
    matching path, plus 1; each count grows by one when the path was
    free.  On a document with no such parts the suffixes are 1 and 1,
    both counts are 1 afterwards, and the next successful build writes
    the parts with suffix 2. *)
Theorem AddPivotTable_suffixes f opt f1 :
  AddPivotTable f (Some opt) = Returns (f1, None) ->
  (exists pivotCache pivotTable,
     XLSX f1
     = <[pivotTablePart (countPivotTables f + 1) := pivotTable]>
         (<[pivotCachePart (countPivotCache f + 1) := pivotCache]> (XLSX f))) /\
  countPivotTables f1
  = countPivotTables f
    + (if bool_decide (XLSX f !! pivotTablePart (countPivotTables f + 1) = None)
       then 1 else 0) /\
  countPivotCache f1
  = countPivotCache f
    + (if bool_decide (XLSX f !! pivotCachePart (countPivotCache f + 1) = None)
       then 1 else 0) /\
  (countPivotTables f = 0 -> countPivotCache f = 0 ->
   countPivotTables f1 = 1 /\ countPivotCache f1 = 1 /\
   (exists pivotCache pivotTable,
      XLSX f1
      = <[pivotTablePart 1 := pivotTable]> (<[pivotCachePart 1 := pivotCache]> (XLSX f))) /\
   forall opt2 f2,
     AddPivotTable f1 (Some opt2) = Returns (f2, None) ->
     exists pivotCache pivotTable,
       XLSX f2
       = <[pivotTablePart 2 := pivotTable]> (<[pivotCachePart 2 := pivotCache]> (XLSX f1))).
Proof.
  intros Hbuild.
  destruct (AddPivotTable_parts _ _ _ Hbuild) as (pivotCache & pivotTable & Hparts).
  assert (Hcounts :
    countPivotTables f1
    = countPivotTables f
      + (if bool_decide (XLSX f !! pivotTablePart (countPivotTables f + 1) = None)
         then 1 else 0) /\
    countPivotCache f1
    = countPivotCache f
      + (if bool_decide (XLSX f !! pivotCachePart (countPivotCache f + 1) = None)
         then 1 else 0)).
  { change (countPivotTables f1) with (countMatching "xl/pivotTables/pivotTable" (XLSX f1)).
    change (countPivotCache f1)
      with (countMatching "xl/pivotCache/pivotCacheDefinition" (XLSX f1)).
    rewrite Hparts. apply counts_after_build. }
  destruct Hcounts as [Htables Hcaches].
  split; [eauto|]. split; [exact Htables|]. split; [exact Hcaches|].
  intros Hnone Hnone'.
  assert (Hone : countPivotTables f1 = 1 /\ countPivotCache f1 = 1).
  { rewrite Htables, Hcaches.
    rewrite !bool_decide_eq_true_2; [lia| |].
    - eapply countMatching_zero_fresh; [exact Hnone'|apply cache_path_matches].
    - eapply countMatching_zero_fresh; [exact Hnone|apply table_path_matches]. }
  destruct Hone as [Hone Hone'].
  split; [exact Hone|]. split; [exact Hone'|]. split.
  - rewrite Hnone, Hnone' in Hparts. eauto.
  - intros opt2 f2 Hbuild2.
    destruct (AddPivotTable_parts _ _ _ Hbuild2) as (pivotCache2 & pivotTable2 & Hparts2).
    rewrite Hone, Hone' in Hparts2. eauto.
Qed.
End SuffixAllocation.

(** ** The builders and their counts *)

Section Builders.
Context {host : Collaborators}.

Lemma fold_appendCacheField {A} (g : A -> xlsxCacheField) l : forall pc,
  fold_left (fun pc x => appendCacheField pc (g x)) l pc
  = set_CacheFields pc
      {| cfs_Count := cfs_Count (pc_CacheFields pc);
         cfs_CacheField := cfs_CacheField (pc_CacheFields pc) ++ map g l |}.
Proof.
  induction l as [|x l IH]; intros pc; simpl.
  - rewrite app_nil_r. destruct pc as [? ? ? [? ?]]. reflexivity.
  - rewrite IH. unfold appendCacheField, set_CacheFields. simpl.
    rewrite <- app_assoc. reflexivity.
Qed.

Lemma fold_appendRowField {A} (g : A -> xlsxField) l : forall pt,
  fold_left (fun pt x => appendRowField pt (g x)) l pt
  = set_RowFields pt
      {| rf_Count := rf_Count (pt_RowFields pt);
         rf_Field := rf_Field (pt_RowFields pt) ++ map g l |}.
Proof.
  induction l as [|x l IH]; intros pt; simpl.
  - rewrite app_nil_r. destruct pt as [? ? ? ? ? [? ?] ? ? ? ? ?]. reflexivity.
  - rewrite IH. unfold appendRowField, set_RowFields. simpl.
    rewrite <- app_assoc. reflexivity.
Qed.

Lemma fold_appendDataField {A} (g : A -> xlsxDataField) l : forall pt,
  fold_left (fun pt x => appendDataField pt (g x)) l pt
  = set_DataFields pt
      {| dfs_Count := dfs_Count (pt_DataFields pt);
         dfs_DataField := dfs_DataField (pt_DataFields pt) ++ map g l |}.
Proof.
  induction l as [|x l IH]; intros pt; simpl.
  - rewrite app_nil_r. destruct pt as [? ? ? ? ? ? ? ? ? [? ?] ?]. reflexivity.
  - rewrite IH. unfold appendDataField, set_DataFields. simpl.
    rewrite <- app_assoc. reflexivity.
Qed.

Lemma fold_appendColField {A} (g : A -> xlsxField) l : forall pt,
  fold_left (fun pt x => appendColField pt (g x)) l pt
  = set_ColFields pt
      ((fun c => {| colf_Count := colf_Count c; colf_Field := colf_Field c ++ map g l |})
         <$> pt_ColFields pt).
Proof.
  induction l as [|x l IH]; intros pt; simpl.
  - destruct pt as [? ? ? ? ? ? ? [[? ?]|] ? ? ?]; unfold set_ColFields; simpl;
      rewrite ?app_nil_r; reflexivity.
  - rewrite IH. unfold appendColField, set_ColFields. simpl.
    destruct (pt_ColFields pt) as [[? ?]|]; simpl; [rewrite <- app_assoc|]; reflexivity.
Qed.

(** The cache definition in closed form. *)
Lemma newPivotCacheDefinition_fields dataSheet coordinates order :
  pc_CacheFields (newPivotCacheDefinition dataSheet coordinates order)
  = {| cfs_Count := Z.of_nat (length order);
       cfs_CacheField :=
         map (fun name => {| cf_Name := name; cf_SharedItems := Some {| si_Count := 0 |} |})
           order |}.
Proof.
  unfold newPivotCacheDefinition. rewrite fold_appendCacheField. simpl.
  rewrite length_map. reflexivity.
Qed.

Lemma addPivotColFields_ok f pt opt order :
  getPivotFieldsOrder f (DataRange opt) = Returns (order, None) ->
  pt_ColFields pt = None ->
  addPivotColFields f pt opt = Returns (set_ColFields pt (colFieldsOf opt order), None).
Proof.
  intros Horder Hnil. unfold addPivotColFields, colFieldsOf.
  destruct (length (Columns opt) =? 0)%nat.
  - destruct pt. simpl in Hnil. subst. reflexivity.
  - rewrite (getPivotFieldsIndex_ok _ _ _ _ Horder), fold_appendColField. simpl.
    rewrite length_map. reflexivity.
Qed.

(** The table definition in closed form, when the header can be read. *)
Lemma newPivotTableDefinition_ok f cacheID pivotTableID coordinates opt order :
  getPivotFieldsOrder f (DataRange opt) = Returns (order, None) ->
  newPivotTableDefinition f cacheID pivotTableID coordinates opt
  = Returns
      (set_DataFields
         (set_ColFields
            (set_RowFields
               (set_PivotFields (emptyPivotTableDefinition cacheID pivotTableID coordinates)
                  {| pfs_Count := Z.of_nat (length order);
                     pfs_PivotField := map (classify opt) order |})
               {| rf_Count := Z.of_nat (length (indexLoop order (Rows opt) []));
                  rf_Field := map Build_xlsxField (indexLoop order (Rows opt) []) |})
            (colFieldsOf opt order))
         {| dfs_Count := Z.of_nat (length (indexLoop order (Data opt) []));
            dfs_DataField := map Build_xlsxDataField (indexLoop order (Data opt) []) |},
       None).
Proof.
  intros Horder. unfold newPivotTableDefinition.
  rewrite (addPivotFields_ok _ _ _ _ Horder).
  rewrite !(getPivotFieldsIndex_ok _ _ _ _ Horder).
  rewrite fold_appendRowField.
  rewrite (addPivotColFields_ok _ _ _ _ Horder) by reflexivity.
  rewrite fold_appendDataField. simpl. rewrite !length_map. reflexivity.
Qed.

Lemma newPivotTableDefinition_error f cacheID pivotTableID coordinates opt order e :
  getPivotFieldsOrder f (DataRange opt) = Returns (order, Some e) ->
  newPivotTableDefinition f cacheID pivotTableID coordinates opt
  = Returns (emptyPivotTableDefinition cacheID pivotTableID coordinates, Some e).
Proof.
  intros Horder. unfold newPivotTableDefinition.
  rewrite (addPivotFields_error _ _ _ _ _ Horder). reflexivity.
Qed.

(** The construction panics when the header extraction does. *)
Lemma newPivotTableDefinition_panic f cacheID pivotTableID coordinates opt :
  getPivotFieldsOrder f (DataRange opt) = Panics ->
  newPivotTableDefinition f cacheID pivotTableID coordinates opt = Panics.
Proof.
  intros Horder. unfold newPivotTableDefinition, addPivotFields.
  rewrite Horder. reflexivity.
Qed.
End Builders.

Section Counts.
Context {host : Collaborators}.

(** C10.  In the cache definition that [addPivotCache] encodes the count
    of cache fields is the number of cache fields, one per header name.
    In the table definition that [addPivotTable] builds the counts of
    pivot fields, row fields, column fields (when the section is there)
    and data fields are the lengths of their lists; when the header can
    be read these lists hold one pivot field per header name and the
    indices resolved for Rows, Columns and Data, and the column section
    is there exactly when Columns is not empty. *)
Theorem builders_counts f cacheID pivotTableID coordinates opt
    dataSheet dataCoordinates order :
  let pc := newPivotCacheDefinition dataSheet dataCoordinates order in
  (cfs_Count (pc_CacheFields pc) = Z.of_nat (length (cfs_CacheField (pc_CacheFields pc))) /\
   length (cfs_CacheField (pc_CacheFields pc)) = length order) /\
  match newPivotTableDefinition f cacheID pivotTableID coordinates opt with
  | Returns (pt, _) =>
      countsAgree pt /\
      forall header,
        getPivotFieldsOrder f (DataRange opt) = Returns (header, None) ->
        length (pfs_PivotField (pt_PivotFields pt)) = length header /\
        getPivotFieldsIndex f (Rows opt) opt
        = Returns (map field_X (rf_Field (pt_RowFields pt)), None) /\
        (pt_ColFields pt = None <-> Columns opt = []) /\
        (forall c, pt_ColFields pt = Some c ->
                   getPivotFieldsIndex f (Columns opt) opt
                   = Returns (map field_X (colf_Field c), None)) /\
        getPivotFieldsIndex f (Data opt) opt
        = Returns (map df_Fld (dfs_DataField (pt_DataFields pt)), None)
  | Panics => getPivotFieldsOrder f (DataRange opt) = Panics
  end.
Proof.
  intros pc. subst pc. rewrite newPivotCacheDefinition_fields. simpl.
  split; [rewrite length_map; split; reflexivity|].
  destruct (getPivotFieldsOrder f (DataRange opt)) as [[header [e|]]|] eqn:Horder;
    [| |rewrite (newPivotTableDefinition_panic _ _ _ _ _ Horder); reflexivity].
  - rewrite (newPivotTableDefinition_error _ _ _ _ _ _ _ Horder). simpl.
    split; [|discriminate]. repeat split. discriminate.
  - rewrite (newPivotTableDefinition_ok _ _ _ _ _ _ Horder). simpl.
    unfold colFieldsOf. split.
    + unfold countsAgree. simpl. rewrite !length_map.
      repeat split. intros c.
      destruct (length (Columns opt) =? 0)%nat; [discriminate|].
      intros [= <-]. simpl. rewrite length_map. reflexivity.
    + intros header' [= <-].
      rewrite !(getPivotFieldsIndex_ok _ _ _ _ Horder), length_map, !map_map. simpl.
      rewrite !map_id.
      split; [reflexivity|]. split; [reflexivity|]. split; [|split; [|reflexivity]].
      * destruct (Columns opt); simpl; split; intros; try reflexivity; discriminate.
      * intros c. destruct (length (Columns opt) =? 0)%nat; [discriminate|].
        intros [= <-]. simpl. rewrite map_map. simpl. rewrite map_id. reflexivity.
Qed.
End Counts.

(** ** Validation and the inert Page list: [AddPivotTable] *)

Section TopLevel.
Context {host : Collaborators}.

Lemma parse_nil f :
  parseFormatPivotTableSet f None = Returns ("", Some "parameter is required").
Proof. reflexivity. Qed.

Lemma AddPivotTable_rejected f opt path e :
  parseFormatPivotTableSet f opt = Returns (path, Some e) ->
  AddPivotTable f opt = Returns (f, Some e).
Proof. unfold AddPivotTable. intros ->. reflexivity. Qed.


(** C9.  The Page list of the options is read nowhere: two options that
    differ in it only give the same result and the same document, and
    the table definition built from them is the same. *)
Theorem Page_is_inert f dataRange pivotTableRange rows columns data page page'
    cacheID pivotTableID coordinates :
  AddPivotTable f
    (Some (mkPivotTableOption dataRange pivotTableRange rows columns data page))
  = AddPivotTable f
      (Some (mkPivotTableOption dataRange pivotTableRange rows columns data page')) /\
  newPivotTableDefinition f cacheID pivotTableID coordinates
    (mkPivotTableOption dataRange pivotTableRange rows columns data page)
  = newPivotTableDefinition f cacheID pivotTableID coordinates
      (mkPivotTableOption dataRange pivotTableRange rows columns data page').
Proof. split; reflexivity. Qed.
End TopLevel.

(** ** Further properties of the range resolver *)

Section RangeShape.
Context {host : Collaborators}.

Lemma Replace_anchor_cons c s :
  strings.Replace (String c s) "$" ""
  = if Ascii.eqb c "$" then strings.Replace s "$" "" else String c (strings.Replace s "$" "").
Proof.
  unfold strings.Replace.
  change (strings.replaceFrom 0 (String c s) "$" "")
    with (if String.prefix "$" (String c s) then strings.replaceFrom 0 s "$" ""
          else String c (strings.replaceFrom 0 s "$" "")).
  change (String.prefix "$" (String c s))
    with (if ascii_dec "$" c then String.prefix "" s else false).
  destruct (ascii_dec "$" c) as [<-|Hne].
  - destruct s; reflexivity.
  - destruct (Ascii.eqb_spec c "$"); [congruence|reflexivity].
Qed.

Lemma Replace_anchor_occurs c s : occurs c (strings.Replace s "$" "") -> occurs c s.
Proof.
  induction s as [|d s IH]; [intros []|].
  rewrite Replace_anchor_cons, occurs_cons.
  destruct (Ascii.eqb d "$"); [auto|].
  rewrite occurs_cons. tauto.
Qed.

Lemma Replace_anchor_idempotent s :
  strings.Replace (strings.Replace s "$" "") "$" "" = strings.Replace s "$" "".
Proof.
  induction s as [|c s IH]; [reflexivity|].
  rewrite Replace_anchor_cons. destruct (Ascii.eqb c "$") eqn:Hc; [exact IH|].
  rewrite Replace_anchor_cons, Hc, IH. reflexivity.
Qed.

(** X1.  The anchors of the range portion are ignored: two inputs with the
    same sheet whose range portions differ in their [$] signs only resolve
    to the same result, success or error; in particular an input resolves
    as the input with all anchors of its range removed. *)
Theorem adjustRange_anchors sheet rng rng' :
  ~ occurs "!" sheet -> ~ occurs "!" rng -> ~ occurs "!" rng' ->
  strings.Replace rng "$" "" = strings.Replace rng' "$" "" ->
  adjustRange (sheet +:+ "!" +:+ rng) = adjustRange (sheet +:+ "!" +:+ rng') /\
  adjustRange (sheet +:+ "!" +:+ strings.Replace rng "$" "")
  = adjustRange (sheet +:+ "!" +:+ rng).
Proof.
  intros Hs Hr Hr' Hsame. split.
  - rewrite !adjustRange_pair by assumption. rewrite Hsame. reflexivity.
  - rewrite !adjustRange_pair; try assumption.
    + rewrite Replace_anchor_idempotent. reflexivity.
    + intros Hc. apply Hr. eapply Replace_anchor_occurs, Hc.
Qed.

(** X2.  What [adjustRange] returns has one of two shapes: on success four
    coordinates, in order on each axis, that span at least two cells (a
    single row or a single column is accepted, a single cell never); with an
    error no coordinate at all.  The four indexed reads of the callers are
    therefore within the slice.  When it returns nothing, the parser has
    panicked on the range portion. *)
Theorem adjustRange_shape rangeStr :
  match adjustRange rangeStr with
  | Returns (_, coordinates, None) =>
      exists x1 y1 x2 y2,
        coordinates = [x1; y1; x2; y2] /\ x1 <= x2 /\ y1 <= y2 /\
        (x1 < x2 \/ y1 < y2) /\ 2 <= (x2 - x1 + 1) * (y2 - y1 + 1)
  | Returns (_, coordinates, Some _) => coordinates = []
  | Panics =>
      exists sheet rng,
        rangeStr = sheet +:+ "!" +:+ rng /\
        areaRefToCoordinates (strings.Replace rng "$" "") = Panics
  end.
Proof.
  destruct (adjustRange rangeStr) as [[[sheet coordinates] [e|]]|] eqn:Hres.
  - destruct (Nat.eq_dec (length (strings.Split rangeStr "!")) 2%nat) as [Hlen|Hlen].
    + apply length_two in Hlen as (a & rng & Hsplit).
      rewrite (adjustRange_split _ _ _ Hsplit) in Hres. unfold returning, resolved in Hres.
      destruct (areaRefToCoordinates _) as [[[[[a1 b1] a2] b2] [e'|]]|];
        [injection Hres as _ <- _; reflexivity| |discriminate Hres].
      destruct ((a1 =? a2) && (b1 =? b2)); [injection Hres as _ <- _; reflexivity|].
      discriminate Hres.
    + rewrite adjustRange_not_pair in Hres by assumption.
      injection Hres as _ <- _. reflexivity.
  - apply adjustRange_ok in Hres
      as (rng & a1 & b1 & a2 & b2 & _ & _ & _ & _ & Hdistinct & ->).
    exists (Z.min a1 a2), (Z.min b1 b2), (Z.max a1 a2), (Z.max b1 b2).
    split; [reflexivity|]. split; [lia|]. split; [lia|].
    assert (Z.min a1 a2 < Z.max a1 a2 \/ Z.min b1 b2 < Z.max b1 b2) as Hspan by lia.
    split; [exact Hspan|]. nia.
  - apply adjustRange_panic in Hres as (sheet & rng & -> & _ & _ & Hparse).
    exists sheet, rng. split; [reflexivity|exact Hparse].
Qed.

(** X22.  The three ways [adjustRange] ends.  It succeeds exactly on the
    inputs [Sheet!Range] with one separator whose range portion the parser
    resolves, without error, into two corners that are not the same cell.
    It panics exactly on the inputs with one separator on whose range
    portion the parser panics.  On all other inputs it returns an error:
    the format error when the separator is absent or not the only one, the
    error of the parser when the parser returns one, and the
    degenerate-range error when the two corners are the same cell. *)
Theorem adjustRange_outcomes rangeStr :
  ((exists sheet coordinates, adjustRange rangeStr = Returns (sheet, coordinates, None)) <->
   exists sheet rng x1 y1 x2 y2,
     rangeStr = sheet +:+ "!" +:+ rng /\ ~ occurs "!" sheet /\ ~ occurs "!" rng /\
     areaRefToCoordinates (strings.Replace rng "$" "") = Returns ((x1, y1, x2, y2), None) /\
     ~ (x1 = x2 /\ y1 = y2)) /\
  (adjustRange rangeStr = Panics <->
   exists sheet rng,
     rangeStr = sheet +:+ "!" +:+ rng /\ ~ occurs "!" sheet /\ ~ occurs "!" rng /\
     areaRefToCoordinates (strings.Replace rng "$" "") = Panics) /\
  (length (strings.Split rangeStr "!") <> 2%nat ->
   adjustRange rangeStr
   = Returns ("", [], Some (if (String.length rangeStr <? 1)%nat
                            then "parameter is required" else "parameter is invalid"))) /\
  (~ occurs "!" rangeStr -> length (strings.Split rangeStr "!") <> 2%nat) /\
  (forall sheet rng coordinates e,
     rangeStr = sheet +:+ "!" +:+ rng -> ~ occurs "!" sheet -> ~ occurs "!" rng ->
     areaRefToCoordinates (strings.Replace rng "$" "") = Returns (coordinates, Some e) ->
     adjustRange rangeStr = Returns (sheet, [], Some e)) /\
  (forall sheet rng x y,
     rangeStr = sheet +:+ "!" +:+ rng -> ~ occurs "!" sheet -> ~ occurs "!" rng ->
     areaRefToCoordinates (strings.Replace rng "$" "") = Returns ((x, y, x, y), None) ->
     adjustRange rangeStr = Returns (sheet, [], Some "parameter is invalid")).
Proof.
  split; [split|split; [split|split; [|split; [|split]]]].
  - intros (sheet & coordinates & Hres).
    apply adjustRange_ok in Hres as (rng & x1 & y1 & x2 & y2 & ? & ? & ? & ? & ? & _).
    exists sheet, rng, x1, y1, x2, y2. auto.
  - intros (sheet & rng & x1 & y1 & x2 & y2 & -> & Hs & Hr & Hparse & Hdistinct).
    rewrite (adjustRange_succeeds sheet rng x1 y1 x2 y2) by assumption. eauto.
  - apply adjustRange_panic.
  - intros (sheet & rng & -> & Hs & Hr & Hparse).
    rewrite adjustRange_pair by assumption. rewrite Hparse. reflexivity.
  - apply adjustRange_not_pair.
  - intros Habsent. rewrite Split_absent by assumption. simpl. lia.
  - intros sheet rng coordinates e -> Hs Hr Hparse.
    rewrite adjustRange_pair by assumption. unfold returning, resolved.
    rewrite Hparse. reflexivity.
  - intros sheet rng x y -> Hs Hr Hparse.
    rewrite adjustRange_pair by assumption. unfold returning, resolved.
    rewrite Hparse, !Z.eqb_refl. reflexivity.
Qed.
End RangeShape.

(** ** Further properties of the index resolver *)

Section IndexShape.
Context {host : Collaborators}.

Lemma inStrSliceFrom_shift a x idx :
  x ∈ a -> inStrSliceFrom idx a x = idx + inStrSlice a x.
Proof.
  intros Hx. unfold inStrSlice.
  destruct (inStrSliceFrom_present a x idx Hx) as (p & -> & Hat & Hfirst).
  destruct (inStrSliceFrom_present a x 0 Hx) as (p' & -> & Hat' & Hfirst').
  assert (p = p') as ->; [|lia].
  destruct (Nat.lt_trichotomy p p') as [Hlt|[->|Hlt]]; [|reflexivity|].
  - destruct (Hfirst' p Hlt Hat).
  - destruct (Hfirst p' Hlt Hat').
Qed.

Lemma inStrSliceFrom_app a b x idx :
  inStrSliceFrom idx (a ++ b) x
  = if decide (x ∈ a) then inStrSliceFrom idx a x
    else inStrSliceFrom (idx + Z.of_nat (length a)) b x.
Proof.
  revert idx. induction a as [|n a IH]; intros idx.
  - destruct (decide (x ∈ [])) as [Hin|_]; [inversion Hin|]. simpl. f_equal. lia.
  - cbn [app inStrSliceFrom length]. destruct (String.eqb_spec x n) as [->|Hne].
    + destruct (decide (n ∈ n :: a)) as [_|Hout]; [reflexivity|].
      exfalso. apply Hout. left.
    + rewrite IH.
      destruct (decide (x ∈ a)) as [Hin|Hout], (decide (x ∈ n :: a)) as [Hin'|Hout'].
      * reflexivity.
      * exfalso. apply Hout'. right. exact Hin.
      * apply elem_of_cons in Hin' as [?|?]; contradiction.
      * f_equal. lia.
Qed.

(** X3.  [inStrSlice] returns -1 exactly when the element is not in the
    slice.  Otherwise its result is a position of the slice, the element is
    at that position and at no earlier one; appending to the slice does not
    change the result, and an element found only in the appended part is
    found at its position there plus the length of the slice. *)
Theorem inStrSlice_position a x :
  (inStrSlice a x = -1 <-> x ∉ a) /\
  (x ∈ a ->
   0 <= inStrSlice a x < Z.of_nat (length a) /\
   a !! Z.to_nat (inStrSlice a x) = Some x /\
   forall q : nat, (q < Z.to_nat (inStrSlice a x))%nat -> a !! q <> Some x) /\
  (forall b, x ∈ a -> inStrSlice (a ++ b) x = inStrSlice a x) /\
  (forall b, x ∉ a -> x ∈ b ->
             inStrSlice (a ++ b) x = Z.of_nat (length a) + inStrSlice b x).
Proof.
  split; [|split; [|split]].
  - split.
    + intros Hres Hin. destruct (inStrSlice_present a x Hin) as (p & Hp & _). lia.
    + apply inStrSlice_absent.
  - intros Hin. destruct (inStrSlice_present a x Hin) as (p & -> & Hat & Hfirst).
    rewrite Nat2Z.id. split; [|split; assumption].
    apply lookup_lt_Some in Hat. lia.
  - intros b Hin. unfold inStrSlice. rewrite inStrSliceFrom_app, decide_True by exact Hin.
    reflexivity.
  - intros b Hout Hin. unfold inStrSlice at 1.
    rewrite inStrSliceFrom_app, decide_False by exact Hout.
    rewrite inStrSliceFrom_shift by exact Hin. lia.
Qed.

Lemma omap_cons_Some {A B} (g : A -> option B) x y l :
  g x = Some y -> omap g (x :: l) = y :: omap g l.
Proof. intros Hx. simpl. rewrite Hx. reflexivity. Qed.

Lemma resolves_positions orders fields poss :
  resolves orders fields poss ->
  omap (fun p => orders !! Z.to_nat p) poss = filter (fun name => name ∈ orders) fields /\
  Forall (fun p => exists name, name ∈ fields /\ firstPosition orders name p) poss.
Proof.
  induction 1 as [|name names pos poss Hpos _ [IHnames IHall]
                  |name names poss Habs _ [IHnames IHall]].
  - split; [reflexivity|constructor].
  - pose proof (firstPosition_elem _ _ _ Hpos) as Hin.
    destruct Hpos as (p & -> & Hat & Hfirst). split.
    + rewrite (omap_cons_Some _ _ name) by (rewrite Nat2Z.id; exact Hat).
      rewrite IHnames, filter_cons_True by exact Hin. reflexivity.
    + constructor.
      * exists name. split; [left|]. exists p. auto.
      * eapply Forall_impl; [exact IHall|].
        intros q (n & Hn & Hq). exists n. split; [right; exact Hn|exact Hq].
  - split.
    + rewrite filter_cons_False by exact Habs. exact IHnames.
    + eapply Forall_impl; [exact IHall|].
      intros q (n & Hn & Hq). exists n. split; [right; exact Hn|exact Hq].
Qed.

(** X4.  The indices that [getPivotFieldsIndex] returns are positions of
    the header: reading the header at them gives back the requested names
    that the header has, in request order and as often as they were
    requested; so there are as many indices as such names, never more than
    names requested, and each index is the first position of a requested
    name. *)
Theorem getPivotFieldsIndex_positions f fields opt orders :
  getPivotFieldsOrder f (DataRange opt) = Returns (orders, None) ->
  exists poss,
    getPivotFieldsIndex f fields opt = Returns (poss, None) /\
    omap (fun p => orders !! Z.to_nat p) poss = filter (fun name => name ∈ orders) fields /\
    length poss = length (filter (fun name => name ∈ orders) fields) /\
    (length poss <= length fields)%nat /\
    Forall (fun p => 0 <= p < Z.of_nat (length orders) /\
                     exists name, name ∈ fields /\ firstPosition orders name p)
      poss.
Proof.
  intros Horder. rewrite (getPivotFieldsIndex_ok _ _ _ _ Horder).
  destruct (indexLoop_resolves orders fields []) as (poss & -> & Hres). simpl.
  exists poss. split; [reflexivity|].
  destruct (resolves_positions _ _ _ Hres) as [Hnames Hall].
  assert (Hlen : length poss = length (filter (fun name => name ∈ orders) fields)).
  { rewrite <- Hnames. clear Hnames Hres. induction Hall as [|p poss (n & _ & q & -> & Hat & _) _ IH];
      [reflexivity|].
    rewrite (omap_cons_Some _ _ n) by (rewrite Nat2Z.id; exact Hat).
    simpl. rewrite IH. reflexivity. }
  split; [exact Hnames|]. split; [exact Hlen|]. split.
  - rewrite Hlen. apply length_filter.
  - eapply Forall_impl; [exact Hall|].
    intros p (n & Hn & Hp). split; [|eauto].
    destruct Hp as (q & -> & Hat & _). apply lookup_lt_Some in Hat. lia.
Qed.
End IndexShape.

(** ** Index lists against axis tags in the table definition *)

Section Consistency.
Context {host : Collaborators}.

Lemma resolves_elem orders fields poss :
  resolves orders fields poss ->
  forall p, p ∈ poss <-> exists name, name ∈ fields /\ firstPosition orders name p.
Proof.
  induction 1 as [|name names pos poss Hpos _ IH|name names poss Habs _ IH]; intros p.
  - split; [intros Hp; inversion Hp|intros (n & Hn & _); inversion Hn].
  - rewrite elem_of_cons, IH. split.
    + intros [->|(n & Hn & Hp)]; [exists name; split; [left|exact Hpos]|].
      exists n. split; [right; exact Hn|exact Hp].
    + intros (n & Hn & Hp); apply elem_of_cons in Hn as [->|Hn]; [|right; eauto].
      left. eapply firstPosition_unique; eassumption.
  - rewrite IH. split.
    + intros (n & Hn & Hp). exists n. split; [right; exact Hn|exact Hp].
    + intros (n & Hn & Hp); apply elem_of_cons in Hn as [->|Hn]; [|eauto].
      destruct Habs. eapply firstPosition_elem, Hp.
Qed.

Lemma indexLoop_elem orders fields p :
  p ∈ indexLoop orders fields [] <->
  exists name, name ∈ fields /\ firstPosition orders name p.
Proof.
  destruct (indexLoop_resolves orders fields []) as (poss & -> & Hres).
  apply resolves_elem, Hres.
Qed.

Lemma classify_row opt name : classify opt name = axisRowField <-> name ∈ Rows opt.
Proof.
  destruct (classify_classified opt name) as (Hrow & Hcol & Hdata & Hnone).
  split; [|exact Hrow]. intros Hc.
  destruct (decide (name ∈ Rows opt)) as [|HR]; [assumption|].
  destruct (decide (name ∈ Columns opt)) as [HC|HC];
    [rewrite (Hcol HR HC) in Hc; discriminate|].
  destruct (decide (name ∈ Data opt)) as [HD|HD];
    [rewrite (Hdata HR HC HD) in Hc|rewrite (Hnone HR HC HD) in Hc]; discriminate.
Qed.

(** The lists of a table definition built on a readable header. *)
Lemma built_lists f cacheID pivotTableID coordinates opt order :
  getPivotFieldsOrder f (DataRange opt) = Returns (order, None) ->
  exists pt,
    newPivotTableDefinition f cacheID pivotTableID coordinates opt = Returns (pt, None) /\
    pfs_PivotField (pt_PivotFields pt) = map (classify opt) order /\
    map field_X (rf_Field (pt_RowFields pt)) = indexLoop order (Rows opt) [] /\
    pt_ColFields pt = colFieldsOf opt order /\
    map df_Fld (dfs_DataField (pt_DataFields pt)) = indexLoop order (Data opt) [].
Proof.
  intros Horder. rewrite (newPivotTableDefinition_ok _ _ _ _ _ _ Horder).
  eexists. split; [reflexivity|]. simpl.
  rewrite !map_map. simpl. rewrite !map_id. auto.
Qed.

Lemma first_position_field opt order name p :
  firstPosition order name p ->
  map (classify opt) order !! Z.to_nat p = Some (classify opt name).
Proof.
  intros (q & -> & Hat & _). rewrite Nat2Z.id, list_lookup_fmap, Hat. reflexivity.
Qed.

Lemma field_index_elem (fld : xlsxField) l : fld ∈ l -> field_X fld ∈ map field_X l.
Proof. intros Hin. apply list_elem_of_fmap. eauto. Qed.

(** X5.  In a table definition built on a readable header every entry of
    RowFields is the position of a pivot field tagged with the row axis,
    whatever the three lists are. *)
Theorem RowFields_point_to_row_axis f cacheID pivotTableID coordinates opt order :
  getPivotFieldsOrder f (DataRange opt) = Returns (order, None) ->
  exists pt,
    newPivotTableDefinition f cacheID pivotTableID coordinates opt = Returns (pt, None) /\
    forall fld,
      fld ∈ rf_Field (pt_RowFields pt) ->
      pfs_PivotField (pt_PivotFields pt) !! Z.to_nat (field_X fld) = Some axisRowField.
Proof.
  intros Horder.
  destruct (built_lists f cacheID pivotTableID coordinates opt order Horder)
    as (pt & Hpt & Hfields & Hrows & _).
  exists pt. split; [exact Hpt|]. intros fld Hfld. rewrite Hfields.
  apply field_index_elem in Hfld. rewrite Hrows in Hfld.
  apply indexLoop_elem in Hfld as (name & Hname & Hpos).
  rewrite (first_position_field opt _ _ _ Hpos). f_equal. apply classify_row, Hname.
Qed.

(** X6.  When no name of Columns is in Rows, every entry of ColFields is
    the position of a pivot field tagged with the column axis; when no name
    of Data is in Rows or Columns, every entry of DataFields is the position
    of a pivot field marked as data field. *)
Theorem disjoint_lists_agree f cacheID pivotTableID coordinates opt order :
  getPivotFieldsOrder f (DataRange opt) = Returns (order, None) ->
  exists pt,
    newPivotTableDefinition f cacheID pivotTableID coordinates opt = Returns (pt, None) /\
    ((forall name, name ∈ Columns opt -> name ∉ Rows opt) ->
     forall c fld,
       pt_ColFields pt = Some c -> fld ∈ colf_Field c ->
       pfs_PivotField (pt_PivotFields pt) !! Z.to_nat (field_X fld) = Some axisColField) /\
    ((forall name, name ∈ Data opt -> (name ∉ Rows opt) /\ (name ∉ Columns opt)) ->
     forall fld,
       fld ∈ dfs_DataField (pt_DataFields pt) ->
       pfs_PivotField (pt_PivotFields pt) !! Z.to_nat (df_Fld fld) = Some dataField).
Proof.
  intros Horder.
  destruct (built_lists f cacheID pivotTableID coordinates opt order Horder)
    as (pt & Hpt & Hfields & _ & Hcols & Hdata).
  exists pt. split; [exact Hpt|]. rewrite Hfields. split.
  - intros Hdisjoint c fld Hc Hfld. rewrite Hcols in Hc. unfold colFieldsOf in Hc.
    destruct (length (Columns opt) =? 0)%nat; [discriminate|]. injection Hc as <-.
    simpl in Hfld. apply field_index_elem in Hfld.
    rewrite map_map in Hfld. simpl in Hfld. rewrite map_id in Hfld.
    apply indexLoop_elem in Hfld as (name & Hname & Hpos).
    rewrite (first_position_field opt _ _ _ Hpos). f_equal.
    destruct (classify_classified opt name) as (_ & Hcol & _). auto.
  - intros Hdisjoint fld Hfld.
    assert (df_Fld fld ∈ map df_Fld (dfs_DataField (pt_DataFields pt))) as Hin
      by (apply list_elem_of_fmap; eauto).
    rewrite Hdata in Hin. apply indexLoop_elem in Hin as (name & Hname & Hpos).
    rewrite (first_position_field opt _ _ _ Hpos). f_equal.
    destruct (classify_classified opt name) as (_ & _ & Hd & _).
    destruct (Hdisjoint name Hname). auto.
Qed.

(** X7.  When a name of the header is in both Rows and Columns, the table
    definition holds a ColFields entry that is the position of a pivot
    field tagged with the row axis: the index lists do not follow the
    priority of the classification. *)
Theorem overlap_column_entry_on_row_axis f cacheID pivotTableID coordinates opt order name :
  getPivotFieldsOrder f (DataRange opt) = Returns (order, None) ->
  name ∈ order -> name ∈ Rows opt -> name ∈ Columns opt ->
  exists pt c fld,
    newPivotTableDefinition f cacheID pivotTableID coordinates opt = Returns (pt, None) /\
    pt_ColFields pt = Some c /\ fld ∈ colf_Field c /\
    field_X fld = inStrSlice order name /\
    pfs_PivotField (pt_PivotFields pt) !! Z.to_nat (field_X fld) = Some axisRowField /\
    axisRowField <> axisColField.
Proof.
  intros Horder Hheader Hrows Hcolumns.
  destruct (built_lists f cacheID pivotTableID coordinates opt order Horder)
    as (pt & Hpt & Hfields & _ & Hcols & _).
  exists pt. rewrite Hfields, Hcols. unfold colFieldsOf.
  destruct (Columns opt) as [|n ns] eqn:Hc; [inversion Hcolumns|].
  change (length (n :: ns) =? 0)%nat with false. cbv iota. rewrite <- Hc in *.
  pose proof (inStrSlice_present order name Hheader) as Hpos.
  eexists _, (Build_xlsxField (inStrSlice order name)).
  split; [exact Hpt|]. split; [reflexivity|].
  simpl. split; [|split; [reflexivity|split; [|discriminate]]].
  - apply list_elem_of_fmap. exists (inStrSlice order name). split; [reflexivity|].
    apply indexLoop_elem. eauto.
  - rewrite (first_position_field opt _ _ _ Hpos). f_equal. apply classify_row, Hrows.
Qed.

(** X8.  On a header without repeated names the pivot fields tagged with
    the row axis are exactly those whose position is an entry of
    RowFields. *)
Theorem row_axis_iff_RowFields f cacheID pivotTableID coordinates opt order :
  getPivotFieldsOrder f (DataRange opt) = Returns (order, None) ->
  NoDup order ->
  exists pt,
    newPivotTableDefinition f cacheID pivotTableID coordinates opt = Returns (pt, None) /\
    forall p : nat,
      pfs_PivotField (pt_PivotFields pt) !! p = Some axisRowField <->
      Z.of_nat p ∈ map field_X (rf_Field (pt_RowFields pt)).
Proof.
  intros Horder Hnodup.
  destruct (built_lists f cacheID pivotTableID coordinates opt order Horder)
    as (pt & Hpt & Hfields & Hrows & _).
  exists pt. split; [exact Hpt|]. intros p.
  rewrite Hfields, Hrows, indexLoop_elem, list_lookup_fmap.
  split.
  - destruct (order !! p) as [name|] eqn:Hat; [|discriminate].
    simpl. intros [= Hclass]. apply classify_row in Hclass.
    exists name. split; [exact Hclass|]. exists p. split; [reflexivity|]. split; [exact Hat|].
    intros q Hq Hat'. pose proof (NoDup_lookup _ _ _ _ Hnodup Hat Hat'). lia.
  - intros (name & Hname & q & Hq & Hat & _). apply Nat2Z.inj in Hq as <-.
    rewrite Hat. simpl. f_equal. apply classify_row, Hname.
Qed.
End Consistency.

(** ** Further properties of validation, the counters and the registry *)

Section Allocation.
Context {host : Collaborators}.

(** X9.  Validation succeeds exactly when an option is given, both ranges
    resolve, the sheet of the data range can be read and the sheet of the
    placement range, its name trimmed, is in the sheet index; the path it
    returns is the entry of that index. *)
Theorem parseFormatPivotTableSet_ok_iff f opt pivotTableSheetPath :
  parseFormatPivotTableSet f opt = Returns (pivotTableSheetPath, None) <->
  exists o dataSheet c1 pivotTableSheet c2,
    opt = Some o /\
    adjustRange (DataRange o) = Returns (dataSheet, c1, None) /\
    adjustRange (PivotTableRange o) = Returns (pivotTableSheet, c2, None) /\
    workSheetReader f dataSheet = None /\
    sheetMap f !! trimSheetName pivotTableSheet = Some pivotTableSheetPath.
Proof.
  split.
  - destruct opt as [o|]; [|discriminate]. simpl.
    destruct (adjustRange (DataRange o)) as [[[dataSheet c1] [e|]]|] eqn:Hd;
      [discriminate| |discriminate].
    destruct (adjustRange (PivotTableRange o)) as [[[sheet c2] [e|]]|] eqn:Hp;
      [discriminate| |discriminate].
    destruct (workSheetReader f dataSheet) as [e|] eqn:Hread; [discriminate|].
    destruct (sheetMap f !! trimSheetName sheet) as [path|] eqn:Hpath; [|discriminate].
    intros [= <-]. exists o, dataSheet, c1, sheet, c2. auto.
  - intros (o & dataSheet & c1 & sheet & c2 & -> & Hd & Hp & Hread & Hpath).
    simpl. rewrite Hd, Hp, Hread, Hpath. reflexivity.
Qed.

Lemma countMatching_size pattern (parts : gmap string (list byte)) :
  countMatching pattern parts
  = Z.of_nat (size (filter (fun part : string * list byte =>
                              strings.Contains part.1 pattern = true) parts)).
Proof.
  induction parts as [|k v parts Hk IH] using map_ind.
  - rewrite map_filter_empty, map_size_empty. reflexivity.
  - rewrite countMatching_insert_fresh by exact Hk.
    destruct (strings.Contains k pattern) eqn:Hmatch.
    + rewrite map_filter_insert_True by exact Hmatch.
      rewrite map_size_insert_None by (apply map_lookup_filter_None; left; exact Hk).
      rewrite IH. lia.
    + rewrite map_filter_insert_False by (simpl; congruence).
      rewrite delete_id by exact Hk. exact IH.
Qed.

(** X10.  The two counters return the number of parts of the document whose
    path contains [xl/pivotTables/pivotTable], respectively
    [xl/pivotCache/pivotCacheDefinition], anywhere in it; a count is
    between 0 and the number of parts, and 0 on a document without parts. *)
Theorem counters_count_parts f :
  countPivotTables f
  = Z.of_nat (size (filter (fun part : string * list byte =>
                              strings.Contains part.1 "xl/pivotTables/pivotTable" = true)
                      (XLSX f))) /\
  countPivotCache f
  = Z.of_nat (size (filter (fun part : string * list byte =>
                              strings.Contains part.1 "xl/pivotCache/pivotCacheDefinition" = true)
                      (XLSX f))) /\
  0 <= countPivotTables f <= Z.of_nat (size (XLSX f)) /\
  0 <= countPivotCache f <= Z.of_nat (size (XLSX f)) /\
  (XLSX f = ∅ -> countPivotTables f = 0 /\ countPivotCache f = 0).
Proof.
  change (countPivotTables f) with (countMatching "xl/pivotTables/pivotTable" (XLSX f)).
  change (countPivotCache f) with (countMatching "xl/pivotCache/pivotCacheDefinition" (XLSX f)).
  rewrite !countMatching_size.
  split; [reflexivity|]. split; [reflexivity|].
  assert (Hle : forall pattern,
            (size (filter (fun part : string * list byte =>
                             strings.Contains part.1 pattern = true) (XLSX f))
             <= size (XLSX f))%nat)
    by (intros pattern; apply map_subseteq_size, map_filter_subseteq).
  split; [pose proof (Hle "xl/pivotTables/pivotTable"); lia|].
  split; [pose proof (Hle "xl/pivotCache/pivotCacheDefinition"); lia|].
  intros ->. rewrite !map_filter_empty, map_size_empty. auto.
Qed.

Lemma maxCacheID_bounds caches :
  1 <= maxCacheID caches /\ forall c, c ∈ caches -> CacheID c <= maxCacheID caches.
Proof.
  rewrite maxCacheID_spec. split; [lia|]. intros c Hc.
  destruct (maxRegistered caches) as [m|] eqn:Hm.
  - apply maxRegistered_spec in Hm as [_ Hm]. specialize (Hm c Hc). simpl. lia.
  - destruct caches; [inversion Hc|discriminate].
Qed.

Lemma maxCacheID_below caches bound :
  1 < bound -> Forall (fun c => CacheID c < bound) caches -> maxCacheID caches < bound.
Proof.
  intros Hone Hall. rewrite maxCacheID_spec.
  destruct (maxRegistered caches) as [m|] eqn:Hm; simpl; [|lia].
  apply maxRegistered_spec in Hm as [(c & Hc & <-) _].
  rewrite Forall_forall in Hall. specialize (Hall c Hc). lia.
Qed.

Lemma maxCacheID_snoc caches c :
  maxCacheID (caches ++ [c]) = Z.max (maxCacheID caches) (CacheID c).
Proof.
  unfold maxCacheID. rewrite fold_left_app. simpl.
  destruct (Z.gtb_spec (CacheID c)
              (fold_left (fun cacheID pivotCache =>
                            if CacheID pivotCache >? cacheID then CacheID pivotCache
                            else cacheID) caches 1)); lia.
Qed.

(** X11.  When the registered cache IDs are pairwise different and below
    the largest [int], they are so after [addWorkbookPivotCache] as well:
    the entries registered before are kept, in their order, and the one
    entry added carries an ID that none of them has.  Nothing else of the
    document changes. *)
Theorem addWorkbookPivotCache_keeps_unique f RID :
  Forall (fun c => CacheID c < MaxInt) (default [] (PivotCaches f)) ->
  NoDup (map CacheID (default [] (PivotCaches f))) ->
  let '(f', cacheID) := addWorkbookPivotCache f RID in
  NoDup (map CacheID (default [] (PivotCaches f'))) /\
  default [] (PivotCaches f')
  = default [] (PivotCaches f) ++ [Build_xlsxPivotCache cacheID ("rId" +:+ strconv.Itoa RID)] /\
  (cacheID ∉ map CacheID (default [] (PivotCaches f))) /\
  XLSX f' = XLSX f /\ sheetMap f' = sheetMap f /\
  Relationships f' = Relationships f /\ ContentTypes f' = ContentTypes f.
Proof.
  intros Hbound Hnodup. unfold addWorkbookPivotCache.
  set (caches := default [] (PivotCaches f)) in *.
  destruct (maxCacheID_bounds caches) as [Hone Hupper].
  pose proof (maxCacheID_below caches MaxInt ltac:(unfold MaxInt; lia) Hbound) as Hbelow.
  rewrite int_wrap_small by (unfold MaxInt in *; lia). simpl.
  assert (Hfresh : maxCacheID caches + 1 ∉ map CacheID caches).
  { intros (c & Hid & Hc)%list_elem_of_fmap. specialize (Hupper c Hc). lia. }
  split; [|auto 8].
  rewrite map_app. simpl. apply NoDup_app. split; [exact Hnodup|]. split.
  - intros x Hx [->|Hnil]%elem_of_cons; [contradiction|inversion Hnil].
  - apply NoDup_singleton.
Qed.

(** X12.  Two allocations in a row give two consecutive cache IDs, when the
    registered IDs are below the largest [int] minus 1. *)
Theorem addWorkbookPivotCache_consecutive f RID RID' :
  Forall (fun c => CacheID c < MaxInt - 1) (default [] (PivotCaches f)) ->
  snd (addWorkbookPivotCache (fst (addWorkbookPivotCache f RID)) RID')
  = snd (addWorkbookPivotCache f RID) + 1.
Proof.
  intros Hbound. unfold addWorkbookPivotCache. simpl.
  set (caches := default [] (PivotCaches f)) in *.
  destruct (maxCacheID_bounds caches) as [Hone _].
  pose proof (maxCacheID_below caches (MaxInt - 1) ltac:(unfold MaxInt; lia) Hbound) as Hbelow.
  rewrite (int_wrap_small (maxCacheID caches + 1)) by (unfold MaxInt in *; lia).
  rewrite maxCacheID_snoc. simpl.
  rewrite Z.max_r by lia. apply int_wrap_small. unfold MaxInt in *. lia.
Qed.
End Allocation.

(** ** The build as a whole: what it writes and what it leaves *)

Section Build.
Context {host : Collaborators}.

(** [AddPivotTable] after a successful validation, step by step. *)
Lemma AddPivotTable_steps f opt pivotTableSheetPath :
  parseFormatPivotTableSet f (Some opt) = Returns (pivotTableSheetPath, None) ->
  AddPivotTable f (Some opt)
  = let pivotTableID := countPivotTables f + 1 in
    let pivotCacheID := countPivotCache f + 1 in
    call (f1, err) := addPivotCache f pivotCacheID (pivotCachePart pivotCacheID) opt in
    match err with
    | Some e => Returns (f1, Some e)
    | None =>
        let '(f4, cacheID) := registerPivotCache pivotTableID pivotCacheID f1 in
        call (f5, err) :=
          addPivotTable f4 cacheID pivotTableID (pivotTablePart pivotTableID) opt in
        match err with
        | Some e => Returns (f5, Some e)
        | None =>
            Returns (registerPivotTable pivotTableID pivotCacheID pivotTableSheetPath f5, None)
        end
    end.
Proof.
  intros Hparse. unfold AddPivotTable. rewrite Hparse, pivotTableXML_path.
  cbv zeta. fold (pivotCachePart (countPivotCache f + 1)).
  destruct (addPivotCache f _ _ opt) as [[f1 [e|]]|]; [reflexivity| |reflexivity].
  unfold registerPivotCache.
  destruct (addRels f1 _ _ _ _) as [f2 rid].
  destruct (addWorkbookPivotCache f2 rid) as [f3 cacheID].
  destruct (addRels f3 _ _ _ _) as [f4 rid'].
  destruct (addPivotTable f4 _ _ _ opt) as [[f5 [e|]]|]; [reflexivity| |reflexivity].
  unfold registerPivotTable. destruct (addRels f5 _ _ _ _) as [f6 rid'']. reflexivity.
Qed.

(** A validated option has two ranges that resolve. *)
Lemma parseFormatPivotTableSet_valid f opt pivotTableSheetPath :
  parseFormatPivotTableSet f (Some opt) = Returns (pivotTableSheetPath, None) ->
  exists dataSheet c1 pivotTableSheet c2,
    adjustRange (DataRange opt) = Returns (dataSheet, c1, None) /\
    adjustRange (PivotTableRange opt) = Returns (pivotTableSheet, c2, None).
Proof.
  simpl.
  destruct (adjustRange (DataRange opt)) as [[[dataSheet c1] [e|]]|];
    [discriminate| |discriminate].
  destruct (adjustRange (PivotTableRange opt)) as [[[sheet c2] [e|]]|];
    [discriminate| |discriminate].
  eauto 6.
Qed.

(** Where a panic can come from: the header extraction panics with
    [adjustRange] only, the construction of the table definition with the
    header extraction only. *)
Lemma getPivotFieldsOrder_panic f dataRange :
  getPivotFieldsOrder f dataRange = Panics -> adjustRange dataRange = Panics.
Proof.
  unfold getPivotFieldsOrder.
  destruct (adjustRange dataRange) as [[[dataSheet coordinates] [e|]]|];
    [discriminate|discriminate|reflexivity].
Qed.

Lemma newPivotTableDefinition_panic_inv f cacheID pivotTableID coordinates opt :
  newPivotTableDefinition f cacheID pivotTableID coordinates opt = Panics ->
  getPivotFieldsOrder f (DataRange opt) = Panics.
Proof.
  destruct (getPivotFieldsOrder f (DataRange opt)) as [[order [e|]]|] eqn:Horder;
    [|
     |reflexivity].
  - rewrite (newPivotTableDefinition_error _ _ _ _ _ _ _ Horder). discriminate.
  - rewrite (newPivotTableDefinition_ok _ _ _ _ _ _ Horder). discriminate.
Qed.

Lemma addPivotCache_panic f pivotCacheID pivotCacheXML opt :
  addPivotCache f pivotCacheID pivotCacheXML opt = Panics ->
  adjustRange (DataRange opt) = Panics.
Proof.
  unfold addPivotCache.
  destruct (adjustRange (DataRange opt)) as [[[dataSheet coordinates] [e|]]|] eqn:Hrange;
    [discriminate| |reflexivity].
  destruct (getPivotFieldsOrder f (DataRange opt)) as [[order [e|]]|] eqn:Horder;
    [discriminate| |].
  - destruct (Marshal_PivotCacheDefinition _) as [pivotCache err]. discriminate.
  - apply getPivotFieldsOrder_panic in Horder. congruence.
Qed.

Lemma addPivotTable_panic f cacheID pivotTableID pivotTableXML opt :
  addPivotTable f cacheID pivotTableID pivotTableXML opt = Panics ->
  adjustRange (PivotTableRange opt) = Panics \/ adjustRange (DataRange opt) = Panics.
Proof.
  unfold addPivotTable.
  destruct (adjustRange (PivotTableRange opt)) as [[[sheet coordinates] [e|]]|];
    [discriminate| |left; reflexivity].
  destruct (newPivotTableDefinition _ _ _ _ _) as [[pt [e|]]|] eqn:Hpt; [discriminate| |].
  - destruct (Marshal_PivotTableDefinition _) as [pivotTable err]. discriminate.
  - intros _. right.
    eapply getPivotFieldsOrder_panic, newPivotTableDefinition_panic_inv, Hpt.
Qed.

(** A build panics in its validation or not at all. *)
Lemma AddPivotTable_panic f opt :
  AddPivotTable f opt = Panics -> parseFormatPivotTableSet f opt = Panics.
Proof.
  destruct (parseFormatPivotTableSet f opt) as [[path [e|]]|] eqn:Hparse; [| |reflexivity].
  - rewrite (AddPivotTable_rejected _ _ _ _ Hparse). discriminate.
  - destruct opt as [opt|]; [|discriminate Hparse].
    destruct (parseFormatPivotTableSet_valid _ _ _ Hparse)
      as (dataSheet & c1 & sheet & c2 & Hd & Hp).
    rewrite (AddPivotTable_steps _ _ _ Hparse). cbv zeta.
    destruct (addPivotCache f _ _ opt) as [[f1 [e|]]|] eqn:Hcache; [discriminate| |].
    + destruct (registerPivotCache _ _ f1) as [f4 cacheID].
      destruct (addPivotTable f4 _ _ _ opt) as [[f5 [e|]]|] eqn:Htable;
        [discriminate|discriminate|].
      apply addPivotTable_panic in Htable as [Hpanic|Hpanic]; congruence.
    + apply addPivotCache_panic in Hcache. congruence.
Qed.

Lemma grows_refl t c f : grows t c f f.
Proof. unfold grows. auto 10. Qed.

Lemma grows_trans t c f1 f2 f3 : grows t c f1 f2 -> grows t c f2 f3 -> grows t c f1 f3.
Proof.
  intros (Hs & Hk & Hp & Hr & Hc & Hrel) (Hs' & Hk' & Hp' & Hr' & Hc' & Hrel').
  unfold grows. split; [congruence|]. split; [intros; rewrite Hk', Hk; auto|].
  split; [auto|]. split; [etrans; eassumption|]. split; [etrans; eassumption|].
  intros path. etrans; [apply Hrel|apply Hrel'].
Qed.

Lemma grows_save t c f name content :
  name = t \/ name = c -> grows t c f (saveFileList f name content).
Proof.
  intros Hname. unfold grows, saveFileList. simpl.
  split; [reflexivity|]. split; [|split; [|auto]].
  - intros k Ht Hc. apply lookup_insert_ne. destruct Hname; congruence.
  - intros k Hk. destruct (decide (name = k)) as [->|Hne].
    + rewrite lookup_insert_eq. eauto.
    + rewrite lookup_insert_ne by exact Hne. exact Hk.
Qed.

Lemma grows_addRels t c f relPath relType target targetMode f' rID :
  addRels f relPath relType target targetMode = (f', rID) -> grows t c f f'.
Proof.
  intros [= <- _]. unfold grows. simpl. split; [reflexivity|]. split; [auto|]. split; [auto|].
  split; [reflexivity|]. split; [reflexivity|].
  intros path. destruct (decide (relPath = path)) as [->|Hne].
  - rewrite lookup_insert_eq. simpl. apply prefix_app_r. reflexivity.
  - rewrite lookup_insert_ne by exact Hne. reflexivity.
Qed.

Lemma grows_registry t c f RID f' cacheID :
  addWorkbookPivotCache f RID = (f', cacheID) -> grows t c f f'.
Proof.
  intros [= <- _]. unfold grows. simpl. split; [reflexivity|]. split; [auto|].
  split; [auto|]. split; [apply prefix_app_r; reflexivity|]. split; reflexivity.
Qed.

Lemma grows_contentType t c f index contentType :
  grows t c f (addContentTypePart f index contentType).
Proof.
  unfold addContentTypePart. destruct (existsb _ _); [apply grows_refl|].
  unfold grows. simpl. split; [reflexivity|]. split; [auto|].
  split; [auto|]. split; [reflexivity|]. split; [apply prefix_app_r|]; reflexivity.
Qed.

Lemma grows_registerPivotCache t c pivotTableID pivotCacheID f :
  grows t c f (fst (registerPivotCache pivotTableID pivotCacheID f)).
Proof.
  unfold registerPivotCache.
  destruct (addRels f _ _ _ _) as [f2 rid] eqn:H2.
  destruct (addWorkbookPivotCache f2 rid) as [f3 cacheID] eqn:H3.
  destruct (addRels f3 _ _ _ _) as [f4 rid'] eqn:H4. simpl.
  eapply grows_trans; [eapply grows_addRels, H2|].
  eapply grows_trans; [eapply grows_registry, H3|eapply grows_addRels, H4].
Qed.

Lemma grows_registerPivotTable t c pivotTableID pivotCacheID path f :
  grows t c f (registerPivotTable pivotTableID pivotCacheID path f).
Proof.
  unfold registerPivotTable.
  destruct (addRels f _ _ _ _) as [f2 rid] eqn:H2.
  eapply grows_trans; [eapply grows_addRels, H2|].
  eapply grows_trans; apply grows_contentType.
Qed.

(** Every result of the two writers: the document as it was, or with the
    part stored. *)
Lemma addPivotCache_outcome f pivotCacheID pivotCacheXML opt f' err :
  addPivotCache f pivotCacheID pivotCacheXML opt = Returns (f', err) ->
  f' = f \/ exists pivotCache, f' = saveFileList f pivotCacheXML pivotCache.
Proof.
  unfold addPivotCache.
  destruct (adjustRange (DataRange opt)) as [[[dataSheet coordinates] [e|]]|];
    [intros [= <- _]; left; reflexivity| |discriminate].
  destruct (getPivotFieldsOrder f (DataRange opt)) as [[order [e|]]|];
    [intros [= <- _]; left; reflexivity| |discriminate].
  destruct (Marshal_PivotCacheDefinition _) as [pivotCache err'].
  intros [= <- _]. right. eauto.
Qed.

Lemma addPivotTable_outcome f cacheID pivotTableID pivotTableXML opt f' err :
  addPivotTable f cacheID pivotTableID pivotTableXML opt = Returns (f', err) ->
  f' = f \/ exists pivotTable, f' = saveFileList f pivotTableXML pivotTable.
Proof.
  unfold addPivotTable.
  destruct (adjustRange (PivotTableRange opt)) as [[[sheet coordinates] [e|]]|];
    [intros [= <- _]; left; reflexivity| |discriminate].
  destruct (newPivotTableDefinition _ _ _ _ _) as [[pt [e|]]|];
    [intros [= <- _]; left; reflexivity| |discriminate].
  destruct (Marshal_PivotTableDefinition _) as [pivotTable err'].
  intros [= <- _]. right. eauto.
Qed.

Lemma AddPivotTable_grows f opt f' err :
  AddPivotTable f opt = Returns (f', err) ->
  grows (pivotTablePart (countPivotTables f + 1)) (pivotCachePart (countPivotCache f + 1))
    f f'.
Proof.
  set (t := pivotTablePart (countPivotTables f + 1)).
  set (c := pivotCachePart (countPivotCache f + 1)).
  destruct (parseFormatPivotTableSet f opt) as [[path [e|]]|] eqn:Hparse.
  - rewrite (AddPivotTable_rejected _ _ _ _ Hparse). intros [= <- _]. apply grows_refl.
  - destruct opt as [opt|]; [|discriminate Hparse].
    rewrite (AddPivotTable_steps _ _ _ Hparse). cbv zeta. fold t c.
    destruct (addPivotCache f (countPivotCache f + 1) c opt) as [[f1 e1]|] eqn:Hcache;
      [|discriminate].
    assert (Hg1 : grows t c f f1).
    { destruct (addPivotCache_outcome _ _ _ _ _ _ Hcache) as [->|[b ->]];
        [apply grows_refl|apply grows_save; auto]. }
    destruct e1 as [e1|]; [intros [= <- _]; exact Hg1|].
    pose proof (grows_registerPivotCache t c (countPivotTables f + 1)
                  (countPivotCache f + 1) f1) as Hreg.
    destruct (registerPivotCache _ _ f1) as [f4 cacheID]. simpl in Hreg.
    destruct (addPivotTable f4 cacheID (countPivotTables f + 1) t opt) as [[f5 e5]|]
      eqn:Htable; [|discriminate].
    assert (Hg5 : grows t c f4 f5).
    { destruct (addPivotTable_outcome _ _ _ _ _ _ _ Htable) as [->|[b ->]];
        [apply grows_refl|apply grows_save; auto]. }
    destruct e5 as [e5|]; intros [= <- _].
    + eauto using grows_trans.
    + eapply grows_trans; [|apply grows_registerPivotTable]. eauto using grows_trans.
  - unfold AddPivotTable. rewrite Hparse. discriminate.
Qed.

(** X13.  Whatever the options and however the build ends, [AddPivotTable]
    leaves the sheet index as it was, changes no part other than the two it
    may write (the table part and the cache part numbered by the counts),
    removes no part, and only appends to the cache registry, to the content
    types and to each relationship table.  A build that panics does so in
    its validation, before anything is written. *)
Theorem AddPivotTable_frame f opt :
  match AddPivotTable f opt with
  | Returns (f', _) =>
      sheetMap f' = sheetMap f /\
      (forall k,
         k <> pivotTablePart (countPivotTables f + 1) ->
         k <> pivotCachePart (countPivotCache f + 1) ->
         XLSX f' !! k = XLSX f !! k) /\
      (forall k, is_Some (XLSX f !! k) -> is_Some (XLSX f' !! k)) /\
      default [] (PivotCaches f) `prefix_of` default [] (PivotCaches f') /\
      ContentTypes f `prefix_of` ContentTypes f' /\
      (forall path, default [] (Relationships f !! path)
                      `prefix_of` default [] (Relationships f' !! path))
  | Panics => parseFormatPivotTableSet f opt = Panics
  end.
Proof.
  destruct (AddPivotTable f opt) as [[f' err]|] eqn:Hbuild.
  - exact (AddPivotTable_grows f opt f' err Hbuild).
  - exact (AddPivotTable_panic f opt Hbuild).
Qed.
End Build.

(** ** The build as a whole: cross-references and failures *)

Section Wiring.
Context {host : Collaborators}.

Lemma addPivotTable_built f cacheID pivotTableID pivotTableXML opt f' :
  addPivotTable f cacheID pivotTableID pivotTableXML opt = Returns (f', None) ->
  exists sheet coordinates pt,
    adjustRange (PivotTableRange opt) = Returns (sheet, coordinates, None) /\
    newPivotTableDefinition f cacheID pivotTableID coordinates opt = Returns (pt, None) /\
    f' = saveFileList f pivotTableXML (fst (Marshal_PivotTableDefinition pt)).
Proof.
  unfold addPivotTable.
  destruct (adjustRange (PivotTableRange opt)) as [[[sheet coordinates] [e|]]|] eqn:Hr;
    [discriminate| |discriminate].
  destruct (newPivotTableDefinition _ _ _ _ _) as [[pt [e|]]|] eqn:Hpt;
    [discriminate| |discriminate].
  destruct (Marshal_PivotTableDefinition pt) as [pivotTable err] eqn:Hm.
  intros [= <- _]. exists sheet, coordinates, pt. rewrite Hm. auto.
Qed.

(** The head of a table definition and its counts, whatever the result of
    the construction. *)
Lemma newPivotTableDefinition_head f cacheID pivotTableID coordinates opt pt err :
  newPivotTableDefinition f cacheID pivotTableID coordinates opt = Returns (pt, err) ->
  pt_Name pt = "Pivot Table" +:+ strconv.Itoa pivotTableID /\
  pt_CacheID pt = cacheID /\ countsAgree pt.
Proof.
  destruct (getPivotFieldsOrder f (DataRange opt)) as [[order [e|]]|] eqn:Horder.
  - rewrite (newPivotTableDefinition_error _ _ _ _ _ _ _ Horder). intros [= <- _]. simpl.
    repeat split. discriminate.
  - rewrite (newPivotTableDefinition_ok _ _ _ _ _ _ Horder). intros [= <- _]. simpl.
    split; [reflexivity|]. split; [reflexivity|].
    unfold countsAgree, colFieldsOf. simpl. rewrite !length_map. repeat split.
    intros c. destruct (length (Columns opt) =? 0)%nat; [discriminate|].
    intros [= <-]. simpl. rewrite length_map. reflexivity.
  - rewrite (newPivotTableDefinition_panic _ _ _ _ _ Horder). discriminate.
Qed.

(** The test of [addContentTypePart]: the manifest holds the override. *)
Lemma existsb_override types index contentType :
  existsb (fun v => (ov_Index v =? index) && String.eqb (ov_Kind v) contentType) types = true
  <-> Build_xlsxOverride index contentType ∈ types.
Proof.
  rewrite existsb_exists. split.
  - intros ([i k] & Hin & Heq). simpl in Heq.
    apply andb_true_iff in Heq as [->%Z.eqb_eq ->%String.eqb_eq].
    apply list_elem_of_In, Hin.
  - intros Hin. exists (Build_xlsxOverride index contentType).
    split; [apply list_elem_of_In, Hin|]. simpl.
    rewrite Z.eqb_refl, String.eqb_refl. reflexivity.
Qed.

Lemma addContentTypePart_types f index contentType :
  ContentTypes (addContentTypePart f index contentType)
  = ContentTypes f
      ++ filter (fun o => o ∉ ContentTypes f) [Build_xlsxOverride index contentType].
Proof.
  unfold addContentTypePart.
  destruct (existsb _ (ContentTypes f)) eqn:Hheld.
  - apply existsb_override in Hheld.
    rewrite filter_cons_False by (intros Hout; exact (Hout Hheld)).
    rewrite filter_nil, app_nil_r. reflexivity.
  - assert (Build_xlsxOverride index contentType ∉ ContentTypes f) as Hout.
    { intros Hin. apply existsb_override in Hin. congruence. }
    rewrite filter_cons_True by exact Hout. reflexivity.
Qed.

Lemma addContentTypePart_rest f index contentType :
  XLSX (addContentTypePart f index contentType) = XLSX f /\
  sheetMap (addContentTypePart f index contentType) = sheetMap f /\
  PivotCaches (addContentTypePart f index contentType) = PivotCaches f /\
  Relationships (addContentTypePart f index contentType) = Relationships f.
Proof. unfold addContentTypePart. destruct (existsb _ _); auto. Qed.

(** The manifest after the two declarations of a build. *)
Lemma two_declarations f pivotTableID pivotCacheID :
  ContentTypes (addContentTypePart (addContentTypePart f pivotTableID "pivotTable")
                  pivotCacheID "pivotCache")
  = ContentTypes f
      ++ filter (fun o => o ∉ ContentTypes f)
           [Build_xlsxOverride pivotTableID "pivotTable";
            Build_xlsxOverride pivotCacheID "pivotCache"].
Proof.
  rewrite !addContentTypePart_types, <- app_assoc. f_equal.
  set (a := Build_xlsxOverride pivotTableID "pivotTable").
  set (b := Build_xlsxOverride pivotCacheID "pivotCache").
  assert (Hne : b <> a) by discriminate.
  assert (Hb : forall l, l = [] \/ l = [a] -> b ∉ ContentTypes f ++ l <-> b ∉ ContentTypes f).
  { intros l Hl. rewrite not_elem_of_app. split; [tauto|]. intros Hout. split; [exact Hout|].
    destruct Hl as [->| ->]; [apply not_elem_of_nil|].
    intros Hin%list_elem_of_singleton. contradiction. }
  destruct (decide (a ∈ ContentTypes f)) as [Ha|Ha].
  - rewrite (filter_cons_False _ a [b]) by tauto.
    rewrite (filter_cons_False _ a []) by tauto. rewrite filter_nil.
    destruct (decide (b ∈ ContentTypes f)) as [Hb'|Hb'].
    + rewrite !filter_cons_False; [reflexivity|tauto|].
      rewrite (Hb []) by auto. tauto.
    + rewrite !filter_cons_True; [reflexivity|tauto|].
      rewrite (Hb []) by auto. tauto.
  - rewrite (filter_cons_True _ a [b]) by tauto.
    rewrite (filter_cons_True _ a []) by tauto. rewrite filter_nil.
    destruct (decide (b ∈ ContentTypes f)) as [Hb'|Hb'].
    + rewrite !filter_cons_False; [reflexivity|tauto|].
      rewrite (Hb [a]) by auto. tauto.
    + rewrite !filter_cons_True; [reflexivity|tauto|].
      rewrite (Hb [a]) by auto. tauto.
Qed.

Lemma addRels_member f relPath relType target targetMode f' rID :
  addRels f relPath relType target targetMode = (f', rID) ->
  exists id,
    Build_xlsxRelationship id relType target targetMode
    ∈ default [] (Relationships f' !! relPath).
Proof.
  intros [= <- _]. simpl. rewrite lookup_insert_eq. simpl.
  eexists. apply elem_of_app. right. left.
Qed.

Lemma grows_member t c f f' path (rel : xlsxRelationship) :
  grows t c f f' ->
  rel ∈ default [] (Relationships f !! path) ->
  rel ∈ default [] (Relationships f' !! path).
Proof.
  intros (_ & _ & _ & _ & _ & Hrel) Hin. destruct (Hrel path) as [more ->].
  apply elem_of_app. left. exact Hin.
Qed.

(** What the registrations around the table step add. *)
Lemma registerPivotCache_adds pivotTableID pivotCacheID f f' cacheID :
  registerPivotCache pivotTableID pivotCacheID f = (f', cacheID) ->
  XLSX f' = XLSX f /\ ContentTypes f' = ContentTypes f /\
  (exists rid,
     PivotCaches f'
     = Some (default [] (PivotCaches f)
               ++ [Build_xlsxPivotCache cacheID ("rId" +:+ strconv.Itoa rid)])) /\
  (exists id,
     Build_xlsxRelationship id SourceRelationshipPivotCache
       ("pivotCache/pivotCacheDefinition" +:+ strconv.Itoa pivotCacheID +:+ ".xml") ""
     ∈ default [] (Relationships f' !! "xl/_rels/workbook.xml.rels")) /\
  (exists id,
     Build_xlsxRelationship id SourceRelationshipPivotCache
       ("../pivotCache/pivotCacheDefinition" +:+ strconv.Itoa pivotCacheID +:+ ".xml") ""
     ∈ default [] (Relationships f'
                     !! ("xl/pivotTables/_rels/pivotTable" +:+ strconv.Itoa pivotTableID
                           +:+ ".xml.rels"))).
Proof.
  unfold registerPivotCache.
  destruct (addRels f _ _ _ _) as [f2 rid] eqn:H2.
  destruct (addWorkbookPivotCache f2 rid) as [f3 cid] eqn:H3.
  destruct (addRels f3 _ _ _ _) as [f4 rid'] eqn:H4.
  intros [= <- <-].
  destruct (addRels_member _ _ _ _ _ _ _ H2) as [id2 Hid2].
  destruct (addRels_member _ _ _ _ _ _ _ H4) as [id4 Hid4].
  pose proof (grows_registry "" "" _ _ _ _ H3) as G3.
  pose proof (grows_addRels "" "" _ _ _ _ _ _ _ H4) as G4.
  split; [|split; [|split; [|split]]].
  - injection H2 as <- _. injection H3 as <- _. injection H4 as <- _. reflexivity.
  - injection H2 as <- _. injection H3 as <- _. injection H4 as <- _. reflexivity.
  - exists rid. injection H4 as <- _. injection H3 as <- <-. injection H2 as <- _.
    reflexivity.
  - exists id2. eauto using grows_member.
  - exists id4. exact Hid4.
Qed.

Lemma registerPivotTable_adds pivotTableID pivotCacheID path f :
  let f' := registerPivotTable pivotTableID pivotCacheID path f in
  XLSX f' = XLSX f /\ PivotCaches f' = PivotCaches f /\
  ContentTypes f'
  = ContentTypes f
      ++ filter (fun o => o ∉ ContentTypes f)
           [Build_xlsxOverride pivotTableID "pivotTable";
            Build_xlsxOverride pivotCacheID "pivotCache"] /\
  exists id,
    Build_xlsxRelationship id SourceRelationshipPivotTable
      ("../pivotTables/pivotTable" +:+ strconv.Itoa pivotTableID +:+ ".xml") ""
    ∈ default [] (Relationships f'
                    !! ("xl/worksheets/_rels/" +:+ strings.TrimPrefix path "xl/worksheets/"
                          +:+ ".rels")).
Proof.
  unfold registerPivotTable.
  destruct (addRels f _ _ _ _) as [f2 rid] eqn:H2.
  destruct (addRels_member _ _ _ _ _ _ _ H2) as [id Hid].
  cbv zeta. rewrite two_declarations.
  destruct (addContentTypePart_rest (addContentTypePart f2 pivotTableID "pivotTable")
              pivotCacheID "pivotCache") as (-> & _ & -> & ->).
  destruct (addContentTypePart_rest f2 pivotTableID "pivotTable") as (-> & _ & -> & ->).
  injection H2 as <- _. simpl.
  split; [reflexivity|]. split; [reflexivity|]. split; [reflexivity|].
  exists id. exact Hid.
Qed.

(** An override is in the manifest once it is declared. *)
Lemma declared_member (types : list xlsxOverride) o l :
  o ∈ l -> o ∈ types ++ filter (fun o => o ∉ types) l.
Proof.
  intros Hin. destruct (decide (o ∈ types)) as [Hheld|Hout].
  - apply elem_of_app. left. exact Hheld.
  - apply elem_of_app. right. apply list_elem_of_filter. auto.
Qed.

(** X14.  A successful build leaves a cross-referenced whole.  The table
    part holds the encoding of a table definition, with consistent counts,
    that is named after the table suffix and refers to the cache ID just
    added to the registry.  The workbook and the table part each have a
    relationship to the cache part of the cache suffix, the sheet of the
    placement range has a relationship to the table part, and the content
    types hold the overrides of the two suffixes: the manifest is the one
    of before followed by the override of the table part and by the
    override of the cache part, each left out when the manifest held it
    already. *)
Theorem AddPivotTable_wires f opt f' :
  AddPivotTable f (Some opt) = Returns (f', None) ->
  exists pt cacheID rid pivotTableSheetPath,
    XLSX f' !! pivotTablePart (countPivotTables f + 1)
    = Some (XMLHeader ++ fst (Marshal_PivotTableDefinition pt)) /\
    pt_Name pt = "Pivot Table" +:+ strconv.Itoa (countPivotTables f + 1) /\
    pt_CacheID pt = cacheID /\ countsAgree pt /\
    PivotCaches f'
    = Some (default [] (PivotCaches f)
              ++ [Build_xlsxPivotCache cacheID ("rId" +:+ strconv.Itoa rid)]) /\
    (exists id,
       Build_xlsxRelationship id SourceRelationshipPivotCache
         ("pivotCache/pivotCacheDefinition" +:+ strconv.Itoa (countPivotCache f + 1) +:+ ".xml")
         ""
       ∈ default [] (Relationships f' !! "xl/_rels/workbook.xml.rels")) /\
    (exists id,
       Build_xlsxRelationship id SourceRelationshipPivotCache
         ("../pivotCache/pivotCacheDefinition" +:+ strconv.Itoa (countPivotCache f + 1)
            +:+ ".xml") ""
       ∈ default [] (Relationships f'
                       !! ("xl/pivotTables/_rels/pivotTable"
                             +:+ strconv.Itoa (countPivotTables f + 1) +:+ ".xml.rels"))) /\
    parseFormatPivotTableSet f (Some opt) = Returns (pivotTableSheetPath, None) /\
    (exists id,
       Build_xlsxRelationship id SourceRelationshipPivotTable
         ("../pivotTables/pivotTable" +:+ strconv.Itoa (countPivotTables f + 1) +:+ ".xml") ""
       ∈ default [] (Relationships f'
                       !! ("xl/worksheets/_rels/"
                             +:+ strings.TrimPrefix pivotTableSheetPath "xl/worksheets/"
                             +:+ ".rels"))) /\
    Build_xlsxOverride (countPivotTables f + 1) "pivotTable" ∈ ContentTypes f' /\
    Build_xlsxOverride (countPivotCache f + 1) "pivotCache" ∈ ContentTypes f' /\
    ContentTypes f'
    = ContentTypes f
        ++ filter (fun o => o ∉ ContentTypes f)
             [Build_xlsxOverride (countPivotTables f + 1) "pivotTable";
              Build_xlsxOverride (countPivotCache f + 1) "pivotCache"].
Proof.
  intros Hbuild.
  destruct (parseFormatPivotTableSet f (Some opt)) as [[path [e|]]|] eqn:Hparse.
  { rewrite (AddPivotTable_rejected _ _ _ _ Hparse) in Hbuild. discriminate. }
  2: { unfold AddPivotTable in Hbuild. rewrite Hparse in Hbuild. discriminate. }
  rewrite (AddPivotTable_steps _ _ _ Hparse) in Hbuild. cbv zeta in Hbuild.
  set (t := countPivotTables f + 1) in *. set (c := countPivotCache f + 1) in *.
  destruct (addPivotCache f c (pivotCachePart c) opt) as [[f1 [e|]]|] eqn:Hcache;
    [discriminate| |discriminate].
  apply addPivotCache_saves in Hcache as [pivotCache ->].
  destruct (registerPivotCache t c _) as [f4 cacheID] eqn:Hreg.
  destruct (addPivotTable f4 cacheID t (pivotTablePart t) opt) as [[f5 [e|]]|] eqn:Htable;
    [discriminate| |discriminate].
  injection Hbuild as <-.
  apply addPivotTable_built in Htable as (sheet & coordinates & pt & _ & Hpt & ->).
  destruct (registerPivotCache_adds _ _ _ _ _ Hreg)
    as (Hparts & Htypes & [rid Hcaches] & Hwb & Htr).
  destruct (registerPivotTable_adds t c path
              (saveFileList f4 (pivotTablePart t) (fst (Marshal_PivotTableDefinition pt))))
    as (Hparts' & Hcaches' & Htypes' & Hsheet).
  destruct (newPivotTableDefinition_head _ _ _ _ _ _ _ Hpt) as (Hname & Hid & Hcounts).
  pose proof (grows_registerPivotTable "" "" t c path
                (saveFileList f4 (pivotTablePart t) (fst (Marshal_PivotTableDefinition pt))))
    as Hgrows.
  assert (Hsave : grows (pivotTablePart t) "" f4
                    (saveFileList f4 (pivotTablePart t)
                       (fst (Marshal_PivotTableDefinition pt))))
    by (apply grows_save; auto).
  assert (Hmanifest :
    ContentTypes (registerPivotTable t c path
                    (saveFileList f4 (pivotTablePart t)
                       (fst (Marshal_PivotTableDefinition pt))))
    = ContentTypes f
        ++ filter (fun o => o ∉ ContentTypes f)
             [Build_xlsxOverride t "pivotTable"; Build_xlsxOverride c "pivotCache"]).
  { rewrite Htypes'. simpl. rewrite Htypes. reflexivity. }
  exists pt, cacheID, rid, path.
  split; [rewrite Hparts'; simpl; apply lookup_insert_eq|].
  split; [exact Hname|]. split; [exact Hid|]. split; [exact Hcounts|].
  split; [rewrite Hcaches'; exact Hcaches|].
  split; [destruct Hwb as [id Hwb]; exists id; eauto using grows_member|].
  split; [destruct Htr as [id Htr]; exists id; eauto using grows_member|].
  split; [reflexivity|]. split; [exact Hsheet|].
  rewrite Hmanifest.
  split; [apply declared_member; left|].
  split; [apply declared_member; right; left|reflexivity].
Qed.

(** X15.  There is no rollback.  A build that fails after a successful
    validation declares no content type, and leaves the document in one of
    three states: as it was; with the cache part stored and nothing else
    (the encoder of the cache definition failed); or with the cache part
    stored, its entry added to the registry and its relationship added to
    the workbook, although no pivot table was completed. *)
Theorem AddPivotTable_failure_states f opt pivotTableSheetPath f' e :
  parseFormatPivotTableSet f (Some opt) = Returns (pivotTableSheetPath, None) ->
  AddPivotTable f (Some opt) = Returns (f', Some e) ->
  ContentTypes f' = ContentTypes f /\
  (f' = f \/
   (exists pivotCache,
      f' = saveFileList f (pivotCachePart (countPivotCache f + 1)) pivotCache) \/
   (is_Some (XLSX f' !! pivotCachePart (countPivotCache f + 1)) /\
    (exists entry, PivotCaches f' = Some (default [] (PivotCaches f) ++ [entry])) /\
    exists id,
      Build_xlsxRelationship id SourceRelationshipPivotCache
        ("pivotCache/pivotCacheDefinition" +:+ strconv.Itoa (countPivotCache f + 1) +:+ ".xml")
        ""
      ∈ default [] (Relationships f' !! "xl/_rels/workbook.xml.rels"))).
Proof.
  intros Hparse Hbuild.
  rewrite (AddPivotTable_steps _ _ _ Hparse) in Hbuild. cbv zeta in Hbuild.
  set (t := countPivotTables f + 1) in *. set (c := countPivotCache f + 1) in *.
  destruct (addPivotCache f c (pivotCachePart c) opt) as [[f1 [e1|]]|] eqn:Hcache;
    [| |discriminate].
  - injection Hbuild as <- _.
    destruct (addPivotCache_outcome _ _ _ _ _ _ Hcache) as [->|[pivotCache ->]]; [auto|].
    split; [reflexivity|]. eauto.
  - apply addPivotCache_saves in Hcache as [pivotCache ->].
    destruct (registerPivotCache t c _) as [f4 cacheID] eqn:Hreg.
    destruct (registerPivotCache_adds _ _ _ _ _ Hreg)
      as (Hparts & Htypes & [rid Hcaches] & Hwb & _).
    destruct (addPivotTable f4 cacheID t (pivotTablePart t) opt) as [[f5 [e5|]]|] eqn:Htable;
      [|discriminate|discriminate].
    injection Hbuild as <- _.
    pose proof (addPivotTable_outcome _ _ _ _ _ _ _ Htable) as Hout.
    assert (Hg : grows (pivotTablePart t) "" f4 f5).
    { destruct Hout as [->|[b ->]]; [apply grows_refl|apply grows_save; auto]. }
    assert (Hsame : ContentTypes f5 = ContentTypes f4 /\ PivotCaches f5 = PivotCaches f4)
      by (destruct Hout as [->|[b ->]]; auto).
    destruct Hsame as [Htypes5 Hcaches5].
    split; [rewrite Htypes5, Htypes; reflexivity|]. right. right.
    split; [|split].
    + destruct Hg as (_ & _ & Hkeep & _). apply Hkeep. rewrite Hparts. simpl.
      rewrite lookup_insert_eq. eauto.
    + rewrite Hcaches5. eauto.
    + destruct Hwb as [id Hwb]. exists id. eauto using grows_member.
Qed.

(** X16.  When the encoder fails on the cache definition, the bytes it
    returned are stored as the cache part all the same and the build stops
    with the error of the encoder. *)
Theorem cache_encoder_failure f opt pivotTableSheetPath dataSheet coordinates order pivotCache e :
  parseFormatPivotTableSet f (Some opt) = Returns (pivotTableSheetPath, None) ->
  adjustRange (DataRange opt) = Returns (dataSheet, coordinates, None) ->
  getPivotFieldsOrder f (DataRange opt) = Returns (order, None) ->
  Marshal_PivotCacheDefinition (newPivotCacheDefinition dataSheet coordinates order)
  = (pivotCache, Some e) ->
  AddPivotTable f (Some opt)
  = Returns (saveFileList f (pivotCachePart (countPivotCache f + 1)) pivotCache, Some e).
Proof.
  intros Hparse Hrange Horder Hencode.
  rewrite (AddPivotTable_steps _ _ _ Hparse). cbv zeta.
  unfold addPivotCache. rewrite Hrange, Horder, Hencode. reflexivity.
Qed.

(** X17.  The suffix comes from a count, so the path of the new table part
    may be taken: the build then replaces the part that was there, the
    count of table parts stays as it was, and the next build aims at the
    same path again. *)
Theorem AddPivotTable_overwrites f opt f' old :
  AddPivotTable f (Some opt) = Returns (f', None) ->
  XLSX f !! pivotTablePart (countPivotTables f + 1) = Some old ->
  (exists pivotTable,
     XLSX f' !! pivotTablePart (countPivotTables f + 1) = Some (XMLHeader ++ pivotTable)) /\
  countPivotTables f' = countPivotTables f /\
  pivotTablePart (countPivotTables f' + 1) = pivotTablePart (countPivotTables f + 1).
Proof.
  intros Hbuild Hold.
  destruct (AddPivotTable_parts _ _ _ Hbuild) as (pivotCache & pivotTable & Hparts).
  assert (Hcount : countPivotTables f' = countPivotTables f).
  { change (countPivotTables f') with (countMatching "xl/pivotTables/pivotTable" (XLSX f')).
    rewrite Hparts.
    destruct (counts_after_build (XLSX f) (countPivotTables f + 1) (countPivotCache f + 1)
                (XMLHeader ++ pivotTable) (XMLHeader ++ pivotCache)) as [-> _].
    rewrite bool_decide_eq_false_2 by (rewrite Hold; discriminate).
    change (countMatching "xl/pivotTables/pivotTable" (XLSX f)) with (countPivotTables f).
    lia. }
  split; [|split; [exact Hcount|rewrite Hcount; reflexivity]].
  exists pivotTable. rewrite Hparts. apply lookup_insert_eq.
Qed.

(** X18.  The cache part that [addPivotCache] stores is the encoding of a
    cache definition that lists the header names in header order, each with
    an empty shared-items placeholder, and whose worksheet source is the
    sheet of the data range with the reference from the top-left to the
    bottom-right cell of the resolved range; nothing else of the document
    changes. *)
Theorem addPivotCache_content f pivotCacheID pivotCacheXML opt f' :
  addPivotCache f pivotCacheID pivotCacheXML opt = Returns (f', None) ->
  exists dataSheet x1 y1 x2 y2 order pc,
    adjustRange (DataRange opt) = Returns (dataSheet, [x1; y1; x2; y2], None) /\
    getPivotFieldsOrder f (DataRange opt) = Returns (order, None) /\
    f' = saveFileList f pivotCacheXML (fst (Marshal_PivotCacheDefinition pc)) /\
    map cf_Name (cfs_CacheField (pc_CacheFields pc)) = order /\
    Forall (fun field => cf_SharedItems field = Some (Build_xlsxSharedItems 0))
      (cfs_CacheField (pc_CacheFields pc)) /\
    pc_CacheSource pc
    = Some (Build_xlsxCacheSource "worksheet"
              (Some (Build_xlsxWorksheetSource
                       (fst (CoordinatesToCellName x1 y1) +:+ ":"
                          +:+ fst (CoordinatesToCellName x2 y2))
                       dataSheet))) /\
    pc_SaveData pc = false /\ pc_RefreshOnLoad pc = true.
Proof.
  unfold addPivotCache.
  destruct (adjustRange (DataRange opt)) as [[[dataSheet coordinates] [e|]]|] eqn:Hrange;
    [discriminate| |discriminate].
  destruct (getPivotFieldsOrder f (DataRange opt)) as [[order [e|]]|];
    [discriminate| |discriminate].
  destruct (Marshal_PivotCacheDefinition _) as [pivotCache err] eqn:Hencode.
  intros [= <- _].
  destruct (adjustRange_ok _ _ _ Hrange)
    as (rng & a1 & b1 & a2 & b2 & _ & _ & _ & _ & _ & ->).
  exists dataSheet, (Z.min a1 a2), (Z.min b1 b2), (Z.max a1 a2), (Z.max b1 b2), order.
  eexists. split; [reflexivity|]. split; [reflexivity|].
  split; [rewrite Hencode; reflexivity|].
  rewrite newPivotCacheDefinition_fields. simpl.
  split; [rewrite map_map; simpl; apply map_id|].
  split; [apply Forall_forall; intros x (name & -> & _)%list_elem_of_fmap; reflexivity|].
  unfold newPivotCacheDefinition. rewrite fold_appendCacheField. auto.
Qed.
End Wiring.

(** ** When the build succeeds *)

Section Success.
Context {host : Collaborators}.

Lemma orderLoop_ext f f' dataSheet row last n : forall col order,
  Z.to_nat (last + 1 - col) = n ->
  (forall cell, GetCellValue f' dataSheet cell = GetCellValue f dataSheet cell) ->
  orderLoop f' dataSheet row last col order = orderLoop f dataSheet row last col order.
Proof.
  induction n as [|n IH]; intros col order Hn Hsame;
    rewrite (orderLoop_step f'), (orderLoop_step f); unfold headerCell; rewrite Hsame.
  - destruct (Z.leb_spec col last); [lia|reflexivity].
  - destruct (Z.leb_spec col last); [|reflexivity].
    destruct (GetCellValue f dataSheet _) as [name [e|]]; [reflexivity|].
    apply IH; [lia|exact Hsame].
Qed.

Lemma getPivotFieldsOrder_ext f f' dataRange :
  (forall sheet cell, GetCellValue f' sheet cell = GetCellValue f sheet cell) ->
  getPivotFieldsOrder f' dataRange = getPivotFieldsOrder f dataRange.
Proof.
  intros Hsame. unfold getPivotFieldsOrder.
  destruct (adjustRange dataRange) as [[[dataSheet coordinates] [e|]]|];
    [reflexivity| |reflexivity].
  f_equal. eapply orderLoop_ext; [reflexivity|]. intros cell. apply Hsame.
Qed.

(** X19.  Validation, a readable header and working encoders are all a
    build needs: when cell reads do not depend on what a build adds to the
    document, a build on a validated option whose header can be read, with
    encoders that accept the two definitions, succeeds; its table
    definition classifies the same header that its cache definition
    lists. *)
Theorem AddPivotTable_succeeds f opt pivotTableSheetPath order :
  parseFormatPivotTableSet f (Some opt) = Returns (pivotTableSheetPath, None) ->
  getPivotFieldsOrder f (DataRange opt) = Returns (order, None) ->
  (forall f' sheet cell,
     grows (pivotTablePart (countPivotTables f + 1)) (pivotCachePart (countPivotCache f + 1))
       f f' ->
     GetCellValue f' sheet cell = GetCellValue f sheet cell) ->
  (forall pc, snd (Marshal_PivotCacheDefinition pc) = None) ->
  (forall pt, snd (Marshal_PivotTableDefinition pt) = None) ->
  exists f' pt,
    AddPivotTable f (Some opt) = Returns (f', None) /\
    XLSX f' !! pivotTablePart (countPivotTables f + 1)
    = Some (XMLHeader ++ fst (Marshal_PivotTableDefinition pt)) /\
    pfs_PivotField (pt_PivotFields pt) = map (classify opt) order /\
    getPivotFieldsIndex f (Rows opt) opt
    = Returns (map field_X (rf_Field (pt_RowFields pt)), None) /\
    getPivotFieldsIndex f (Data opt) opt
    = Returns (map df_Fld (dfs_DataField (pt_DataFields pt)), None).
Proof.
  intros Hparse Horder Hreads Hcache Htable.
  rewrite (AddPivotTable_steps _ _ _ Hparse). cbv zeta.
  set (t := countPivotTables f + 1) in *. set (c := countPivotCache f + 1) in *.
  pose proof Hparse as Hvalid.
  apply parseFormatPivotTableSet_valid in Hvalid
    as (dataSheet & c1 & sheet & c2 & Hd & Hp).
  unfold addPivotCache at 1. rewrite Hd, Horder.
  pose proof (Hcache (newPivotCacheDefinition dataSheet c1 order)) as Hencode.
  destruct (Marshal_PivotCacheDefinition _) as [pivotCache err]. simpl in Hencode. subst err.
  pose proof (grows_registerPivotCache (pivotTablePart t) (pivotCachePart c) t c
                (saveFileList f (pivotCachePart c) pivotCache)) as Hg.
  destruct (registerPivotCache t c _) as [f4 cacheID]. simpl in Hg.
  assert (Hgrows : grows (pivotTablePart t) (pivotCachePart c) f f4)
    by (eapply grows_trans; [apply grows_save; auto|exact Hg]).
  assert (Horder4 : getPivotFieldsOrder f4 (DataRange opt) = Returns (order, None)).
  { rewrite <- Horder. apply getPivotFieldsOrder_ext. intros. apply Hreads, Hgrows. }
  unfold addPivotTable. rewrite Hp.
  rewrite (newPivotTableDefinition_ok _ _ _ _ _ _ Horder4).
  match goal with |- context [Marshal_PivotTableDefinition ?x] => set (pt := x) end.
  pose proof (Htable pt) as Hencode.
  destruct (Marshal_PivotTableDefinition pt) as [pivotTable err] eqn:Hm.
  simpl in Hencode. subst err.
  eexists _, pt. split; [reflexivity|].
  destruct (registerPivotTable_adds t c pivotTableSheetPath
              (saveFileList f4 (pivotTablePart t) pivotTable)) as (-> & _).
  split; [simpl; rewrite lookup_insert_eq, Hm; reflexivity|].
  rewrite !(getPivotFieldsIndex_ok _ _ _ _ Horder). subst pt. simpl.
  rewrite !map_map. simpl. rewrite !map_id. auto.
Qed.
End Success.

(** ** What the header extraction returns when it fails *)

Section OrderFailure.
Context {host : Collaborators}.

(** X20.  On a range that [adjustRange] rejects, [getPivotFieldsOrder]
    returns no name and the error of [adjustRange] behind the words
    [parameter 'DataRange' parsing error: ]; when a cell read fails, it
    returns, with the error of the read, the names read at the columns
    before the failing one; it panics exactly when [adjustRange] does. *)
Theorem getPivotFieldsOrder_failure f dataRange :
  (forall sheet coordinates e,
     adjustRange dataRange = Returns (sheet, coordinates, Some e) ->
     getPivotFieldsOrder f dataRange
     = Returns ([], Some ("parameter 'DataRange' parsing error: " +:+ e))) /\
  (forall dataSheet x1 y1 x2 y2 col e,
     adjustRange dataRange = Returns (dataSheet, [x1; y1; x2; y2], None) ->
     x1 <= col <= x2 ->
     (forall c, x1 <= c < col -> snd (headerCell f dataSheet y1 c) = None) ->
     snd (headerCell f dataSheet y1 col) = Some e ->
     getPivotFieldsOrder f dataRange
     = Returns (map (fun c => fst (headerCell f dataSheet y1 c)) (seqZ x1 (col - x1)),
                Some e)) /\
  (adjustRange dataRange = Panics <-> getPivotFieldsOrder f dataRange = Panics).
Proof.
  split; [|split].
  - intros sheet coordinates e He. unfold getPivotFieldsOrder. rewrite He. reflexivity.
  - intros dataSheet x1 y1 x2 y2 col e Hres Hcol Hread Hbad.
    rewrite (getPivotFieldsOrder_resolved _ _ _ _ _ _ _ Hres). f_equal.
    apply (orderLoop_fails f dataSheet y1 x2 col e _ x1 [] eq_refl Hcol Hread Hbad).
  - split; [|apply getPivotFieldsOrder_panic].
    intros Hpanic. unfold getPivotFieldsOrder. rewrite Hpanic. reflexivity.
Qed.
End OrderFailure.

(** ** The build reads the options through their resolution only *)

Section SameResolution.
Context {host : Collaborators}.
Variables o1 o2 : PivotTableOption.
Hypothesis same_data : adjustRange (DataRange o1) = adjustRange (DataRange o2).
Hypothesis same_place : adjustRange (PivotTableRange o1) = adjustRange (PivotTableRange o2).
Hypothesis same_rows : Rows o1 = Rows o2.
Hypothesis same_columns : Columns o1 = Columns o2.
Hypothesis same_values : Data o1 = Data o2.

Lemma same_order f :
  getPivotFieldsOrder f (DataRange o1) = getPivotFieldsOrder f (DataRange o2).
Proof. unfold getPivotFieldsOrder. rewrite same_data. reflexivity. Qed.

Lemma same_index f fields :
  getPivotFieldsIndex f fields o1 = getPivotFieldsIndex f fields o2.
Proof. unfold getPivotFieldsIndex. rewrite same_order. reflexivity. Qed.

Lemma same_addPivotFields f pt : addPivotFields f pt o1 = addPivotFields f pt o2.
Proof.
  unfold addPivotFields. rewrite same_order, same_rows, same_columns, same_values.
  reflexivity.
Qed.

Lemma same_addPivotColFields f pt : addPivotColFields f pt o1 = addPivotColFields f pt o2.
Proof.
  unfold addPivotColFields. rewrite same_columns, same_index. reflexivity.
Qed.

Lemma same_definition f cacheID pivotTableID coordinates :
  newPivotTableDefinition f cacheID pivotTableID coordinates o1
  = newPivotTableDefinition f cacheID pivotTableID coordinates o2.
Proof.
  unfold newPivotTableDefinition.
  rewrite same_addPivotFields, same_rows, same_values.
  destruct (addPivotFields f _ o2) as [[pt [e|]]|]; [reflexivity| |reflexivity].
  rewrite !same_index.
  destruct (getPivotFieldsIndex f (Rows o2) o2) as [[rowFieldsIndex [e|]]|];
    [reflexivity| |reflexivity].
  rewrite same_addPivotColFields. reflexivity.
Qed.

Lemma same_addPivotCache f pivotCacheID pivotCacheXML :
  addPivotCache f pivotCacheID pivotCacheXML o1 = addPivotCache f pivotCacheID pivotCacheXML o2.
Proof. unfold addPivotCache. rewrite same_data, same_order. reflexivity. Qed.

Lemma same_addPivotTable f cacheID pivotTableID pivotTableXML :
  addPivotTable f cacheID pivotTableID pivotTableXML o1
  = addPivotTable f cacheID pivotTableID pivotTableXML o2.
Proof.
  unfold addPivotTable. rewrite same_place.
  destruct (adjustRange (PivotTableRange o2)) as [[[sheet coordinates] [e|]]|];
    [reflexivity| |reflexivity].
  rewrite same_definition. reflexivity.
Qed.

Lemma same_validation f :
  parseFormatPivotTableSet f (Some o1) = parseFormatPivotTableSet f (Some o2).
Proof. simpl. rewrite same_data, same_place. reflexivity. Qed.

(** X21.  The build reads its options through the resolution of the two
    ranges and through Rows, Columns and Data only: two options whose
    ranges resolve alike (corners exchanged, anchors added or left out) and
    whose three lists are the same give the same result and the same
    document. *)
Theorem AddPivotTable_same_resolution f :
  AddPivotTable f (Some o1) = AddPivotTable f (Some o2).
Proof.
  unfold AddPivotTable. rewrite same_validation.
  destruct (parseFormatPivotTableSet f (Some o2)) as [[path [e|]]|];
    [reflexivity| |reflexivity].
  cbv zeta. rewrite same_addPivotCache.
  destruct (addPivotCache f _ _ o2) as [[f1 [e|]]|]; [reflexivity| |reflexivity].
  destruct (addRels f1 _ _ _ _) as [f2 rid].
  destruct (addWorkbookPivotCache f2 rid) as [f3 cacheID].
  destruct (addRels f3 _ _ _ _) as [f4 rid'].
  rewrite same_addPivotTable. reflexivity.
Qed.
End SameResolution.

(** ** The documented example, run on the sample workbook *)

(** From here on the collaborators are those of the sample. *)
#[global] Existing Instance Sample.collaborators.



Lemma no_separator_in_Sheet1 : ~ occurs "!" "Sheet1".
Proof. literal_bytes. Qed.

(** The header row of the example is read back as it was written. *)
Example sample_order :
  getPivotFieldsOrder Sample.newFile "Sheet1!$A$1:$E$31"
  = Returns (["Month"; "Year"; "Type"; "Sales"; "Region"], None).
Proof. vm_compute. reflexivity. Qed.

(** A read that fails stops the extraction with the error of the read. *)
Example sample_order_read_error :
  getPivotFieldsOrder Sample.newFile "Sheet9!$A$1:$E$31"
  = Returns ([], Some "sheet Sheet9 is not exist").
Proof. vm_compute. reflexivity. Qed.

(** The two corner orders of the example, and a range with the columns
    reversed and the rows in order. *)
Example sample_ranges :
  adjustRange "Sheet1!$E$31:$A$1" = Returns ("Sheet1", [1; 1; 5; 31], None) /\
  adjustRange "Sheet1!$A$1:$E$31" = Returns ("Sheet1", [1; 1; 5; 31], None) /\
  adjustRange "Sheet1!C1:B3" = Returns ("Sheet1", [2; 1; 3; 3], None).
Proof. vm_compute. auto. Qed.

(** Inputs that [adjustRange] rejects: a single cell given twice, no
    separator, the empty string, two separators, and a corner that is no
    cell name, for which the error of the parser is passed on. *)
Example sample_rejected_ranges :
  adjustRange "Sheet1!$A$1:$A$1" = Returns ("Sheet1", [], Some "parameter is invalid") /\
  adjustRange "Sheet1" = Returns ("", [], Some "parameter is invalid") /\
  adjustRange "" = Returns ("", [], Some "parameter is required") /\
  adjustRange "Sheet1!A1:B2!C3" = Returns ("", [], Some "parameter is invalid") /\
  match adjustRange "Sheet1!A1:2B", Sample.areaRefToCoordinates "A1:2B" with
  | Returns (name, coordinates, err), Returns (_, err') =>
      name = "Sheet1" /\ coordinates = [] /\ err = err' /\ err <> None
  | _, _ => False
  end.
Proof. vm_compute. repeat split; discriminate. Qed.

(** A range portion without a colon, one cell only: the parser indexes a
    piece that is not there, and the panic goes through [adjustRange] and
    through the validation of [AddPivotTable]. *)
Example sample_single_cell_panics :
  Sample.areaRefToCoordinates "A1" = Panics /\
  adjustRange "Sheet1!$A$1" = Panics /\
  getPivotFieldsOrder Sample.newFile "Sheet1!A1" = Panics /\
  AddPivotTable Sample.newFile
    (Some (mkPivotTableOption "Sheet1!A1" "Sheet1!$G$2:$M$34"
             ["Month"; "Year"] ["Type"] ["Sales"] []))
  = Panics.
Proof. vm_compute. auto. Qed.

(** Index resolution on the header of the example. *)
Example sample_index :
  getPivotFieldsIndex Sample.newFile ["Year"; "Sales"] Sample.options
  = Returns ([1; 3], None) /\
  getPivotFieldsIndex Sample.newFile ["NotAColumn"] Sample.options = Returns ([], None) /\
  inStrSlice ["Year"; "Month"; "Year"] "Year" = 0.
Proof. vm_compute. auto. Qed.

(** The classification of the example: positions 0 and 1 on the row axis,
    position 2 on the column axis, position 3 a data field, position 4
    unclassified. *)
Example sample_classification :
  match addPivotFields Sample.newFile (emptyPivotTableDefinition 2 1 [7; 2; 13; 34])
          Sample.options with
  | Returns (pt, None) =>
      pfs_PivotField (pt_PivotFields pt)
      = [axisRowField; axisRowField; axisColField; dataField; emptyField]
  | _ => False
  end.
Proof. vm_compute. reflexivity. Qed.

(** Lists that overlap are resolved by the priority and raise no error:
    Month is in all three lists and lands on the row axis, Type is in
    Columns and Data and lands on the column axis. *)
Example sample_overlap :
  let opt := mkPivotTableOption "Sheet1!$A$1:$E$31" "Sheet1!$G$2:$M$34"
               ["Month"] ["Month"; "Type"] ["Type"; "Month"; "Sales"] [] in
  match addPivotFields Sample.newFile (emptyPivotTableDefinition 2 1 []) opt with
  | Returns (pt, err) =>
      err = None /\
      pfs_PivotField (pt_PivotFields pt)
      = [axisRowField; emptyField; axisColField; dataField; emptyField]
  | Panics => False
  end.
Proof. vm_compute. auto. Qed.

(** The counts of the table definition of the example. *)
Example sample_counts :
  match newPivotTableDefinition Sample.newFile 2 1 [7; 2; 13; 34] Sample.options with
  | Returns (pt, None) =>
      pfs_Count (pt_PivotFields pt) = 5 /\
      rf_Field (pt_RowFields pt) = [Build_xlsxField 0; Build_xlsxField 1] /\
      rf_Count (pt_RowFields pt) = 2 /\
      pt_ColFields pt = Some {| colf_Count := 1; colf_Field := [Build_xlsxField 2] |} /\
      pt_DataFields pt = {| dfs_Count := 1; dfs_DataField := [Build_xlsxDataField 3] |}
  | _ => False
  end.
Proof. vm_compute. auto 6. Qed.

(** Two builds on a new document: suffixes 1, then 2; cache IDs 2, then 3. *)
Example sample_two_builds :
  match AddPivotTable Sample.newFile (Some Sample.options) with
  | Returns (f1, None) =>
      match AddPivotTable f1 (Some Sample.options) with
      | Returns (f2, None) =>
          map fst (map_to_list (XLSX f1))
          = ["xl/worksheets/sheet1.xml"; "xl/workbook.xml";
             "xl/pivotCache/pivotCacheDefinition1.xml"; "xl/pivotTables/pivotTable1.xml"] /\
          is_Some (XLSX f2 !! "xl/pivotCache/pivotCacheDefinition2.xml") /\
          is_Some (XLSX f2 !! "xl/pivotTables/pivotTable2.xml") /\
          size (XLSX f2) = 6%nat /\
          map CacheID (default [] (PivotCaches f2)) = [2; 3] /\
          ContentTypes f2
          = [Build_xlsxOverride 1 "pivotTable"; Build_xlsxOverride 1 "pivotCache";
             Build_xlsxOverride 2 "pivotTable"; Build_xlsxOverride 2 "pivotCache"]
      | _ => False
      end
  | _ => False
  end.
Proof. vm_compute. repeat split; eauto. Qed.

(** The suffix follows the count, not the largest suffix in use: with
    [pivotTable5.xml] as the only table part the next table part is
    [pivotTable2.xml]. *)
Example sample_count_based :
  let f := mkFile (<["xl/pivotTables/pivotTable5.xml" := []]> (XLSX Sample.newFile))
             (sheetMap Sample.newFile) None ∅ [] in
  match AddPivotTable f (Some Sample.options) with
  | Returns (f1, None) =>
      countPivotTables f = 1 /\
      is_Some (XLSX f1 !! "xl/pivotTables/pivotTable2.xml") /\
      XLSX f1 !! "xl/pivotTables/pivotTable6.xml" = None
  | _ => False
  end.
Proof. vm_compute. repeat split; eauto. Qed.

(** A build that takes the path of a declared table part declares it no
    second time; the next build takes the same path again. *)
Example sample_declared_once :
  match AddPivotTable withDeclaredPath (Some Sample.options) with
  | Returns (f1, None) =>
      match AddPivotTable f1 (Some Sample.options) with
      | Returns (f2, None) =>
          ContentTypes f1
          = [Build_xlsxOverride 2 "pivotTable"; Build_xlsxOverride 1 "pivotCache"] /\
          ContentTypes f2
          = [Build_xlsxOverride 2 "pivotTable"; Build_xlsxOverride 1 "pivotCache";
             Build_xlsxOverride 2 "pivotCache"] /\
          countPivotTables f2 = 1
      | _ => False
      end
  | _ => False
  end.
Proof. vm_compute. auto. Qed.

(** Validation failures leave the sample document as it is. *)
Example sample_validation :
  AddPivotTable Sample.newFile None
  = Returns (Sample.newFile, Some "parameter is required") /\
  AddPivotTable Sample.newFile
    (Some (mkPivotTableOption "Sheet1!$A$1:$E$31" "Sheet9!$G$2:$M$34"
             ["Month"; "Year"] ["Type"] ["Sales"] []))
  = Returns (Sample.newFile, Some "sheet Sheet9 is not exist") /\
  AddPivotTable Sample.newFile
    (Some (mkPivotTableOption "Sheet1!$A$1:$A$1" "Sheet1!$G$2:$M$34"
             ["Month"; "Year"] ["Type"] ["Sales"] []))
  = Returns (Sample.newFile,
             Some "parameter 'DataRange' parsing error: parameter is invalid").
Proof. vm_compute. auto. Qed.

(** Witness of C1: the documented options on the sample header. *)
Lemma addPivotFields_priority_witness :
  exists pt' fields,
    addPivotFields Sample.newFile (emptyPivotTableDefinition 2 1 [7; 2; 13; 34]) Sample.options
    = Returns (pt', None) /\
    pfs_PivotField (pt_PivotFields pt') = [] ++ fields /\
    Forall2 (classified Sample.options) ["Month"; "Year"; "Type"; "Sales"; "Region"] fields /\
    NoDup [axisRowField; axisColField; dataField; emptyField].
Proof.
  apply (addPivotFields_priority (host := Sample.collaborators) Sample.newFile
           (emptyPivotTableDefinition 2 1 [7; 2; 13; 34]) Sample.options).
  vm_compute. reflexivity.
Defined.

(** Witness of C2: the reversed range of the documentation. *)
Lemma adjustRange_normalizes_witness :
  adjustRange "Sheet1!$E$31:$A$1" = Returns ("Sheet1", [1; 1; 5; 31], None) /\
  adjustRange "Sheet1!$A$1:$E$31" = adjustRange "Sheet1!$E$31:$A$1".
Proof.
  destruct (adjustRange_normalizes (host := Sample.collaborators)
              "Sheet1" "$E$31:$A$1" 5 31 1 1)
    as (x1 & y1 & x2 & y2 & Hres & _ & _ & -> & -> & -> & -> & Hswap).
  - exact no_separator_in_Sheet1.
  - literal_bytes.
  - vm_compute. reflexivity.
  - lia.
  - split; [exact Hres|].
    apply (Hswap "$A$1:$E$31"); [literal_bytes|].
    vm_compute. reflexivity.
Defined.

(** Cache IDs on an empty registry, on a registry that was never created and
    on a sparse one. *)
Example sample_cache_ids :
  snd (addWorkbookPivotCache (withRegistry None) 1) = 2 /\
  snd (addWorkbookPivotCache (withRegistry (Some [])) 1) = 2 /\
  snd (addWorkbookPivotCache
         (withRegistry (Some [Build_xlsxPivotCache 3 "rId1"; Build_xlsxPivotCache 7 "rId2";
                              Build_xlsxPivotCache 5 "rId3"])) 4) = 8.
Proof. vm_compute. auto. Qed.

(** Counterexample to C3 as stated: on an empty registry no cache ID is
    registered and the ID allocated is 2, not 1; on a registry whose only
    cache ID is 0, the largest registered ID is 0 and the ID allocated is
    again 2; and past the largest [int] the increment wraps around. *)
Lemma cacheID_not_max_plus_one :
  snd (addWorkbookPivotCache (withRegistry None) 1)
  <> default 0 (maxRegistered (default [] (PivotCaches (withRegistry None)))) + 1 /\
  maxRegistered [Build_xlsxPivotCache 0 "rId1"] = Some 0 /\
  snd (addWorkbookPivotCache (withRegistry (Some [Build_xlsxPivotCache 0 "rId1"])) 2) <> 0 + 1 /\
  snd (addWorkbookPivotCache (withRegistry (Some [Build_xlsxPivotCache MaxInt "rId1"])) 2)
  <> MaxInt + 1.
Proof. vm_compute. repeat split; discriminate. Qed.

(** Witness of C3: a sparse registry. *)
Lemma addWorkbookPivotCache_cacheID_witness :
  snd (addWorkbookPivotCache
         (withRegistry (Some [Build_xlsxPivotCache 3 "rId1"; Build_xlsxPivotCache 7 "rId2";
                              Build_xlsxPivotCache 5 "rId3"])) 4) = 7 + 1.
Proof.
  destruct (addWorkbookPivotCache_cacheID
              (withRegistry (Some [Build_xlsxPivotCache 3 "rId1"; Build_xlsxPivotCache 7 "rId2";
                                   Build_xlsxPivotCache 5 "rId3"])) 4)
    as (f' & cacheID & Heq & _ & _ & _ & Hmax & _).
  - simpl. repeat constructor.
  - rewrite Heq. simpl. apply (Hmax 7); [reflexivity|lia].
Defined.

(** Witness of C4: the first build on the sample document. *)
Lemma AddPivotTable_suffixes_witness :
  exists f1,
    AddPivotTable Sample.newFile (Some Sample.options) = Returns (f1, None) /\
    countPivotTables f1 = 1 /\ countPivotCache f1 = 1.
Proof.
  destruct (AddPivotTable Sample.newFile (Some Sample.options)) as [[f1 [e|]]|] eqn:Hbuild;
    [vm_compute in Hbuild; discriminate Hbuild| |vm_compute in Hbuild; discriminate Hbuild].
  exists f1. split; [reflexivity|].
  destruct (AddPivotTable_suffixes (host := Sample.collaborators) Sample.newFile Sample.options
              f1 Hbuild)
    as (_ & _ & _ & Hfresh).
  destruct Hfresh as (Htables & Hcaches & _); [vm_compute; reflexivity..|].
  split; assumption.
Defined.


(** Witness of C6: two names of the sample header. *)
Lemma getPivotFieldsIndex_resolves_witness :
  exists poss,
    getPivotFieldsIndex Sample.newFile ["Year"; "Sales"] Sample.options
    = Returns (poss, None) /\
    resolves ["Month"; "Year"; "Type"; "Sales"; "Region"] ["Year"; "Sales"] poss /\
    forall poss',
      resolves ["Month"; "Year"; "Type"; "Sales"; "Region"] ["Year"; "Sales"] poss' ->
      poss' = poss.
Proof.
  apply (getPivotFieldsIndex_resolves (host := Sample.collaborators) Sample.newFile
           ["Year"; "Sales"] Sample.options).
  vm_compute. reflexivity.
Defined.

(** Witness of C7: the range of one cell, whose range portion has no
    colon. *)
Lemma adjustRange_parser_panic_witness :
  adjustRange "Sheet1!A1" = Panics /\
  forall name coordinates err, adjustRange "Sheet1!A1" <> Returns (name, coordinates, err).
Proof.
  apply (adjustRange_parser_panic (host := Sample.collaborators) "Sheet1" "A1");
    [exact no_separator_in_Sheet1|literal_bytes|vm_compute; reflexivity].
Defined.

(** ** Witnesses of the further properties *)

Lemma sample_header_NoDup : NoDup ["Month"; "Year"; "Type"; "Sales"; "Region"].
Proof. apply (bool_decide_unpack _). vm_compute. exact I. Qed.

(** Witness of X1: the documented range with and without anchors. *)
Lemma adjustRange_anchors_witness :
  adjustRange "Sheet1!$A$1:$E$31" = adjustRange "Sheet1!A1:E$31" /\
  adjustRange "Sheet1!A1:E31" = adjustRange "Sheet1!$A$1:$E$31".
Proof.
  apply (adjustRange_anchors (host := Sample.collaborators) "Sheet1" "$A$1:$E$31" "A1:E$31");
    [literal_bytes..|vm_compute; reflexivity].
Defined.

(** Witness of X4: a request with a repeated and an unknown name. *)
Lemma getPivotFieldsIndex_positions_witness :
  exists poss,
    getPivotFieldsIndex Sample.newFile ["Year"; "Nope"; "Sales"; "Year"] Sample.options
    = Returns (poss, None) /\
    omap (fun p => ["Month"; "Year"; "Type"; "Sales"; "Region"] !! Z.to_nat p) poss
    = ["Year"; "Sales"; "Year"] /\
    length poss = 3%nat.
Proof.
  destruct (getPivotFieldsIndex_positions (host := Sample.collaborators) Sample.newFile
              ["Year"; "Nope"; "Sales"; "Year"] Sample.options
              ["Month"; "Year"; "Type"; "Sales"; "Region"])
    as (poss & Hposs & Hnames & Hlen & _); [vm_compute; reflexivity|].
  exists poss. split; [exact Hposs|].
  split; [rewrite Hnames|rewrite Hlen]; vm_compute; reflexivity.
Defined.

(** Witness of X5: the second row field of the documented example. *)
Lemma RowFields_point_to_row_axis_witness :
  exists pt,
    newPivotTableDefinition Sample.newFile 2 1 [7; 2; 13; 34] Sample.options
    = Returns (pt, None) /\
    pfs_PivotField (pt_PivotFields pt) !! Z.to_nat (field_X (Build_xlsxField 1))
    = Some axisRowField.
Proof.
  destruct (RowFields_point_to_row_axis (host := Sample.collaborators) Sample.newFile 2 1
              [7; 2; 13; 34] Sample.options ["Month"; "Year"; "Type"; "Sales"; "Region"])
    as (pt & Hpt & Hrows); [vm_compute; reflexivity|].
  exists pt. split; [exact Hpt|]. apply Hrows.
  vm_compute in Hpt. injection Hpt as <-.
  apply list_elem_of_In. vm_compute. auto.
Defined.

Lemma sample_columns_disjoint name :
  name ∈ Columns Sample.options -> name ∉ Rows Sample.options.
Proof.
  intros Hin Hrow. apply list_elem_of_In in Hin, Hrow. simpl in Hin, Hrow.
  destruct Hin as [<-|[]]. destruct Hrow as [Heq|[Heq|[]]]; discriminate Heq.
Qed.

Lemma sample_data_disjoint name :
  name ∈ Data Sample.options ->
  (name ∉ Rows Sample.options) /\ (name ∉ Columns Sample.options).
Proof.
  intros Hin. apply list_elem_of_In in Hin. simpl in Hin. destruct Hin as [<-|[]].
  split; intros Hin; apply list_elem_of_In in Hin; simpl in Hin;
    repeat (destruct Hin as [Hin|Hin]; [discriminate Hin|]); destruct Hin.
Qed.

(** Witness of X6: the lists of the documented example are disjoint. *)
Lemma disjoint_lists_agree_witness :
  exists pt,
    newPivotTableDefinition Sample.newFile 2 1 [7; 2; 13; 34] Sample.options
    = Returns (pt, None) /\
    pfs_PivotField (pt_PivotFields pt) !! Z.to_nat (field_X (Build_xlsxField 2))
    = Some axisColField /\
    pfs_PivotField (pt_PivotFields pt) !! Z.to_nat (df_Fld (Build_xlsxDataField 3))
    = Some dataField.
Proof.
  destruct (disjoint_lists_agree (host := Sample.collaborators) Sample.newFile 2 1
              [7; 2; 13; 34] Sample.options ["Month"; "Year"; "Type"; "Sales"; "Region"])
    as (pt & Hpt & Hcols & Hdata); [vm_compute; reflexivity|].
  exists pt. split; [exact Hpt|].
  vm_compute in Hpt. injection Hpt as <-.
  split.
  - apply (Hcols sample_columns_disjoint
             (Build_xlsxColFields 1 [Build_xlsxField 2]) (Build_xlsxField 2));
      [vm_compute; reflexivity|apply list_elem_of_In; vm_compute; auto].
  - apply (Hdata sample_data_disjoint (Build_xlsxDataField 3)).
    apply list_elem_of_In. vm_compute. auto.
Defined.

(** Witness of X7: Month in Rows and in Columns. *)
Lemma overlap_column_entry_on_row_axis_witness :
  exists pt c fld,
    newPivotTableDefinition Sample.newFile 2 1 [7; 2; 13; 34] overlappingOptions
    = Returns (pt, None) /\
    pt_ColFields pt = Some c /\
    fld ∈ colf_Field c /\
    field_X fld = inStrSlice ["Month"; "Year"; "Type"; "Sales"; "Region"] "Month" /\
    pfs_PivotField (pt_PivotFields pt) !! Z.to_nat (field_X fld) = Some axisRowField /\
    axisRowField <> axisColField.
Proof.
  apply (overlap_column_entry_on_row_axis (host := Sample.collaborators) Sample.newFile 2 1
           [7; 2; 13; 34] overlappingOptions ["Month"; "Year"; "Type"; "Sales"; "Region"]
           "Month");
    [vm_compute; reflexivity|apply list_elem_of_In; simpl; auto..].
Defined.

(** Witness of X8: position 1 of the documented example. *)
Lemma row_axis_iff_RowFields_witness :
  exists pt,
    newPivotTableDefinition Sample.newFile 2 1 [7; 2; 13; 34] Sample.options
    = Returns (pt, None) /\
    (pfs_PivotField (pt_PivotFields pt) !! 1%nat = Some axisRowField <->
     Z.of_nat 1 ∈ map field_X (rf_Field (pt_RowFields pt))).
Proof.
  destruct (row_axis_iff_RowFields (host := Sample.collaborators) Sample.newFile 2 1
              [7; 2; 13; 34] Sample.options ["Month"; "Year"; "Type"; "Sales"; "Region"])
    as (pt & Hpt & Hiff); [vm_compute; reflexivity|exact sample_header_NoDup|].
  exists pt. split; [exact Hpt|apply Hiff].
Defined.

(** Witness of X11: the sparse registry. *)
Lemma addWorkbookPivotCache_keeps_unique_witness :
  NoDup (map CacheID (default [] (PivotCaches (fst (addWorkbookPivotCache sparseRegistry 4))))).
Proof.
  pose proof (addWorkbookPivotCache_keeps_unique sparseRegistry 4) as Hunique.
  destruct (addWorkbookPivotCache sparseRegistry 4) as [f' cacheID].
  apply Hunique.
  - simpl. repeat constructor.
  - apply (bool_decide_unpack _). vm_compute. exact I.
Defined.

(** Witness of X12: two allocations on the sparse registry. *)
Lemma addWorkbookPivotCache_consecutive_witness :
  snd (addWorkbookPivotCache (fst (addWorkbookPivotCache sparseRegistry 4)) 5)
  = snd (addWorkbookPivotCache sparseRegistry 4) + 1.
Proof.
  apply (addWorkbookPivotCache_consecutive sparseRegistry 4 5).
  simpl. repeat constructor.
Defined.

(** Witness of X14: a build on the document that holds, and declares, a
    table part at the path the build takes; the override of the table part
    is not declared twice. *)
Lemma AddPivotTable_wires_witness :
  exists f1,
    AddPivotTable withDeclaredPath (Some Sample.options) = Returns (f1, None) /\
    ContentTypes f1 = [Build_xlsxOverride 2 "pivotTable"; Build_xlsxOverride 1 "pivotCache"].
Proof.
  destruct (AddPivotTable withDeclaredPath (Some Sample.options)) as [[f1 [e|]]|] eqn:Hbuild;
    [vm_compute in Hbuild; discriminate Hbuild| |vm_compute in Hbuild; discriminate Hbuild].
  exists f1. split; [reflexivity|].
  destruct (AddPivotTable_wires (host := Sample.collaborators) withDeclaredPath Sample.options
              f1 Hbuild)
    as (pt & cacheID & rid & path & _ & _ & _ & _ & _ & _ & _ & _ & _ & _ & _ & Htypes).
  rewrite Htypes. vm_compute. reflexivity.
Defined.

(** Witness of X15: the documented build with a failing table encoder. *)
Lemma AddPivotTable_failure_states_witness :
  match AddPivotTable (host := failingTableEncoder) Sample.newFile (Some Sample.options) with
  | Returns (f1, Some _) => ContentTypes f1 = ContentTypes Sample.newFile
  | _ => False
  end.
Proof.
  destruct (AddPivotTable (host := failingTableEncoder) Sample.newFile (Some Sample.options))
    as [[f1 [e|]]|] eqn:Hbuild;
    [|vm_compute in Hbuild; discriminate Hbuild..].
  destruct (AddPivotTable_failure_states (host := failingTableEncoder) Sample.newFile
              Sample.options "xl/worksheets/sheet1.xml" f1 e)
    as [Htypes _]; [vm_compute; reflexivity|exact Hbuild|exact Htypes].
Defined.

(** Witness of X16: the documented build with a failing cache encoder. *)
Lemma cache_encoder_failure_witness :
  AddPivotTable (host := failingCacheEncoder) Sample.newFile (Some Sample.options)
  = Returns (saveFileList (host := failingCacheEncoder) Sample.newFile
               "xl/pivotCache/pivotCacheDefinition1.xml" [],
             Some "xml: unsupported type").
Proof.
  apply (cache_encoder_failure (host := failingCacheEncoder) Sample.newFile Sample.options
           "xl/worksheets/sheet1.xml" "Sheet1" [1; 1; 5; 31]
           ["Month"; "Year"; "Type"; "Sales"; "Region"] [] "xml: unsupported type");
    vm_compute; reflexivity.
Defined.

(** Witness of X17: a build on the document whose next path is taken. *)
Lemma AddPivotTable_overwrites_witness :
  exists f1,
    AddPivotTable withTakenPath (Some Sample.options) = Returns (f1, None) /\
    countPivotTables f1 = countPivotTables withTakenPath.
Proof.
  destruct (AddPivotTable withTakenPath (Some Sample.options)) as [[f1 [e|]]|] eqn:Hbuild;
    [vm_compute in Hbuild; discriminate Hbuild| |vm_compute in Hbuild; discriminate Hbuild].
  exists f1. split; [reflexivity|].
  destruct (AddPivotTable_overwrites (host := Sample.collaborators) withTakenPath
              Sample.options f1 [] Hbuild)
    as (_ & Hcount & _); [vm_compute; reflexivity|exact Hcount].
Defined.

(** Witness of X18: the cache part of the documented build. *)
Lemma addPivotCache_content_witness :
  exists f' dataSheet x1 y1 x2 y2 order pc,
    addPivotCache Sample.newFile 1 (pivotCachePart 1) Sample.options = Returns (f', None) /\
    adjustRange (DataRange Sample.options) = Returns (dataSheet, [x1; y1; x2; y2], None) /\
    getPivotFieldsOrder Sample.newFile (DataRange Sample.options) = Returns (order, None) /\
    f' = saveFileList Sample.newFile (pivotCachePart 1) (fst (Marshal_PivotCacheDefinition pc)) /\
    map cf_Name (cfs_CacheField (pc_CacheFields pc)) = order /\
    Forall (fun field => cf_SharedItems field = Some (Build_xlsxSharedItems 0))
      (cfs_CacheField (pc_CacheFields pc)) /\
    pc_CacheSource pc
    = Some (Build_xlsxCacheSource "worksheet"
              (Some (Build_xlsxWorksheetSource
                       (fst (CoordinatesToCellName x1 y1) +:+ ":"
                          +:+ fst (CoordinatesToCellName x2 y2))
                       dataSheet))) /\
    pc_SaveData pc = false /\ pc_RefreshOnLoad pc = true.
Proof.
  destruct (addPivotCache Sample.newFile 1 (pivotCachePart 1) Sample.options)
    as [[f' [e|]]|] eqn:Hcache;
    [vm_compute in Hcache; discriminate Hcache| |vm_compute in Hcache; discriminate Hcache].
  destruct (addPivotCache_content (host := Sample.collaborators) Sample.newFile 1
              (pivotCachePart 1) Sample.options f' Hcache)
    as (dataSheet & x1 & y1 & x2 & y2 & order & pc & Hfacts).
  exists f', dataSheet, x1, y1, x2, y2, order, pc. split; [reflexivity|exact Hfacts].
Defined.

(** Witness of X19: the documented build. *)
Lemma AddPivotTable_succeeds_witness :
  exists f', AddPivotTable Sample.newFile (Some Sample.options) = Returns (f', None).
Proof.
  destruct (AddPivotTable_succeeds (host := Sample.collaborators) Sample.newFile Sample.options
              "xl/worksheets/sheet1.xml" ["Month"; "Year"; "Type"; "Sales"; "Region"])
    as (f' & pt & Hbuild & _).
  - vm_compute. reflexivity.
  - vm_compute. reflexivity.
  - intros f' sheet cell (Hsheets & _).
    change (Sample.GetCellValue f' sheet cell = Sample.GetCellValue Sample.newFile sheet cell).
    unfold Sample.GetCellValue. rewrite Hsheets. reflexivity.
  - intros pc. reflexivity.
  - intros pt. reflexivity.
  - exists f'. exact Hbuild.
Defined.

(** Witness of X21: the documented options against options with the
    corners exchanged and the anchors left out. *)
Lemma AddPivotTable_same_resolution_witness :
  AddPivotTable Sample.newFile (Some Sample.options)
  = AddPivotTable Sample.newFile
      (Some (mkPivotTableOption "Sheet1!E31:A1" "Sheet1!M34:G2"
               ["Month"; "Year"] ["Type"] ["Sales"] ["Region"])).
Proof.
  apply (AddPivotTable_same_resolution (host := Sample.collaborators) Sample.options
           (mkPivotTableOption "Sheet1!E31:A1" "Sheet1!M34:G2"
              ["Month"; "Year"] ["Type"] ["Sales"] ["Region"]));
    vm_compute; reflexivity.
Defined.
